(** * ServerKit HTTP server core (ext/common/ServerKit/HttpServer.h)

    A shallow embedding of the request life cycle implemented by the
    [HttpServer] class template: the request freelist, reference counting,
    the dispatch of inbound bytes on the request state, the simple response
    writer and the end-of-request path.  Pointers to requests and clients
    are keys of two finite maps; every member function is a computation in
    a state-and-fault monad over the server object. *)

From Stdlib Require Import ZArith Ascii String List Lia Bool.
From stdpp Require Import base tactics option list gmap strings pretty.

Local Open Scope Z_scope.

(** ** Machine integers *)

(** [unsigned int] arithmetic wraps modulo 2^32, [boost::uint64_t]
    arithmetic modulo 2^64, and the atomic [int] reference count wraps in
    two's complement. *)
Definition wrap32 (z : Z) : Z := z mod 2 ^ 32.
Definition wrap64 (z : Z) : Z := z mod 2 ^ 64.
Definition wrap_int (z : Z) : Z := (z + 2 ^ 31) mod 2 ^ 32 - 2 ^ 31.

(** ** Byte strings *)

(** A [MemoryKit::mbuf] is a window on received bytes; only its contents
    matter here.  [mbuf_size] is [size()]; [mbuf_slice b start len] is the
    sub-buffer constructor [mbuf(b, start, len)]. *)
Definition mbuf := string.
Definition mbuf_size (b : mbuf) : Z := Z.of_nat (String.length b).
Definition mbuf_slice (b : mbuf) (start len : Z) : mbuf :=
  substring (Z.to_nat start) (Z.to_nat len) b.
Definition mbuf_empty (b : mbuf) : bool := (mbuf_size b =? 0).

Definition CR : ascii := ascii_of_nat 13.
Definition LF : ascii := ascii_of_nat 10.
Definition CRLF : string := String CR (String LF EmptyString).

(** An [LString] is a chain of fragments; [psg_lstr_cmp] compares its
    contents with a contiguous string, byte for byte. *)
Definition LString := list string.
Definition lstr_data (l : LString) : string := fold_right String.append EmptyString l.
Definition lstr_size (l : LString) : Z := Z.of_nat (String.length (lstr_data l)).
Definition psg_lstr_cmp (l : LString) (s : string) : bool := String.eqb (lstr_data l) s.
Definition lstr (s : string) : LString := [s].


(** ** Header tables *)

Record Header := { key : LString; val : LString }.

(** Modelled from the spec: [HeaderTable] (ServerKit/HeaderTable.h is not
    among the sources), "an ordered associative container mapping lowercased
    field name to scattered value".  The list is the table in iteration
    order; [lookup] compares names exactly, as [psg_lstr_cmp] does. *)
Definition HeaderTable := list Header.

Fixpoint HeaderTable_lookup (t : HeaderTable) (name : string) : option LString :=
  match t with
  | [] => None
  | h :: t' => if psg_lstr_cmp (key h) name then Some (val h) else HeaderTable_lookup t' name
  end.

Fixpoint HeaderTable_insert (t : HeaderTable) (name value : string) : HeaderTable :=
  match t with
  | [] => [{| key := lstr name; val := lstr value |}]
  | h :: t' =>
      if psg_lstr_cmp (key h) name
      then {| key := key h; val := lstr value |} :: t'
      else h :: HeaderTable_insert t' name value
  end.

Definition HeaderTable_clear (t : HeaderTable) : HeaderTable := [].

(** ** Requests, clients and the server object *)

Definition RequestId := nat.
Definition ClientId := nat.
Definition psg_pool_t := nat.

Inductive HttpState :=
  | PARSING_HEADERS | PARSING_BODY | PARSING_CHUNKED_BODY | UPGRADED | COMPLETE
  | FLUSHING_OUTPUT | WAITING_FOR_REFERENCES | IN_FREELIST | ERROR.

Inductive BodyType := RBT_NO_BODY | RBT_CONTENT_LENGTH | RBT_CHUNKED | RBT_UPGRADE.

Inductive http_method :=
  | HTTP_DELETE | HTTP_GET | HTTP_HEAD | HTTP_POST | HTTP_PUT | HTTP_OTHER (n : Z).

Inductive ConnState := ACTIVE | DISCONNECTED.

Global Instance HttpState_eq_dec : EqDecision HttpState.
Proof. solve_decision. Defined.
Global Instance BodyType_eq_dec : EqDecision BodyType.
Proof. solve_decision. Defined.
Global Instance http_method_eq_dec : EqDecision http_method.
Proof. solve_decision. Defined.

(** The callbacks the core installs on a body channel. *)
Inductive Callback := CB_onRequestBodyChannelBuffersFlushed | CB_outputBuffersFlushed.

(** What a body channel was handed: [feed] and [feedError]. *)
Inductive BodyChannelCall := Feed (data : mbuf) | FeedError (errcode : Z).

(** What the outside observes, in the order it happens: bytes queued on a
    client's output channel, data and errors handed to a request's body
    channel, the [onRequestBegin] upcall and a disconnect. *)
Inductive Event :=
  | ClientOutput (c : ClientId) (data : mbuf)
  | BodyData (r : RequestId) (data : mbuf)
  | BodyError (r : RequestId) (errcode : Z)
  | RequestBegin (c : ClientId) (r : RequestId)
  | Disconnected (c : ClientId).

(** The state of the header parser is the bytes it was fed so far; the
    input channel is running or stopped; the output channel is what was fed
    to it since it was last reinitialized. *)
Definition HttpHeaderParserState := list mbuf.
Definition FdInputChannel := bool.
Definition FileBufferedFdOutputChannel := list mbuf.

Record FileBufferedChannel := {
  calls : list BodyChannelCall;
  buffersFlushedCallback : option Callback;
  dataFlushedCallback : option Callback
}.

(** A request.  The [aux] union is kept as three fields, one per member;
    each is read only in the state that selects it.  [pool] is the palloc
    arena, null when it was destroyed or detached. *)
Record Request := {
  httpState : HttpState;
  httpMajor : Z;
  httpMinor : Z;
  method : http_method;
  bodyType : BodyType;
  aux_contentLength : Z;
  aux_endChunkReached : bool;
  aux_parseError : Z;
  bodyAlreadyRead : Z;
  wantKeepAlive : bool;
  responseBegun : bool;
  refcount : Z;
  pool : option psg_pool_t;
  client : option ClientId;
  headerParser : option HttpHeaderParserState;
  path : LString;
  headers : HeaderTable;
  secureHeaders : HeaderTable;
  bodyChannel : FileBufferedChannel
}.

(** A client, with the two fields of the base server's client that the core
    relies on: the connection state and the reference count. *)
Record Client := {
  currentRequest : option RequestId;
  endedRequests : list RequestId;
  endedRequestCount : Z;
  input : FdInputChannel;
  output : FileBufferedFdOutputChannel;
  connState : ConnState;
  clientRefcount : Z
}.

(** The server object.  [requests] and [clients] are the heap: the objects
    that are alive, by address.  [nextRequestId] and [nextPool] are the
    allocators, [pendingCallbacks] the closures queued with [runLater],
    [trace] what the outside has observed, [allocationFails] whether
    [new Request()] throws [std::bad_alloc], [onEventLoopThread] whether the
    caller runs on the event loop thread, and [now] the clock. *)
Record Server := {
  freeRequests : list RequestId;
  freeRequestCount : Z;
  requestFreelistLimit : Z;
  totalRequestsAccepted : Z;
  requests : gmap RequestId Request;
  clients : gmap ClientId Client;
  nextRequestId : RequestId;
  nextPool : psg_pool_t;
  pendingCallbacks : list RequestId;
  trace : list Event;
  allocationFails : bool;
  onEventLoopThread : bool;
  now : Z
}.

(** Field updates. *)
Definition set_calls (x : list BodyChannelCall) (ch : FileBufferedChannel) : FileBufferedChannel :=
  {| calls := x; buffersFlushedCallback := buffersFlushedCallback ch; dataFlushedCallback := dataFlushedCallback ch |}.
Definition set_buffersFlushedCallback (x : option Callback) (ch : FileBufferedChannel) : FileBufferedChannel :=
  {| calls := calls ch; buffersFlushedCallback := x; dataFlushedCallback := dataFlushedCallback ch |}.
Definition set_dataFlushedCallback (x : option Callback) (ch : FileBufferedChannel) : FileBufferedChannel :=
  {| calls := calls ch; buffersFlushedCallback := buffersFlushedCallback ch; dataFlushedCallback := x |}.

Definition set_httpState (x : HttpState) (req : Request) : Request :=
  {| httpState := x; httpMajor := httpMajor req; httpMinor := httpMinor req; method := method req; bodyType := bodyType req; aux_contentLength := aux_contentLength req; aux_endChunkReached := aux_endChunkReached req; aux_parseError := aux_parseError req; bodyAlreadyRead := bodyAlreadyRead req; wantKeepAlive := wantKeepAlive req; responseBegun := responseBegun req; refcount := refcount req; pool := pool req; client := client req; headerParser := headerParser req; path := path req; headers := headers req; secureHeaders := secureHeaders req; bodyChannel := bodyChannel req |}.
Definition set_httpMajor (x : Z) (req : Request) : Request :=
  {| httpState := httpState req; httpMajor := x; httpMinor := httpMinor req; method := method req; bodyType := bodyType req; aux_contentLength := aux_contentLength req; aux_endChunkReached := aux_endChunkReached req; aux_parseError := aux_parseError req; bodyAlreadyRead := bodyAlreadyRead req; wantKeepAlive := wantKeepAlive req; responseBegun := responseBegun req; refcount := refcount req; pool := pool req; client := client req; headerParser := headerParser req; path := path req; headers := headers req; secureHeaders := secureHeaders req; bodyChannel := bodyChannel req |}.
Definition set_httpMinor (x : Z) (req : Request) : Request :=
  {| httpState := httpState req; httpMajor := httpMajor req; httpMinor := x; method := method req; bodyType := bodyType req; aux_contentLength := aux_contentLength req; aux_endChunkReached := aux_endChunkReached req; aux_parseError := aux_parseError req; bodyAlreadyRead := bodyAlreadyRead req; wantKeepAlive := wantKeepAlive req; responseBegun := responseBegun req; refcount := refcount req; pool := pool req; client := client req; headerParser := headerParser req; path := path req; headers := headers req; secureHeaders := secureHeaders req; bodyChannel := bodyChannel req |}.
Definition set_method (x : http_method) (req : Request) : Request :=
  {| httpState := httpState req; httpMajor := httpMajor req; httpMinor := httpMinor req; method := x; bodyType := bodyType req; aux_contentLength := aux_contentLength req; aux_endChunkReached := aux_endChunkReached req; aux_parseError := aux_parseError req; bodyAlreadyRead := bodyAlreadyRead req; wantKeepAlive := wantKeepAlive req; responseBegun := responseBegun req; refcount := refcount req; pool := pool req; client := client req; headerParser := headerParser req; path := path req; headers := headers req; secureHeaders := secureHeaders req; bodyChannel := bodyChannel req |}.
Definition set_bodyType (x : BodyType) (req : Request) : Request :=
  {| httpState := httpState req; httpMajor := httpMajor req; httpMinor := httpMinor req; method := method req; bodyType := x; aux_contentLength := aux_contentLength req; aux_endChunkReached := aux_endChunkReached req; aux_parseError := aux_parseError req; bodyAlreadyRead := bodyAlreadyRead req; wantKeepAlive := wantKeepAlive req; responseBegun := responseBegun req; refcount := refcount req; pool := pool req; client := client req; headerParser := headerParser req; path := path req; headers := headers req; secureHeaders := secureHeaders req; bodyChannel := bodyChannel req |}.
Definition set_aux_contentLength (x : Z) (req : Request) : Request :=
  {| httpState := httpState req; httpMajor := httpMajor req; httpMinor := httpMinor req; method := method req; bodyType := bodyType req; aux_contentLength := x; aux_endChunkReached := aux_endChunkReached req; aux_parseError := aux_parseError req; bodyAlreadyRead := bodyAlreadyRead req; wantKeepAlive := wantKeepAlive req; responseBegun := responseBegun req; refcount := refcount req; pool := pool req; client := client req; headerParser := headerParser req; path := path req; headers := headers req; secureHeaders := secureHeaders req; bodyChannel := bodyChannel req |}.
Definition set_aux_endChunkReached (x : bool) (req : Request) : Request :=
  {| httpState := httpState req; httpMajor := httpMajor req; httpMinor := httpMinor req; method := method req; bodyType := bodyType req; aux_contentLength := aux_contentLength req; aux_endChunkReached := x; aux_parseError := aux_parseError req; bodyAlreadyRead := bodyAlreadyRead req; wantKeepAlive := wantKeepAlive req; responseBegun := responseBegun req; refcount := refcount req; pool := pool req; client := client req; headerParser := headerParser req; path := path req; headers := headers req; secureHeaders := secureHeaders req; bodyChannel := bodyChannel req |}.
Definition set_aux_parseError (x : Z) (req : Request) : Request :=
  {| httpState := httpState req; httpMajor := httpMajor req; httpMinor := httpMinor req; method := method req; bodyType := bodyType req; aux_contentLength := aux_contentLength req; aux_endChunkReached := aux_endChunkReached req; aux_parseError := x; bodyAlreadyRead := bodyAlreadyRead req; wantKeepAlive := wantKeepAlive req; responseBegun := responseBegun req; refcount := refcount req; pool := pool req; client := client req; headerParser := headerParser req; path := path req; headers := headers req; secureHeaders := secureHeaders req; bodyChannel := bodyChannel req |}.
Definition set_bodyAlreadyRead (x : Z) (req : Request) : Request :=
  {| httpState := httpState req; httpMajor := httpMajor req; httpMinor := httpMinor req; method := method req; bodyType := bodyType req; aux_contentLength := aux_contentLength req; aux_endChunkReached := aux_endChunkReached req; aux_parseError := aux_parseError req; bodyAlreadyRead := x; wantKeepAlive := wantKeepAlive req; responseBegun := responseBegun req; refcount := refcount req; pool := pool req; client := client req; headerParser := headerParser req; path := path req; headers := headers req; secureHeaders := secureHeaders req; bodyChannel := bodyChannel req |}.
Definition set_wantKeepAlive (x : bool) (req : Request) : Request :=
  {| httpState := httpState req; httpMajor := httpMajor req; httpMinor := httpMinor req; method := method req; bodyType := bodyType req; aux_contentLength := aux_contentLength req; aux_endChunkReached := aux_endChunkReached req; aux_parseError := aux_parseError req; bodyAlreadyRead := bodyAlreadyRead req; wantKeepAlive := x; responseBegun := responseBegun req; refcount := refcount req; pool := pool req; client := client req; headerParser := headerParser req; path := path req; headers := headers req; secureHeaders := secureHeaders req; bodyChannel := bodyChannel req |}.
Definition set_responseBegun (x : bool) (req : Request) : Request :=
  {| httpState := httpState req; httpMajor := httpMajor req; httpMinor := httpMinor req; method := method req; bodyType := bodyType req; aux_contentLength := aux_contentLength req; aux_endChunkReached := aux_endChunkReached req; aux_parseError := aux_parseError req; bodyAlreadyRead := bodyAlreadyRead req; wantKeepAlive := wantKeepAlive req; responseBegun := x; refcount := refcount req; pool := pool req; client := client req; headerParser := headerParser req; path := path req; headers := headers req; secureHeaders := secureHeaders req; bodyChannel := bodyChannel req |}.
Definition set_refcount (x : Z) (req : Request) : Request :=
  {| httpState := httpState req; httpMajor := httpMajor req; httpMinor := httpMinor req; method := method req; bodyType := bodyType req; aux_contentLength := aux_contentLength req; aux_endChunkReached := aux_endChunkReached req; aux_parseError := aux_parseError req; bodyAlreadyRead := bodyAlreadyRead req; wantKeepAlive := wantKeepAlive req; responseBegun := responseBegun req; refcount := x; pool := pool req; client := client req; headerParser := headerParser req; path := path req; headers := headers req; secureHeaders := secureHeaders req; bodyChannel := bodyChannel req |}.
Definition set_pool (x : option psg_pool_t) (req : Request) : Request :=
  {| httpState := httpState req; httpMajor := httpMajor req; httpMinor := httpMinor req; method := method req; bodyType := bodyType req; aux_contentLength := aux_contentLength req; aux_endChunkReached := aux_endChunkReached req; aux_parseError := aux_parseError req; bodyAlreadyRead := bodyAlreadyRead req; wantKeepAlive := wantKeepAlive req; responseBegun := responseBegun req; refcount := refcount req; pool := x; client := client req; headerParser := headerParser req; path := path req; headers := headers req; secureHeaders := secureHeaders req; bodyChannel := bodyChannel req |}.
Definition set_client (x : option ClientId) (req : Request) : Request :=
  {| httpState := httpState req; httpMajor := httpMajor req; httpMinor := httpMinor req; method := method req; bodyType := bodyType req; aux_contentLength := aux_contentLength req; aux_endChunkReached := aux_endChunkReached req; aux_parseError := aux_parseError req; bodyAlreadyRead := bodyAlreadyRead req; wantKeepAlive := wantKeepAlive req; responseBegun := responseBegun req; refcount := refcount req; pool := pool req; client := x; headerParser := headerParser req; path := path req; headers := headers req; secureHeaders := secureHeaders req; bodyChannel := bodyChannel req |}.
Definition set_headerParser (x : option HttpHeaderParserState) (req : Request) : Request :=
  {| httpState := httpState req; httpMajor := httpMajor req; httpMinor := httpMinor req; method := method req; bodyType := bodyType req; aux_contentLength := aux_contentLength req; aux_endChunkReached := aux_endChunkReached req; aux_parseError := aux_parseError req; bodyAlreadyRead := bodyAlreadyRead req; wantKeepAlive := wantKeepAlive req; responseBegun := responseBegun req; refcount := refcount req; pool := pool req; client := client req; headerParser := x; path := path req; headers := headers req; secureHeaders := secureHeaders req; bodyChannel := bodyChannel req |}.
Definition set_path (x : LString) (req : Request) : Request :=
  {| httpState := httpState req; httpMajor := httpMajor req; httpMinor := httpMinor req; method := method req; bodyType := bodyType req; aux_contentLength := aux_contentLength req; aux_endChunkReached := aux_endChunkReached req; aux_parseError := aux_parseError req; bodyAlreadyRead := bodyAlreadyRead req; wantKeepAlive := wantKeepAlive req; responseBegun := responseBegun req; refcount := refcount req; pool := pool req; client := client req; headerParser := headerParser req; path := x; headers := headers req; secureHeaders := secureHeaders req; bodyChannel := bodyChannel req |}.
Definition set_headers (x : HeaderTable) (req : Request) : Request :=
  {| httpState := httpState req; httpMajor := httpMajor req; httpMinor := httpMinor req; method := method req; bodyType := bodyType req; aux_contentLength := aux_contentLength req; aux_endChunkReached := aux_endChunkReached req; aux_parseError := aux_parseError req; bodyAlreadyRead := bodyAlreadyRead req; wantKeepAlive := wantKeepAlive req; responseBegun := responseBegun req; refcount := refcount req; pool := pool req; client := client req; headerParser := headerParser req; path := path req; headers := x; secureHeaders := secureHeaders req; bodyChannel := bodyChannel req |}.
Definition set_secureHeaders (x : HeaderTable) (req : Request) : Request :=
  {| httpState := httpState req; httpMajor := httpMajor req; httpMinor := httpMinor req; method := method req; bodyType := bodyType req; aux_contentLength := aux_contentLength req; aux_endChunkReached := aux_endChunkReached req; aux_parseError := aux_parseError req; bodyAlreadyRead := bodyAlreadyRead req; wantKeepAlive := wantKeepAlive req; responseBegun := responseBegun req; refcount := refcount req; pool := pool req; client := client req; headerParser := headerParser req; path := path req; headers := headers req; secureHeaders := x; bodyChannel := bodyChannel req |}.
Definition set_bodyChannel (x : FileBufferedChannel) (req : Request) : Request :=
  {| httpState := httpState req; httpMajor := httpMajor req; httpMinor := httpMinor req; method := method req; bodyType := bodyType req; aux_contentLength := aux_contentLength req; aux_endChunkReached := aux_endChunkReached req; aux_parseError := aux_parseError req; bodyAlreadyRead := bodyAlreadyRead req; wantKeepAlive := wantKeepAlive req; responseBegun := responseBegun req; refcount := refcount req; pool := pool req; client := client req; headerParser := headerParser req; path := path req; headers := headers req; secureHeaders := secureHeaders req; bodyChannel := x |}.

Definition set_currentRequest (x : option RequestId) (cl : Client) : Client :=
  {| currentRequest := x; endedRequests := endedRequests cl; endedRequestCount := endedRequestCount cl; input := input cl; output := output cl; connState := connState cl; clientRefcount := clientRefcount cl |}.
Definition set_endedRequests (x : list RequestId) (cl : Client) : Client :=
  {| currentRequest := currentRequest cl; endedRequests := x; endedRequestCount := endedRequestCount cl; input := input cl; output := output cl; connState := connState cl; clientRefcount := clientRefcount cl |}.
Definition set_endedRequestCount (x : Z) (cl : Client) : Client :=
  {| currentRequest := currentRequest cl; endedRequests := endedRequests cl; endedRequestCount := x; input := input cl; output := output cl; connState := connState cl; clientRefcount := clientRefcount cl |}.
Definition set_input (x : FdInputChannel) (cl : Client) : Client :=
  {| currentRequest := currentRequest cl; endedRequests := endedRequests cl; endedRequestCount := endedRequestCount cl; input := x; output := output cl; connState := connState cl; clientRefcount := clientRefcount cl |}.
Definition set_output (x : FileBufferedFdOutputChannel) (cl : Client) : Client :=
  {| currentRequest := currentRequest cl; endedRequests := endedRequests cl; endedRequestCount := endedRequestCount cl; input := input cl; output := x; connState := connState cl; clientRefcount := clientRefcount cl |}.
Definition set_connState (x : ConnState) (cl : Client) : Client :=
  {| currentRequest := currentRequest cl; endedRequests := endedRequests cl; endedRequestCount := endedRequestCount cl; input := input cl; output := output cl; connState := x; clientRefcount := clientRefcount cl |}.
Definition set_clientRefcount (x : Z) (cl : Client) : Client :=
  {| currentRequest := currentRequest cl; endedRequests := endedRequests cl; endedRequestCount := endedRequestCount cl; input := input cl; output := output cl; connState := connState cl; clientRefcount := x |}.

Definition set_freeRequests (x : list RequestId) (s : Server) : Server :=
  {| freeRequests := x; freeRequestCount := freeRequestCount s; requestFreelistLimit := requestFreelistLimit s; totalRequestsAccepted := totalRequestsAccepted s; requests := requests s; clients := clients s; nextRequestId := nextRequestId s; nextPool := nextPool s; pendingCallbacks := pendingCallbacks s; trace := trace s; allocationFails := allocationFails s; onEventLoopThread := onEventLoopThread s; now := now s |}.
Definition set_freeRequestCount (x : Z) (s : Server) : Server :=
  {| freeRequests := freeRequests s; freeRequestCount := x; requestFreelistLimit := requestFreelistLimit s; totalRequestsAccepted := totalRequestsAccepted s; requests := requests s; clients := clients s; nextRequestId := nextRequestId s; nextPool := nextPool s; pendingCallbacks := pendingCallbacks s; trace := trace s; allocationFails := allocationFails s; onEventLoopThread := onEventLoopThread s; now := now s |}.
Definition set_requestFreelistLimit (x : Z) (s : Server) : Server :=
  {| freeRequests := freeRequests s; freeRequestCount := freeRequestCount s; requestFreelistLimit := x; totalRequestsAccepted := totalRequestsAccepted s; requests := requests s; clients := clients s; nextRequestId := nextRequestId s; nextPool := nextPool s; pendingCallbacks := pendingCallbacks s; trace := trace s; allocationFails := allocationFails s; onEventLoopThread := onEventLoopThread s; now := now s |}.
Definition set_totalRequestsAccepted (x : Z) (s : Server) : Server :=
  {| freeRequests := freeRequests s; freeRequestCount := freeRequestCount s; requestFreelistLimit := requestFreelistLimit s; totalRequestsAccepted := x; requests := requests s; clients := clients s; nextRequestId := nextRequestId s; nextPool := nextPool s; pendingCallbacks := pendingCallbacks s; trace := trace s; allocationFails := allocationFails s; onEventLoopThread := onEventLoopThread s; now := now s |}.
Definition set_requests (x : gmap RequestId Request) (s : Server) : Server :=
  {| freeRequests := freeRequests s; freeRequestCount := freeRequestCount s; requestFreelistLimit := requestFreelistLimit s; totalRequestsAccepted := totalRequestsAccepted s; requests := x; clients := clients s; nextRequestId := nextRequestId s; nextPool := nextPool s; pendingCallbacks := pendingCallbacks s; trace := trace s; allocationFails := allocationFails s; onEventLoopThread := onEventLoopThread s; now := now s |}.
Definition set_clients (x : gmap ClientId Client) (s : Server) : Server :=
  {| freeRequests := freeRequests s; freeRequestCount := freeRequestCount s; requestFreelistLimit := requestFreelistLimit s; totalRequestsAccepted := totalRequestsAccepted s; requests := requests s; clients := x; nextRequestId := nextRequestId s; nextPool := nextPool s; pendingCallbacks := pendingCallbacks s; trace := trace s; allocationFails := allocationFails s; onEventLoopThread := onEventLoopThread s; now := now s |}.
Definition set_nextRequestId (x : RequestId) (s : Server) : Server :=
  {| freeRequests := freeRequests s; freeRequestCount := freeRequestCount s; requestFreelistLimit := requestFreelistLimit s; totalRequestsAccepted := totalRequestsAccepted s; requests := requests s; clients := clients s; nextRequestId := x; nextPool := nextPool s; pendingCallbacks := pendingCallbacks s; trace := trace s; allocationFails := allocationFails s; onEventLoopThread := onEventLoopThread s; now := now s |}.
Definition set_nextPool (x : psg_pool_t) (s : Server) : Server :=
  {| freeRequests := freeRequests s; freeRequestCount := freeRequestCount s; requestFreelistLimit := requestFreelistLimit s; totalRequestsAccepted := totalRequestsAccepted s; requests := requests s; clients := clients s; nextRequestId := nextRequestId s; nextPool := x; pendingCallbacks := pendingCallbacks s; trace := trace s; allocationFails := allocationFails s; onEventLoopThread := onEventLoopThread s; now := now s |}.
Definition set_pendingCallbacks (x : list RequestId) (s : Server) : Server :=
  {| freeRequests := freeRequests s; freeRequestCount := freeRequestCount s; requestFreelistLimit := requestFreelistLimit s; totalRequestsAccepted := totalRequestsAccepted s; requests := requests s; clients := clients s; nextRequestId := nextRequestId s; nextPool := nextPool s; pendingCallbacks := x; trace := trace s; allocationFails := allocationFails s; onEventLoopThread := onEventLoopThread s; now := now s |}.
Definition set_trace (x : list Event) (s : Server) : Server :=
  {| freeRequests := freeRequests s; freeRequestCount := freeRequestCount s; requestFreelistLimit := requestFreelistLimit s; totalRequestsAccepted := totalRequestsAccepted s; requests := requests s; clients := clients s; nextRequestId := nextRequestId s; nextPool := nextPool s; pendingCallbacks := pendingCallbacks s; trace := x; allocationFails := allocationFails s; onEventLoopThread := onEventLoopThread s; now := now s |}.
Definition set_allocationFails (x : bool) (s : Server) : Server :=
  {| freeRequests := freeRequests s; freeRequestCount := freeRequestCount s; requestFreelistLimit := requestFreelistLimit s; totalRequestsAccepted := totalRequestsAccepted s; requests := requests s; clients := clients s; nextRequestId := nextRequestId s; nextPool := nextPool s; pendingCallbacks := pendingCallbacks s; trace := trace s; allocationFails := x; onEventLoopThread := onEventLoopThread s; now := now s |}.
Definition set_onEventLoopThread (x : bool) (s : Server) : Server :=
  {| freeRequests := freeRequests s; freeRequestCount := freeRequestCount s; requestFreelistLimit := requestFreelistLimit s; totalRequestsAccepted := totalRequestsAccepted s; requests := requests s; clients := clients s; nextRequestId := nextRequestId s; nextPool := nextPool s; pendingCallbacks := pendingCallbacks s; trace := trace s; allocationFails := allocationFails s; onEventLoopThread := x; now := now s |}.
Definition set_now (x : Z) (s : Server) : Server :=
  {| freeRequests := freeRequests s; freeRequestCount := freeRequestCount s; requestFreelistLimit := requestFreelistLimit s; totalRequestsAccepted := totalRequestsAccepted s; requests := requests s; clients := clients s; nextRequestId := nextRequestId s; nextPool := nextPool s; pendingCallbacks := pendingCallbacks s; trace := trace s; allocationFails := allocationFails s; onEventLoopThread := onEventLoopThread s; now := x |}.


(** The constructor: an empty freelist and the default limit of 1024. *)
Definition HttpServer_new : Server :=
  {| freeRequests := []; freeRequestCount := 0; requestFreelistLimit := 1024;
     totalRequestsAccepted := 0; requests := ∅; clients := ∅;
     nextRequestId := 0%nat; nextPool := 0%nat; pendingCallbacks := [];
     trace := []; allocationFails := false; onEventLoopThread := true; now := 0 |}.

(** [configure]: the only key the core reads. *)
Definition configure (request_freelist_limit : option Z) (s : Server) : Server :=
  match request_freelist_limit with
  | Some v => set_requestFreelistLimit (wrap32 v) s
  | None => s
  end.

(** Modelled from the spec: a freshly constructed [Request] (its constructor
    is in ServerKit/HttpRequest.h, not among the sources).  It holds one
    reference, has empty header tables, no client and no pool; every other
    field is assigned by [reinitializeRequest] before it is read. *)
Definition Request_new : Request :=
  {| httpState := IN_FREELIST; httpMajor := 1; httpMinor := 0; method := HTTP_GET;
     bodyType := RBT_NO_BODY; aux_contentLength := 0; aux_endChunkReached := false;
     aux_parseError := 0; bodyAlreadyRead := 0; wantKeepAlive := false;
     responseBegun := false; refcount := 1; pool := None; client := None;
     headerParser := None; path := []; headers := []; secureHeaders := [];
     bodyChannel := {| calls := []; buffersFlushedCallback := None;
                       dataFlushedCallback := None |} |}.

(** ** The monad *)

(** A member function either returns with a new server state or stops the
    process: a failed [assert], a [P_BUG], the dereference of a null or
    freed pointer, or formatted output that does not fit its buffer. *)
Inductive Fault :=
  | AssertionFailed | InvalidStateBug | NullPointer | DanglingPointer | BufferTooSmall.

Inductive Outcome (A : Type) :=
  | Done (a : A) (s : Server)
  | Crash (f : Fault).
Arguments Done {A} a s.
Arguments Crash {A} f.

Definition M (A : Type) : Type := Server -> Outcome A.

Definition ret {A} (a : A) : M A := fun s => Done a s.
Definition bind {A B} (m : M A) (k : A -> M B) : M B :=
  fun s => match m s with Done a s' => k a s' | Crash f => Crash f end.
Definition crash {A} (f : Fault) : M A := fun _ => Crash f.

Notation "'let*' x ':=' m 'in' k" := (bind m (fun x => k))
  (at level 10, x name, m at level 100, k at level 200).
Notation "m '>>' k" := (bind m (fun _ => k))
  (at level 190, right associativity).

Definition get : M Server := fun s => Done s s.
Definition modify (f : Server -> Server) : M unit := fun s => Done tt (f s).
Definition assert (b : bool) : M unit := if b then ret tt else crash AssertionFailed.
Definition when (b : bool) (m : M unit) : M unit := if b then m else ret tt.

(** Dereferencing a pointer that may be null. *)
Definition deref {A} (p : option A) : M A :=
  match p with Some a => ret a | None => crash NullPointer end.

Definition getRequest (r : RequestId) : M Request :=
  fun s => match requests s !! r with
           | Some req => Done req s
           | None => Crash DanglingPointer
           end.
Definition updRequest (r : RequestId) (f : Request -> Request) : M unit :=
  fun s => match requests s !! r with
           | Some req => Done tt (set_requests (<[r := f req]> (requests s)) s)
           | None => Crash DanglingPointer
           end.
Definition deleteRequest (r : RequestId) : M unit :=
  modify (fun s => set_requests (delete r (requests s)) s).

Definition getClient (c : ClientId) : M Client :=
  fun s => match clients s !! c with
           | Some cl => Done cl s
           | None => Crash DanglingPointer
           end.
Definition updClient (c : ClientId) (f : Client -> Client) : M unit :=
  fun s => match clients s !! c with
           | Some cl => Done tt (set_clients (<[c := f cl]> (clients s)) s)
           | None => Crash DanglingPointer
           end.

Definition emit (e : Event) : M unit := modify (fun s => set_trace (trace s ++ [e]) s).

(** [Channel::Result(consumed, end)]. *)
Record Channel_Result := { consumed : Z; channel_end : bool }.

(** ** Collaborators outside the core *)

(** The request helpers of HttpRequest.h, the header and chunked-body
    parsers, the reason-phrase table, the clock and the channel predicates
    are not among the sources; the core is written against them and the
    development takes them as parameters.  The channel predicates read what
    the channel was handed so far. *)
Class Collaborators := {
  ended : Request -> bool;
  bodyFullyRead : Request -> bool;
  canKeepAlive : Request -> bool;
  headerParser_feed : Request -> mbuf -> Request * Z;
  chunkedBodyParser_initialize : ClientId -> RequestId -> M unit;
  chunkedBodyParser_feed : ClientId -> RequestId -> mbuf -> M Channel_Result;
  chunkedBodyParser_feedUnexpectedEof : ClientId -> RequestId -> M unit;
  getStatusCodeAndReasonPhrase : Z -> option string;
  getErrorDesc : Z -> string;
  HTTP_VERSION_NOT_SUPPORTED : Z;
  UNEXPECTED_EOF : Z;
  DEFAULT_INTERNAL_SERVER_ERROR_RESPONSE : string;
  strftime_gmt : Z -> string;
  output_ended : FileBufferedFdOutputChannel -> bool;
  output_endAcked : FileBufferedFdOutputChannel -> bool;
  passedThreshold : list BodyChannelCall -> bool;
  deliversAtOnce : list BodyChannelCall -> bool
}.

Section HttpServer.

Context `{Collaborators}.

(** ** The base server *)

(** Modelled from the spec: [refClient] and [unrefClient] of [BaseServer]
    (ServerKit/Server.h is not among the sources), "generic client refcount
    managed by the base server".  Only the count is kept. *)
Definition refClient (c : ClientId) : M unit :=
  updClient c (fun cl => set_clientRefcount (wrap_int (clientRefcount cl + 1)) cl).
Definition unrefClient (c : ClientId) : M unit :=
  updClient c (fun cl => set_clientRefcount (wrap_int (clientRefcount cl - 1)) cl).

(** ** Channels *)

Definition input_start (c : ClientId) : M unit := updClient c (set_input true).
Definition input_stop (c : ClientId) : M unit := updClient c (set_input false).

Definition output_feed (c : ClientId) (buffer : mbuf) : M unit :=
  updClient c (fun cl => set_output (output cl ++ [buffer]) cl) >>
  emit (ClientOutput c buffer).
Definition output_deinitialize (c : ClientId) : M unit := updClient c (set_output []).
Definition output_reinitialize (c : ClientId) : M unit := updClient c (set_output []).

Definition bodyChannel_reinitialize (ch : FileBufferedChannel) : FileBufferedChannel :=
  set_calls [] ch.
Definition bodyChannel_deinitialize (ch : FileBufferedChannel) : FileBufferedChannel :=
  set_calls [] ch.

(** ** Request deinitialization and reinitialization *)

Definition psg_lstr_deinit (l : LString) : LString := [].

Definition deinitializeRequest (c : ClientId) (r : RequestId) : M unit :=
  let* req := getRequest r in
  when (bool_decide (httpState req = PARSING_HEADERS) && bool_decide (headerParser req ≠ None))
       (updRequest r (set_headerParser None)) >>
  updRequest r (fun q => set_path (psg_lstr_deinit (path q)) q) >>
  updRequest r (fun q =>
    set_headers (map (fun h => {| key := psg_lstr_deinit (key h); val := psg_lstr_deinit (val h) |})
                     (headers q)) q) >>
  updRequest r (fun q =>
    set_secureHeaders (map (fun h => {| key := psg_lstr_deinit (key h); val := psg_lstr_deinit (val h) |})
                           (secureHeaders q)) q) >>
  let* req := getRequest r in
  when (bool_decide (pool req ≠ None)) (updRequest r (set_pool None)) >>
  updRequest r (set_httpState WAITING_FOR_REFERENCES) >>
  updRequest r (fun q => set_headers (HeaderTable_clear (headers q)) q) >>
  updRequest r (fun q => set_secureHeaders (HeaderTable_clear (secureHeaders q)) q) >>
  updRequest r (fun q => set_bodyChannel (set_buffersFlushedCallback None (bodyChannel q)) q) >>
  updRequest r (fun q => set_bodyChannel (set_dataFlushedCallback None (bodyChannel q)) q) >>
  updRequest r (fun q => set_bodyChannel (bodyChannel_deinitialize (bodyChannel q)) q).

Definition psg_create_pool : M psg_pool_t :=
  let* s := get in
  modify (set_nextPool (S (nextPool s))) >>
  ret (nextPool s).

Definition reinitializeRequest (c : ClientId) (r : RequestId) : M unit :=
  updRequest r (set_httpMajor 1) >>
  updRequest r (set_httpMinor 0) >>
  updRequest r (set_httpState PARSING_HEADERS) >>
  updRequest r (set_bodyType RBT_NO_BODY) >>
  updRequest r (set_method HTTP_GET) >>
  updRequest r (set_wantKeepAlive false) >>
  updRequest r (set_responseBegun false) >>
  updRequest r (set_headerParser (Some [])) >>
  let* p := psg_create_pool in
  updRequest r (set_pool (Some p)) >>
  updRequest r (set_path []) >>
  updRequest r (fun q => set_bodyChannel (bodyChannel_reinitialize (bodyChannel q)) q) >>
  updRequest r (fun q => set_aux_parseError 0 (set_aux_endChunkReached false (set_aux_contentLength 0 q))) >>
  updRequest r (set_bodyAlreadyRead 0).

(** ** Request object creation and destruction *)

Definition checkoutRequestObjectFromFreelist : M (option RequestId) :=
  let* s := get in
  assert (0 <? freeRequestCount s) >>
  let* request := deref (head (freeRequests s)) in
  let* req := getRequest request in
  assert (bool_decide (httpState req = IN_FREELIST)) >>
  modify (fun s => set_freeRequestCount (wrap32 (freeRequestCount s - 1)) s) >>
  modify (fun s => set_freeRequests (tail (freeRequests s)) s) >>
  ret (Some request).

(** [onRequestObjectCreated] wires the body channel of a new request to the
    server's hooks and data callback; in the model that wiring is fixed, so
    nothing is left to record. *)
Definition onRequestObjectCreated (c : ClientId) (r : RequestId) : M unit := ret tt.

Definition createNewRequestObject (c : ClientId) : M (option RequestId) :=
  let* s := get in
  if allocationFails s then ret None
  else
    let request := nextRequestId s in
    modify (fun s => set_nextRequestId (S request)
                       (set_requests (<[request := Request_new]> (requests s)) s)) >>
    onRequestObjectCreated c request >>
    ret (Some request).

Definition checkoutRequestObject (c : ClientId) : M (option RequestId) :=
  let* s := get in
  if negb (bool_decide (freeRequests s = []))
  then checkoutRequestObjectFromFreelist
  else createNewRequestObject c.

Definition addRequestToFreelist (request : RequestId) : M bool :=
  let* s := get in
  if freeRequestCount s <? requestFreelistLimit s then
    modify (fun s => set_freeRequests (request :: freeRequests s) s) >>
    modify (fun s => set_freeRequestCount (wrap32 (freeRequestCount s + 1)) s) >>
    updRequest request (set_refcount 1) >>
    updRequest request (set_httpState IN_FREELIST) >>
    ret true
  else ret false.

Definition requestReachedZeroRefcount (request : RequestId) : M unit :=
  let* req := getRequest request in
  let* c := deref (client req) in
  assert (bool_decide (httpState req = WAITING_FOR_REFERENCES)) >>
  let* cl := getClient c in
  assert (0 <? endedRequestCount cl) >>
  assert (bool_decide (currentRequest cl ≠ Some request)) >>
  assert (negb (bool_decide (endedRequests cl = []))) >>
  updClient c (fun cl => set_endedRequests (filter (fun x => x ≠ request) (endedRequests cl)) cl) >>
  let* cl := getClient c in
  assert (0 <? endedRequestCount cl) >>
  updClient c (fun cl => set_endedRequestCount (wrap32 (endedRequestCount cl - 1)) cl) >>
  updRequest request (set_client None) >>
  let* accepted := addRequestToFreelist request in
  (if accepted then ret tt else deleteRequest request) >>
  unrefClient c.

Definition refRequest (request : RequestId) : M unit :=
  updRequest request (fun q => set_refcount (wrap_int (refcount q + 1)) q).

(** [runLater] queues a closure that owns one [RequestRef]. *)
Definition passRequestToEventLoopThread (request : RequestId) : M unit :=
  refRequest request >>
  modify (fun s => set_pendingCallbacks (pendingCallbacks s ++ [request]) s).

Definition unrefRequest (request : RequestId) : M unit :=
  let* req := getRequest request in
  let oldRefcount := refcount req in
  updRequest request (fun q => set_refcount (wrap_int (refcount q - 1)) q) >>
  assert (1 <=? oldRefcount) >>
  when (oldRefcount =? 1)
    (let* s := get in
     if onEventLoopThread s then requestReachedZeroRefcount request
     else passRequestToEventLoopThread request).

(** The queued closure does nothing; when it returns, its [RequestRef] is
    released on the event loop thread. *)
Definition passRequestToEventLoopThreadCallback : M unit :=
  let* s := get in
  match pendingCallbacks s with
  | [] => ret tt
  | request :: rest =>
      modify (fun s => set_onEventLoopThread true (set_pendingCallbacks rest s)) >>
      unrefRequest request
  end.

(** ** Request deinitialization and preparation for the next request *)

Definition deinitializeRequestAndAddToFreelist (c : ClientId) (r : RequestId) : M unit :=
  let* cl := getClient c in
  assert (bool_decide (currentRequest cl = Some r)) >>
  let* req := getRequest r in
  when (negb (bool_decide (httpState req = WAITING_FOR_REFERENCES)))
    (updRequest r (set_httpState WAITING_FOR_REFERENCES) >>
     deinitializeRequest c r >>
     let* req := getRequest r in
     assert (ended req) >>
     updClient c (fun cl => set_endedRequests (r :: endedRequests cl) cl) >>
     updClient c (fun cl => set_endedRequestCount (wrap32 (endedRequestCount cl + 1)) cl)).

Definition onClientDisconnecting (c : ClientId) : M unit :=
  let* cl := getClient c in
  match currentRequest cl with
  | Some r =>
      deinitializeRequestAndAddToFreelist c r >>
      updClient c (set_currentRequest None) >>
      unrefRequest r
  | None => ret tt
  end.

(** Modelled from the spec: [BaseServer::disconnect] (ServerKit/Server.h is
    not among the sources).  A client that is no longer active is left
    alone; otherwise the client is marked disconnected, the
    [onClientDisconnecting] hook runs and the server's reference to the
    client is dropped. *)
Definition disconnect (c : ClientId) : M bool :=
  let* cl := getClient c in
  match connState cl with
  | DISCONNECTED => ret false
  | ACTIVE =>
      updClient c (set_connState DISCONNECTED) >>
      emit (Disconnected c) >>
      onClientDisconnecting c >>
      unrefClient c >>
      ret true
  end.

Definition deinitializeClient (c : ClientId) : M unit :=
  updClient c (set_currentRequest None).

Definition handleNextRequest (c : ClientId) : M unit :=
  refClient c >>
  input_start c >>
  output_deinitialize c >>
  output_reinitialize c >>
  let* req := checkoutRequestObject c in
  updClient c (set_currentRequest req) >>
  let* r := deref req in
  updRequest r (set_client (Some c)) >>
  reinitializeRequest c r.

Definition doneWithCurrentRequest (c : ClientId) : M unit :=
  let* cl := getClient c in
  assert (bool_decide (currentRequest cl ≠ None)) >>
  let* r := deref (currentRequest cl) in
  let* req := getRequest r in
  let keepAlive := canKeepAlive req in
  assert (bool_decide (httpState req = WAITING_FOR_REFERENCES)) >>
  assert (bool_decide (pool req ≠ None)) >>
  updClient c (set_currentRequest None) >>
  updRequest r (set_pool None) >>
  unrefRequest r >>
  if keepAlive then handleNextRequest c
  else (let* _ := disconnect c in ret tt).

(** ** The body channel and its consumer *)

(** The default [onRequestBody] hook: the connection is dropped on a body
    error or on end of body. *)
Definition onRequestBody (c : ClientId) (r : RequestId) (buffer : mbuf) (errcode : Z)
  : M Channel_Result :=
  when (negb (errcode =? 0) || mbuf_empty buffer) (let* _ := disconnect c in ret tt) >>
  ret {| consumed := mbuf_size buffer; channel_end := false |}.

Definition onRequestBodyChannelData (r : RequestId) (buffer : mbuf) (errcode : Z)
  : M Channel_Result :=
  let* req := getRequest r in
  let* c := deref (client req) in
  onRequestBody c r buffer errcode.

(** [bodyChannel.feed] and [bodyChannel.feedError]: the channel records what
    it is handed and, when it is not holding earlier buffers back, calls its
    data callback before it returns. *)
Definition bodyChannel_feed (r : RequestId) (buffer : mbuf) : M unit :=
  let* req := getRequest r in
  updRequest r (fun q =>
    set_bodyChannel (set_calls (calls (bodyChannel q) ++ [Feed buffer]) (bodyChannel q)) q) >>
  emit (BodyData r buffer) >>
  when (deliversAtOnce (calls (bodyChannel req)))
       (let* _ := onRequestBodyChannelData r buffer 0 in ret tt).

Definition bodyChannel_feedError (r : RequestId) (errcode : Z) : M unit :=
  let* req := getRequest r in
  updRequest r (fun q =>
    set_bodyChannel (set_calls (calls (bodyChannel q) ++ [FeedError errcode]) (bodyChannel q)) q) >>
  emit (BodyError r errcode) >>
  when (deliversAtOnce (calls (bodyChannel req)))
       (let* _ := onRequestBodyChannelData r EmptyString errcode in ret tt).

Definition requestBodyConsumed (c : ClientId) (r : RequestId) : M unit :=
  let* req := getRequest r in
  when (bodyFullyRead req)
    (input_stop c >>
     bodyChannel_feed r EmptyString).

Definition onRequestBodyChannelBuffersFlushed (r : RequestId) : M unit :=
  let* req := getRequest r in
  let* c := deref (client req) in
  updRequest r (fun q => set_bodyChannel (set_buffersFlushedCallback None (bodyChannel q)) q) >>
  input_start c >>
  requestBodyConsumed c r.

(** ** Writing responses *)

Definition writeResponse (c : ClientId) (buffer : mbuf) : M unit :=
  let* cl := getClient c in
  let* r := deref (currentRequest cl) in
  updRequest r (set_responseBegun true) >>
  output_feed c buffer.

(** The header block is assembled in a buffer of [cap] bytes; [pos] is what
    has been written so far.  [appendData] copies what still fits. *)
Definition appendData (cap : Z) (pos : string) (data : string) : string :=
  pos +:+ substring 0 (Z.to_nat (Z.min (cap - Z.of_nat (String.length pos))
                                        (Z.of_nat (String.length data)))) data.

Fixpoint appendLStringData (cap : Z) (pos : string) (l : LString) : string :=
  match l with
  | [] => pos
  | part :: rest => appendLStringData cap (appendData cap pos part) rest
  end.

(** [snprintf] and [strftime] into the rest of the buffer.  Text that does
    not fit, terminator included, leaves the buffer and the write position
    unusable; the model stops there. *)
Definition snprintf (cap : Z) (pos : string) (text : string) : M string :=
  if Z.of_nat (String.length text) <? cap - Z.of_nat (String.length pos)
  then ret (pos +:+ text) else crash BufferTooSmall.

(** The cost of the caller's headers, added to the 300 bytes set aside for
    the fixed part. *)
Definition headerBufSize_of (t : option HeaderTable) : Z :=
  match t with
  | Some t =>
      fold_left (fun size h => wrap32 (wrap32 (size + (lstr_size (key h) + 2))
                                       + (lstr_size (val h) + 2))) t 300
  | None => 300
  end.

Definition lookup_in (t : option HeaderTable) (name : string) : option LString :=
  match t with Some t => HeaderTable_lookup t name | None => None end.

(** The fall-back status text, formatted into a 50 byte buffer. *)
Definition statusText (code : Z) : string :=
  match getStatusCodeAndReasonPhrase code with
  | Some status => status
  | None => substring 0 49 (pretty code +:+ " Unknown Reason-Phrase")
  end.

(** The caller's headers other than the four written above. *)
Fixpoint appendOtherHeaders (cap : Z) (pos : string) (t : HeaderTable) : string :=
  match t with
  | [] => pos
  | h :: rest =>
      let pos :=
        if negb (psg_lstr_cmp (key h) "content-type")
           && negb (psg_lstr_cmp (key h) "date")
           && negb (psg_lstr_cmp (key h) "connection")
           && negb (psg_lstr_cmp (key h) "content-length")
        then
          let pos := appendLStringData cap pos (key h) in
          let pos := appendData cap pos ": " in
          let pos := appendLStringData cap pos (val h) in
          appendData cap pos CRLF
        else pos in
      appendOtherHeaders cap pos rest
  end.

Definition writeSimpleResponse (c : ClientId) (code : Z) (t : option HeaderTable) (body : string)
  : M unit :=
  let headerBufSize := headerBufSize_of t in
  let* cl := getClient c in
  let* r := deref (currentRequest cl) in
  let* req := getRequest r in
  let* _ := deref (pool req) in
  let cap := headerBufSize in
  let status := statusText code in
  let* pos := snprintf cap EmptyString
                ("HTTP/" +:+ pretty (httpMajor req) +:+ "." +:+ pretty (httpMinor req)
                 +:+ " " +:+ status +:+ CRLF +:+ "Status: " +:+ status +:+ CRLF) in
  let pos :=
    match lookup_in t "content-type" with
    | None => appendData cap pos ("Content-Type: text/html; charset=UTF-8" +:+ CRLF)
    | Some value =>
        let pos := appendData cap pos "Content-Type: " in
        let pos := appendLStringData cap pos value in
        appendData cap pos CRLF
    end in
  let pos := appendData cap pos "Date: " in
  let* pos :=
    match lookup_in t "date" with
    | None => let* s := get in snprintf cap pos (strftime_gmt (now s))
    | Some value => ret (appendLStringData cap pos value)
    end in
  let pos := appendData cap pos CRLF in
  let* pos :=
    match lookup_in t "connection" with
    | None =>
        if canKeepAlive req
        then ret (appendData cap pos ("Connection: keep-alive" +:+ CRLF))
        else ret (appendData cap pos ("Connection: close" +:+ CRLF))
    | Some value =>
        let pos := appendData cap pos "Connection: " in
        let pos := appendLStringData cap pos value in
        let pos := appendData cap pos CRLF in
        when (negb (psg_lstr_cmp value "Keep-Alive") && negb (psg_lstr_cmp value "keep-alive"))
             (updRequest r (set_wantKeepAlive false)) >>
        ret pos
    end in
  let pos := appendData cap pos "Content-Length: " in
  let* pos :=
    match lookup_in t "content-length" with
    | None => snprintf cap pos (pretty (wrap32 (Z.of_nat (String.length body))))
    | Some value => ret (appendLStringData cap pos value)
    end in
  let pos := appendData cap pos CRLF in
  let pos := match t with Some t => appendOtherHeaders cap pos t | None => pos end in
  let pos := appendData cap pos CRLF in
  writeResponse c pos >>
  let* req := getRequest r in
  when (negb (ended req) && negb (bool_decide (method req = HTTP_HEAD)))
       (writeResponse c body).

Definition writeDefault500Response (c : ClientId) (r : RequestId) : M unit :=
  writeSimpleResponse c 500 None DEFAULT_INTERNAL_SERVER_ERROR_RESPONSE.

(** ** Ending a request *)

(** [endRequest] takes the addresses of the caller's two pointers and nulls
    them before anything else, so that the caller cannot go on using them;
    in the model the caller names the objects by value and nothing is left
    to null. *)
Definition endRequest (c : ClientId) (r : RequestId) : M bool :=
  let* req := getRequest r in
  if ended req then ret false
  else
    let* cl := getClient c in
    assert (bool_decide (currentRequest cl = Some r)) >>
    when (negb (responseBegun req)) (writeDefault500Response c r) >>
    let* req := getRequest r in
    let pool0 := pool req in
    updRequest r (set_pool None) >>
    deinitializeRequestAndAddToFreelist c r >>
    updRequest r (set_pool pool0) >>
    let* cl := getClient c in
    when (negb (output_ended (output cl))) (output_feed c EmptyString) >>
    let* cl := getClient c in
    (if output_endAcked (output cl)
     then doneWithCurrentRequest c
     else updRequest r (set_httpState FLUSHING_OUTPUT)) >>
    ret true.

Definition endWithErrorResponse (c : ClientId) (r : RequestId) (code : Z) (body : string)
  : M unit :=
  let t := HeaderTable_insert [] "connection" "close" in
  let t := HeaderTable_insert t "cache-control" "no-cache, no-store, must-revalidate" in
  writeSimpleResponse c code (Some t) body >>
  let* _ := endRequest c r in
  ret tt.

Definition endAsBadRequest (c : ClientId) (r : RequestId) (body : string) : M unit :=
  endWithErrorResponse c r 400 body.

(** ** Client data handling *)

Definition onRequestBegin (c : ClientId) (r : RequestId) : M unit :=
  emit (RequestBegin c r) >>
  modify (fun s => set_totalRequestsAccepted (wrap32 (totalRequestsAccepted s + 1)) s).

Definition supportsUpgrade (c : ClientId) (r : RequestId) : bool := false.

Definition prepareChunkedBodyParsing (c : ClientId) (r : RequestId) : M unit :=
  let* req := getRequest r in
  assert (bool_decide (bodyType req = RBT_CHUNKED)) >>
  chunkedBodyParser_initialize c r.

Definition processClientDataWhenParsingHeaders
    (c : ClientId) (r : RequestId) (buffer : mbuf) (errcode : Z) : M Channel_Result :=
  if 0 <? mbuf_size buffer then
    let* req := getRequest r in
    let '(parsed, n) := headerParser_feed req buffer in
    updRequest r (fun _ => parsed) >>
    if bool_decide (httpState parsed = PARSING_HEADERS) then
      ret {| consumed := mbuf_size buffer; channel_end := false |}
    else
      updRequest r (set_headerParser None) >>
      match httpState parsed with
      | COMPLETE =>
          input_stop c >>
          onRequestBegin c r >>
          ret {| consumed := n; channel_end := false |}
      | PARSING_BODY =>
          onRequestBegin c r >>
          ret {| consumed := n; channel_end := false |}
      | PARSING_CHUNKED_BODY =>
          prepareChunkedBodyParsing c r >>
          onRequestBegin c r >>
          ret {| consumed := n; channel_end := false |}
      | UPGRADED =>
          if supportsUpgrade c r then
            onRequestBegin c r >>
            ret {| consumed := n; channel_end := false |}
          else
            endAsBadRequest c r "Bad request (connection upgrading not allowed for this request)" >>
            ret {| consumed := 0; channel_end := true |}
      | ERROR =>
          updRequest r (set_httpState COMPLETE) >>
          (if aux_parseError parsed =? HTTP_VERSION_NOT_SUPPORTED
           then endWithErrorResponse c r 505 ("HTTP version not supported" +:+ String LF EmptyString)
           else endAsBadRequest c r (getErrorDesc (aux_parseError parsed))) >>
          ret {| consumed := 0; channel_end := true |}
      | _ => crash InvalidStateBug
      end
  else
    let* _ := disconnect c in
    ret {| consumed := 0; channel_end := true |}.

Definition processClientDataWhenParsingBody
    (c : ClientId) (r : RequestId) (buffer : mbuf) (errcode : Z) : M Channel_Result :=
  if 0 <? mbuf_size buffer then
    let* req := getRequest r in
    let maxRemaining := wrap64 (aux_contentLength req - bodyAlreadyRead req) in
    let remaining := Z.min (mbuf_size buffer) maxRemaining in
    updRequest r (fun q => set_bodyAlreadyRead (wrap64 (bodyAlreadyRead q + remaining)) q) >>
    bodyChannel_feed r (mbuf_slice buffer 0 remaining) >>
    let* req := getRequest r in
    when (negb (ended req))
      (if negb (passedThreshold (calls (bodyChannel req)))
       then requestBodyConsumed c r
       else
         input_stop c >>
         updRequest r (fun q =>
           set_bodyChannel (set_buffersFlushedCallback
                              (Some CB_onRequestBodyChannelBuffersFlushed) (bodyChannel q)) q)) >>
    ret {| consumed := remaining; channel_end := false |}
  else if errcode =? 0 then
    let* req := getRequest r in
    (if bodyFullyRead req
     then bodyChannel_feed r EmptyString
     else bodyChannel_feedError r UNEXPECTED_EOF) >>
    ret {| consumed := 0; channel_end := false |}
  else
    bodyChannel_feedError r errcode >>
    ret {| consumed := 0; channel_end := false |}.

Definition processClientDataWhenParsingChunkedBody
    (c : ClientId) (r : RequestId) (buffer : mbuf) (errcode : Z) : M Channel_Result :=
  if 0 <? mbuf_size buffer then
    updRequest r (fun q => set_bodyAlreadyRead (wrap64 (bodyAlreadyRead q + mbuf_size buffer)) q) >>
    chunkedBodyParser_feed c r buffer
  else
    chunkedBodyParser_feedUnexpectedEof c r >>
    ret {| consumed := 0; channel_end := true |}.

Definition processClientDataWhenUpgraded
    (c : ClientId) (r : RequestId) (buffer : mbuf) (errcode : Z) : M Channel_Result :=
  if 0 <? mbuf_size buffer then
    updRequest r (fun q => set_bodyAlreadyRead (wrap64 (bodyAlreadyRead q + mbuf_size buffer)) q) >>
    bodyChannel_feed r buffer >>
    let* req := getRequest r in
    when (negb (ended req))
      (if negb (passedThreshold (calls (bodyChannel req)))
       then requestBodyConsumed c r
       else
         input_stop c >>
         updRequest r (fun q =>
           set_bodyChannel (set_buffersFlushedCallback
                              (Some CB_onRequestBodyChannelBuffersFlushed) (bodyChannel q)) q)) >>
    ret {| consumed := mbuf_size buffer; channel_end := false |}
  else if errcode =? 0 then
    bodyChannel_feed r EmptyString >>
    ret {| consumed := 0; channel_end := false |}
  else
    bodyChannel_feedError r errcode >>
    ret {| consumed := 0; channel_end := false |}.

(** [onClientDataReceived] holds a [RequestRef] on the current request for
    the duration of the call. *)
Definition onClientDataReceived (c : ClientId) (buffer : mbuf) (errcode : Z) : M Channel_Result :=
  let* cl := getClient c in
  assert (bool_decide (currentRequest cl ≠ None)) >>
  let* r := deref (currentRequest cl) in
  refRequest r >>
  let* req := getRequest r in
  let* result :=
    if bool_decide (httpState req = PARSING_HEADERS)
    then processClientDataWhenParsingHeaders c r buffer errcode
    else
      match httpState req with
      | PARSING_BODY => processClientDataWhenParsingBody c r buffer errcode
      | PARSING_CHUNKED_BODY => processClientDataWhenParsingChunkedBody c r buffer errcode
      | UPGRADED => processClientDataWhenUpgraded c r buffer errcode
      | _ => crash InvalidStateBug
      end in
  unrefRequest r >>
  ret result.

Definition onClientAccepted (c : ClientId) : M unit := handleNextRequest c.

Definition _onClientOutputDataFlushed (c : ClientId) : M unit :=
  let* cl := getClient c in
  match currentRequest cl with
  | Some r =>
      let* req := getRequest r in
      when (bool_decide (httpState req = FLUSHING_OUTPUT)) (doneWithCurrentRequest c)
  | None => ret tt
  end.

End HttpServer.


(** ** A reference instance of the collaborators *)

(** The helpers as HTTP/1.x defines them, a three-verb header parser and
    channels that hand data on at once; used to run the model on concrete
    inputs. *)
Definition ref_ended (req : Request) : bool :=
  match httpState req with
  | FLUSHING_OUTPUT | WAITING_FOR_REFERENCES | IN_FREELIST | ERROR => true
  | _ => false
  end.

Definition ref_bodyFullyRead (req : Request) : bool :=
  match bodyType req with
  | RBT_NO_BODY => true
  | RBT_CONTENT_LENGTH => aux_contentLength req <=? bodyAlreadyRead req
  | RBT_CHUNKED => aux_endChunkReached req
  | RBT_UPGRADE => false
  end.

Definition ref_canKeepAlive (req : Request) : bool :=
  wantKeepAlive req && ref_bodyFullyRead req.

Definition ref_headerParser_feed (req : Request) (buffer : mbuf) : Request * Z :=
  let n := mbuf_size buffer in
  if String.prefix "GET " buffer then
    (set_wantKeepAlive true (set_httpMinor 1 (set_method HTTP_GET (set_httpState COMPLETE req))), n)
  else if String.prefix "HEAD " buffer then
    (set_httpMinor 1 (set_method HTTP_HEAD (set_httpState COMPLETE req)), n)
  else if String.prefix "POST " buffer then
    (set_aux_contentLength 5 (set_bodyType RBT_CONTENT_LENGTH
       (set_httpMinor 1 (set_method HTTP_POST (set_httpState PARSING_BODY req)))), n)
  else if String.prefix "GET/2 " buffer then
    (set_aux_parseError 505 (set_httpState ERROR req), n)
  else if String.prefix "G" buffer then
    (set_headerParser (Some [buffer]) req, n)
  else (set_aux_parseError 16 (set_httpState ERROR req), n).

Definition ref_status (code : Z) : option string :=
  if code =? 200 then Some "200 OK"
  else if code =? 400 then Some "400 Bad Request"
  else if code =? 500 then Some "500 Internal Server Error"
  else if code =? 505 then Some "505 HTTP Version Not Supported"
  else None.

Global Instance reference : Collaborators := {|
  ended := ref_ended;
  bodyFullyRead := ref_bodyFullyRead;
  canKeepAlive := ref_canKeepAlive;
  headerParser_feed := ref_headerParser_feed;
  chunkedBodyParser_initialize := fun _ _ => ret tt;
  chunkedBodyParser_feed := fun _ _ b => ret {| consumed := mbuf_size b; channel_end := false |};
  chunkedBodyParser_feedUnexpectedEof := fun _ _ => ret tt;
  getStatusCodeAndReasonPhrase := ref_status;
  getErrorDesc := fun _ => "invalid HTTP method";
  HTTP_VERSION_NOT_SUPPORTED := 505;
  UNEXPECTED_EOF := 1001;
  DEFAULT_INTERNAL_SERVER_ERROR_RESPONSE := "<h1>Internal server error</h1>";
  strftime_gmt := fun _ => "Thu, 01 Jan 1970 00:00:00 +0000";
  output_ended := fun fed => bool_decide (EmptyString ∈ fed);
  output_endAcked := fun fed => bool_decide (EmptyString ∈ fed);
  passedThreshold := fun _ => false;
  deliversAtOnce := fun _ => true
|}.

(** A client the base server has just created for an accepted connection. *)
Definition Client_new : Client :=
  {| currentRequest := None; endedRequests := []; endedRequestCount := 0; input := false;
     output := []; connState := ACTIVE; clientRefcount := 1 |}.

(** * Concrete servers *)

(** Servers reached by running the model with the reference collaborators,
    used to run the statements below on concrete inputs. *)
Definition stateAfter {A} (m : M A) (s : Server) : Server :=
  match m s with Done _ s' => s' | Crash _ => s end.

Definition requestOf (s : Server) : Request := default Request_new (requests s !! 0%nat).
Definition clientOf (s : Server) : Client := default Client_new (clients s !! 0%nat).

(** Client 0 is connected; then accepted, with request 0 waiting for its headers. *)
Definition listening : Server := set_clients {[ 0%nat := Client_new ]} HttpServer_new.
Definition serving : Server := stateAfter (onClientAccepted 0%nat) listening.

(** The headers of a POST with a five-byte body, of a GET and of a HEAD have arrived. *)
Definition posting : Server := stateAfter (onClientDataReceived 0%nat "POST /upload" 0) serving.
Definition getting : Server := stateAfter (onClientDataReceived 0%nat "GET /" 0) serving.
Definition heading : Server := stateAfter (onClientDataReceived 0%nat "HEAD /" 0) serving.

(** Eight body bytes arrive in two buffers. *)
Definition posted1 : Server := stateAfter (onClientDataReceived 0%nat "abc" 0) posting.
Definition posted2 : Server := stateAfter (onClientDataReceived 0%nat "defgh" 0) posted1.

(** The application holds a reference of its own to the request. *)
Definition held : Server := stateAfter (refRequest 0%nat) getting.

(** Request 0 has ended and its last reference is being dropped. *)
Definition lingering : Server :=
  set_requests
    {[ 0%nat := set_client (Some 0%nat) (set_httpState WAITING_FOR_REFERENCES Request_new) ]}
    (set_clients {[ 0%nat := set_endedRequestCount 1 (set_endedRequests [0%nat] Client_new) ]}
       (set_nextRequestId 1%nat HttpServer_new)).

(** No memory is left for a new request. *)
Definition exhausted : Server := set_allocationFails true listening.

Definition extraHeaders : HeaderTable :=
  HeaderTable_insert
    (HeaderTable_insert (HeaderTable_insert [] "connection" "Upgrade") "x-powered-by" "ServerKit")
    "date" "Mon, 02 Nov 2015 10:00:00 +0000".


(** * The vocabulary of the statements *)

(** The states the member functions lead to, written out, and the
    predicates the theorems are stated with. *)

Section Vocabulary.
Context `{Collaborators}.

(** ** States reached *)

(** A request after [deinitializeRequest]. *)
Definition deinitialized (req : Request) : Request :=
  {| httpState := WAITING_FOR_REFERENCES;
     httpMajor := httpMajor req; httpMinor := httpMinor req; method := method req;
     bodyType := bodyType req; aux_contentLength := aux_contentLength req;
     aux_endChunkReached := aux_endChunkReached req; aux_parseError := aux_parseError req;
     bodyAlreadyRead := bodyAlreadyRead req; wantKeepAlive := wantKeepAlive req;
     responseBegun := responseBegun req; refcount := refcount req;
     pool := None; client := client req;
     headerParser := if bool_decide (httpState req = PARSING_HEADERS) then None
                     else headerParser req;
     path := []; headers := []; secureHeaders := [];
     bodyChannel := {| calls := []; buffersFlushedCallback := None;
                       dataFlushedCallback := None |} |}.

(** The server after [deinitializeRequestAndAddToFreelist] has ended the
    current request [r] of client [c]. *)
Definition ended_on (c : ClientId) (r : RequestId) (cl : Client) (req : Request) (s : Server) : Server :=
  set_clients (<[c := set_endedRequestCount (wrap32 (endedRequestCount cl + 1))
                        (set_endedRequests (r :: endedRequests cl) cl)]> (clients s))
    (set_requests (<[r := deinitialized (set_httpState WAITING_FOR_REFERENCES req)]> (requests s)) s).

(** The server after the last reference to the ended request [r] of client
    [c] was dropped: [requestReachedZeroRefcount]. *)
Definition released (c : ClientId) (r : RequestId) (cl : Client) (req : Request) (s : Server) : Server :=
  let cl' := set_clientRefcount (wrap_int (clientRefcount cl - 1))
               (set_endedRequestCount (wrap32 (endedRequestCount cl - 1))
                  (set_endedRequests (filter (fun x => x ≠ r) (endedRequests cl)) cl)) in
  if freeRequestCount s <? requestFreelistLimit s then
    set_clients (<[c := cl']> (clients s))
      (set_requests (<[r := set_httpState IN_FREELIST (set_refcount 1 (set_client None req))]> (requests s))
         (set_freeRequestCount (wrap32 (freeRequestCount s + 1))
            (set_freeRequests (r :: freeRequests s) s)))
  else
    set_clients (<[c := cl']> (clients s)) (set_requests (delete r (requests s)) s).

(** The last reference was dropped off the event loop thread: the request is
    handed to the event loop with a reference of its own. *)
Definition hopped (r : RequestId) (req : Request) (s : Server) : Server :=
  set_pendingCallbacks (pendingCallbacks s ++ [r])
    (set_requests (<[r := set_refcount (wrap_int (wrap_int (refcount req - 1) + 1)) req]> (requests s)) s).

(** The server after the [onClientDisconnecting] hook, for a client whose
    current request, if any, is also referenced by someone else. *)
Definition disconnecting (c : ClientId) (cl : Client) (s : Server) : Server :=
  match currentRequest cl with
  | Some r =>
      match requests s !! r with
      | Some req =>
          let s1 := if bool_decide (httpState req = WAITING_FOR_REFERENCES) then s
                    else ended_on c r cl req s in
          let req1 := if bool_decide (httpState req = WAITING_FOR_REFERENCES) then req
                      else deinitialized (set_httpState WAITING_FOR_REFERENCES req) in
          let cl1 := if bool_decide (httpState req = WAITING_FOR_REFERENCES) then cl
                     else set_endedRequestCount (wrap32 (endedRequestCount cl + 1))
                            (set_endedRequests (r :: endedRequests cl) cl) in
          set_requests (<[r := set_refcount (wrap_int (refcount req - 1)) req1]> (requests s1))
            (set_clients (<[c := set_currentRequest None cl1]> (clients s1)) s1)
      | None => s
      end
  | None => s
  end.

(** The server after [disconnect] on an active client. *)
Definition disconnected (c : ClientId) (cl : Client) (s : Server) : Server :=
  let s1 := set_trace (trace s ++ [Disconnected c])
              (set_clients (<[c := set_connState DISCONNECTED cl]> (clients s)) s) in
  let s2 := disconnecting c (set_connState DISCONNECTED cl) s1 in
  match clients s2 !! c with
  | Some cl2 => set_clients (<[c := set_clientRefcount (wrap_int (clientRefcount cl2 - 1)) cl2]> (clients s2)) s2
  | None => s2
  end.

(** ** Events *)

Definition is_Disconnected (c : ClientId) (e : Event) : Prop := e = Disconnected c.

(** What is left of a client after it was disconnected in the middle of a data callback. *)
Definition dropped (c : ClientId) (cl : Client) (s s' : Server) : Prop :=
  trace s' = trace s ++ [Disconnected c]
  /\ totalRequestsAccepted s' = totalRequestsAccepted s
  /\ exists cl', clients s' !! c = Some cl' /\ connState cl' = DISCONNECTED
       /\ currentRequest cl' = None /\ output cl' = output cl.

(** The server after the body channel of [r] recorded one call. *)
Definition handed (r : RequestId) (call : BodyChannelCall) (e : Event) (req : Request) (s : Server) : Server :=
  set_trace (trace s ++ [e])
    (set_requests
       (<[r := set_bodyChannel (set_calls (calls (bodyChannel req) ++ [call]) (bodyChannel req)) req]>
          (requests s)) s).

(** The bytes handed to the body channel of request [r], in order. *)
Fixpoint bodyBytes (r : RequestId) (tr : list Event) : string :=
  match tr with
  | [] => EmptyString
  | BodyData r' data :: tr' =>
      if decide (r' = r) then data +:+ bodyBytes r tr' else bodyBytes r tr'
  | _ :: tr' => bodyBytes r tr'
  end.

(** The length of a string, as a [size_t]. *)
Definition slen (s : string) : Z := Z.of_nat (String.length s).

(** ** Frames *)

(** [keeps R m]: whenever [m] returns, the states before and after are
    related by [R]. *)
Definition keeps {A} (R : Server -> Server -> Prop) (m : M A) : Prop :=
  forall s a s', m s = Done a s' -> R s s'.

(** The part of the state that belongs to the body of request [r]: the bytes its body channel
    was handed, and its two counters as long as the request object exists. *)
Definition bodyFrame (r : RequestId) (s s' : Server) : Prop :=
  bodyBytes r (trace s') = bodyBytes r (trace s)
  /\ forall req', requests s' !! r = Some req' ->
       exists req, requests s !! r = Some req
         /\ bodyAlreadyRead req' = bodyAlreadyRead req
         /\ aux_contentLength req' = aux_contentLength req.

(** A field update that changes neither counter of a body. *)
Definition keepsCounters (f : Request -> Request) : Prop :=
  forall q, bodyAlreadyRead (f q) = bodyAlreadyRead q
            /\ aux_contentLength (f q) = aux_contentLength q.

(** The bytes of a sequence of buffers, in the order they arrive. *)
Definition received (bufs : list mbuf) : string := fold_right String.append EmptyString bufs.

(** The current request [r] of client [c] is reading a Content-Length body. *)
Definition parsingBody (c : ClientId) (r : RequestId) (s : Server) : Prop :=
  exists cl req,
    clients s !! c = Some cl /\ currentRequest cl = Some r
    /\ requests s !! r = Some req
    /\ httpState req = PARSING_BODY /\ bodyType req = RBT_CONTENT_LENGTH.

(** Buffers delivered one after the other to a request that is reading a
    Content-Length body; between two deliveries the body channel may
    announce that its buffers were flushed. *)
Inductive bodyDelivery (c : ClientId) (r : RequestId) : Server -> list mbuf -> Server -> Prop :=
  | delivery_done s : bodyDelivery c r s [] s
  | delivery_data s buffer errcode result s1 rest s2 :
      parsingBody c r s ->
      mbuf_empty buffer = false ->
      onClientDataReceived c buffer errcode s = Done result s1 ->
      bodyDelivery c r s1 rest s2 ->
      bodyDelivery c r s (buffer :: rest) s2
  | delivery_flushed s s1 bufs s2 :
      onRequestBodyChannelBuffersFlushed r s = Done tt s1 ->
      bodyDelivery c r s1 bufs s2 ->
      bodyDelivery c r s bufs s2.

(** ** The header block, line by line *)

(** A header of the caller that is not one of the four the writer emits
    itself, and the lines the writer appends for such headers. *)
Definition isOther (k : LString) : bool :=
  negb (psg_lstr_cmp k "content-type") && negb (psg_lstr_cmp k "date")
  && negb (psg_lstr_cmp k "connection") && negb (psg_lstr_cmp k "content-length").

Fixpoint otherHeaders (t : HeaderTable) : list (string * string) :=
  match t with
  | [] => []
  | h :: rest =>
      if isOther (key h) then (lstr_data (key h), lstr_data (val h)) :: otherHeaders rest
      else otherHeaders rest
  end.

(** A header line and a list of header lines, as bytes. *)
Definition renderLine (l : string * string) : string := fst l +:+ ": " +:+ snd l +:+ CRLF.

Definition renderLines (ls : list (string * string)) : string :=
  fold_right (fun l acc => renderLine l +:+ acc) EmptyString ls.

(** The bytes the writer sets aside for a header of the caller. *)
Definition headerCost (h : Header) : Z := lstr_size (key h) + 2 + (lstr_size (val h) + 2).

Definition headersCost (t : HeaderTable) : Z := fold_right (fun h acc => headerCost h + acc) 0 t.

(** The value of a header: the caller's if the table has one, the default
    otherwise. *)
Definition valueOr (t : option HeaderTable) (name : string) (default : string) : string :=
  match lookup_in t name with Some v => lstr_data v | None => default end.

(** The header lines of a simple response, the status lines before them, and
    the whole header block. *)
Definition headerLines (req : Request) (clock : Z) (t : option HeaderTable) (body : string)
  : list (string * string) :=
  [ ("Content-Type", valueOr t "content-type" "text/html; charset=UTF-8");
    ("Date", valueOr t "date" (strftime_gmt clock));
    ("Connection", valueOr t "connection" (if canKeepAlive req then "keep-alive" else "close"));
    ("Content-Length", valueOr t "content-length" (pretty (wrap32 (slen body)))) ]
  ++ match t with Some t => otherHeaders t | None => [] end.

Definition statusLines (req : Request) (code : Z) : string :=
  "HTTP/" +:+ pretty (httpMajor req) +:+ "." +:+ pretty (httpMinor req)
  +:+ " " +:+ statusText code +:+ CRLF +:+ "Status: " +:+ statusText code +:+ CRLF.

Definition simpleResponseHeader (req : Request) (clock : Z) (code : Z) (t : option HeaderTable)
    (body : string) : string :=
  statusLines req code +:+ renderLines (headerLines req clock t body) +:+ CRLF.

(** Whether the caller's Connection header makes the writer clear
    [wantKeepAlive]. *)
Definition clearsKeepAlive (t : option HeaderTable) : bool :=
  match lookup_in t "connection" with
  | Some v => negb (psg_lstr_cmp v "Keep-Alive") && negb (psg_lstr_cmp v "keep-alive")
  | None => false
  end.

(** The server after a simple response was written for the current request [r] of client [c]. *)
Definition responded (c : ClientId) (r : RequestId) (cl : Client) (req : Request)
    (code : Z) (t : option HeaderTable) (body : string) (s : Server) : Server :=
  let req1 := set_responseBegun true
                (if clearsKeepAlive t then set_wantKeepAlive false req else req) in
  let block := simpleResponseHeader req (now s) code t body in
  let sent := block :: if negb (ended req1) && negb (bool_decide (method req = HTTP_HEAD))
                       then [body] else [] in
  set_trace (trace s ++ map (ClientOutput c) sent)
    (set_clients (<[c := set_output (output cl ++ sent) cl]> (clients s))
       (set_requests (<[r := req1]> (requests s)) s)).

(** What the caller's table adds to the 300 bytes of the header buffer, and
    the bytes the line of one header takes. *)
Definition tableCost (t : option HeaderTable) : Z :=
  match t with Some t => headersCost t | None => 0 end.

Definition lineCost (t : HeaderTable) (name : string) : Z :=
  match HeaderTable_lookup t name with
  | Some v => slen name + slen (lstr_data v) + 4
  | None => 0
  end.





(** What writing a response leaves alone: the allocator, the reference count of request [r]
    and the current request of client [c]. *)
Definition responseFrame (c : ClientId) (r : RequestId) (s s' : Server) : Prop :=
  nextRequestId s' = nextRequestId s
  /\ (forall req, requests s !! r = Some req ->
        exists req', requests s' !! r = Some req' /\ refcount req' = refcount req)
  /\ (forall cl, clients s !! c = Some cl ->
        exists cl', clients s' !! c = Some cl' /\ currentRequest cl' = currentRequest cl).

End Vocabulary.

(** ** Recycling, beginning and parking a request *)

(** A request object after [reinitializeRequest] gave it the pool [p]. *)
Definition reinitialized (p : psg_pool_t) (req : Request) : Request :=
  {| httpState := PARSING_HEADERS; httpMajor := 1; httpMinor := 0; method := HTTP_GET;
     bodyType := RBT_NO_BODY; aux_contentLength := 0; aux_endChunkReached := false;
     aux_parseError := 0; bodyAlreadyRead := 0; wantKeepAlive := false;
     responseBegun := false; refcount := refcount req; pool := Some p; client := client req;
     headerParser := Some []; path := []; headers := headers req;
     secureHeaders := secureHeaders req;
     bodyChannel := {| calls := []; buffersFlushedCallback := buffersFlushedCallback (bodyChannel req);
                       dataFlushedCallback := dataFlushedCallback (bodyChannel req) |} |}.

(** The server after [handleNextRequest] gave client [c] the request object [r], whose
    content was [req]; [s] is the server once the object was taken. *)
Definition nextRequest (c : ClientId) (cl : Client) (r : RequestId) (req : Request) (s : Server)
  : Server :=
  set_requests (<[r := reinitialized (nextPool s) (set_client (Some c) req)]> (requests s))
    (set_nextPool (S (nextPool s))
       (set_clients
          (<[c := set_currentRequest (Some r)
                    (set_output [] (set_input true
                       (set_clientRefcount (wrap_int (clientRefcount cl + 1)) cl)))]> (clients s))
          s)).

(** The freelist is in order: the counter is the length of the list and within the
    limit, every listed request is a live object in state [IN_FREELIST] holding one
    reference, allocated earlier, and no request is listed twice. *)
Definition freelistOk (s : Server) : Prop :=
  freeRequestCount s = Z.of_nat (length (freeRequests s))
  /\ freeRequestCount s <= requestFreelistLimit s < 2 ^ 32
  /\ NoDup (freeRequests s)
  /\ Forall (fun r => (r < nextRequestId s)%nat
                      /\ exists req, requests s !! r = Some req
                           /\ httpState req = IN_FREELIST /\ refcount req = 1)
       (freeRequests s).

(** The server after [onRequestBegin] for request [r] of client [c], whose headers
    the parser left as [parsed]. *)
Definition begun (c : ClientId) (r : RequestId) (cl : Client) (parsed : Request) (s : Server)
  : Server :=
  set_totalRequestsAccepted (wrap32 (totalRequestsAccepted s + 1))
    (set_trace (trace s ++ [RequestBegin c r])
       (set_clients
          (<[c := if bool_decide (httpState parsed = COMPLETE) then set_input false cl else cl]>
             (clients s))
          (set_requests (<[r := set_headerParser None parsed]> (requests s)) s))).

(** A request as [endRequest] leaves it until the output is flushed: ended and
    de-initialized, but still holding its arena. *)
Definition parked (req : Request) : Request :=
  set_pool (pool req) (deinitialized (set_httpState WAITING_FOR_REFERENCES req)).

(** ** A second instance of the collaborators *)

(** A parser that also knows an upgrade request. *)
Definition alt_headerParser_feed (req : Request) (buffer : mbuf) : Request * Z :=
  if String.prefix "GET /chat" buffer then
    (set_bodyType RBT_UPGRADE
       (set_httpMinor 1 (set_method HTTP_GET (set_httpState UPGRADED req))), mbuf_size buffer)
  else ref_headerParser_feed req buffer.

(** The peer reads slowly: the end of the output is not acknowledged within
    the call that feeds it, and the body channel is over its threshold as soon
    as it holds anything. *)
Definition alternate : Collaborators := {|
  ended := ref_ended;
  bodyFullyRead := ref_bodyFullyRead;
  canKeepAlive := ref_canKeepAlive;
  headerParser_feed := alt_headerParser_feed;
  chunkedBodyParser_initialize := fun _ _ => ret tt;
  chunkedBodyParser_feed := fun _ _ b => ret {| consumed := mbuf_size b; channel_end := false |};
  chunkedBodyParser_feedUnexpectedEof := fun _ _ => ret tt;
  getStatusCodeAndReasonPhrase := ref_status;
  getErrorDesc := fun _ => "invalid HTTP method";
  HTTP_VERSION_NOT_SUPPORTED := 505;
  UNEXPECTED_EOF := 1001;
  DEFAULT_INTERNAL_SERVER_ERROR_RESPONSE := "<h1>Internal server error</h1>";
  strftime_gmt := fun _ => "Thu, 01 Jan 1970 00:00:00 +0000";
  output_ended := fun fed => bool_decide (EmptyString ∈ fed);
  output_endAcked := fun _ => false;
  passedThreshold := fun _ => true;
  deliversAtOnce := fun _ => true
|}.

(** ** More concrete servers *)

(** The request was upgraded by a subclass that supports it. *)
Definition upgraded : Server :=
  set_requests
    (<[0%nat := set_bodyType RBT_UPGRADE (set_httpState UPGRADED (requestOf getting))]>
       (requests getting)) getting.

(** The GET and the HEAD request were answered with a simple response. *)
Definition answered : Server :=
  stateAfter (writeSimpleResponse 0%nat 200 None "hello") getting.
Definition answeredHead : Server :=
  stateAfter (writeSimpleResponse 0%nat 200 None "hello") heading.

(** The answered request was ended while the peer had not read the response. *)
Definition flushing : Server :=
  stateAfter (endRequest (H := alternate) 0%nat 0%nat) answered.

(** Request 0 was released into the freelist. *)
Definition recycled : Server := stateAfter (requestReachedZeroRefcount 0%nat) lingering.

(** The last reference is dropped by another thread. *)
Definition offLoop : Server := set_onEventLoopThread false lingering.

(** The application holds a reference while the headers are being parsed. *)
Definition heldParsing : Server := stateAfter (refRequest 0%nat) serving.

(** The application holds a reference to the answered request. *)
Definition heldAnswered : Server := stateAfter (refRequest 0%nat) answered.

(** * Proofs *)

(** ** Running the monad *)

Arguments wrap32 : simpl never.
Arguments wrap64 : simpl never.
Arguments wrap_int : simpl never.
Arguments refClient : simpl never.
Arguments unrefClient : simpl never.
Arguments input_start : simpl never.
Arguments input_stop : simpl never.
Arguments output_feed : simpl never.
Arguments output_deinitialize : simpl never.
Arguments output_reinitialize : simpl never.
Arguments deinitializeRequest : simpl never.
Arguments psg_create_pool : simpl never.
Arguments reinitializeRequest : simpl never.
Arguments checkoutRequestObjectFromFreelist : simpl never.
Arguments onRequestObjectCreated : simpl never.
Arguments createNewRequestObject : simpl never.
Arguments checkoutRequestObject : simpl never.
Arguments addRequestToFreelist : simpl never.
Arguments requestReachedZeroRefcount : simpl never.
Arguments refRequest : simpl never.
Arguments passRequestToEventLoopThread : simpl never.
Arguments unrefRequest : simpl never.
Arguments passRequestToEventLoopThreadCallback : simpl never.
Arguments deinitializeRequestAndAddToFreelist : simpl never.
Arguments onClientDisconnecting : simpl never.
Arguments disconnect : simpl never.
Arguments deinitializeClient : simpl never.
Arguments handleNextRequest : simpl never.
Arguments doneWithCurrentRequest : simpl never.
Arguments onRequestBody : simpl never.
Arguments onRequestBodyChannelData : simpl never.
Arguments bodyChannel_feed : simpl never.
Arguments bodyChannel_feedError : simpl never.
Arguments requestBodyConsumed : simpl never.
Arguments onRequestBodyChannelBuffersFlushed : simpl never.
Arguments writeResponse : simpl never.
Arguments snprintf : simpl never.
Arguments writeSimpleResponse : simpl never.
Arguments writeDefault500Response : simpl never.
Arguments endRequest : simpl never.
Arguments endWithErrorResponse : simpl never.
Arguments endAsBadRequest : simpl never.
Arguments onRequestBegin : simpl never.
Arguments prepareChunkedBodyParsing : simpl never.
Arguments processClientDataWhenParsingHeaders : simpl never.
Arguments processClientDataWhenParsingBody : simpl never.
Arguments processClientDataWhenParsingChunkedBody : simpl never.
Arguments processClientDataWhenUpgraded : simpl never.
Arguments onClientDataReceived : simpl never.
Arguments onClientAccepted : simpl never.
Arguments _onClientOutputDataFlushed : simpl never.
Arguments getRequest : simpl never.
Arguments updRequest : simpl never.
Arguments getClient : simpl never.
Arguments updClient : simpl never.
Arguments deleteRequest : simpl never.
Arguments emit : simpl never.
Arguments mbuf_size : simpl never.
Arguments appendData : simpl never.

(** The equations of [bind] and of the heap accesses. *)
Lemma bind_Done {A B} (m : M A) (k : A -> M B) s a s' :
  m s = Done a s' -> bind m k s = k a s'.
Proof. unfold bind. by intros ->. Qed.

Lemma bind_Crash {A B} (m : M A) (k : A -> M B) s f :
  m s = Crash f -> bind m k s = Crash f.
Proof. unfold bind. by intros ->. Qed.

Lemma bind_inv {A B} (m : M A) (k : A -> M B) s b s'' :
  bind m k s = Done b s'' -> exists a s', m s = Done a s' /\ k a s' = Done b s''.
Proof. unfold bind. destruct (m s) as [a s'|]; [eauto | done]. Qed.

Lemma getRequest_Done r s req :
  requests s !! r = Some req -> getRequest r s = Done req s.
Proof. unfold getRequest. by intros ->. Qed.

Lemma updRequest_Done r f s req :
  requests s !! r = Some req ->
  updRequest r f s = Done tt (set_requests (<[r := f req]> (requests s)) s).
Proof. unfold updRequest. by intros ->. Qed.

Lemma getClient_Done c s cl :
  clients s !! c = Some cl -> getClient c s = Done cl s.
Proof. unfold getClient. by intros ->. Qed.

Lemma updClient_Done c f s cl :
  clients s !! c = Some cl ->
  updClient c f s = Done tt (set_clients (<[c := f cl]> (clients s)) s).
Proof. unfold updClient. by intros ->. Qed.

(** [lookup_tac] reads a heap after updates; [bd] decides the [bool_decide]s
    of the goal; [step] runs the next heap access of the goal. *)
Ltac lookup_tac :=
  cbn; rewrite ?lookup_insert_eq; first [eassumption | reflexivity
   | rewrite lookup_insert_ne by congruence; lookup_tac ].

Ltac bd :=
  repeat match goal with
  | |- context [bool_decide ?P] =>
      first [ rewrite (bool_decide_eq_true_2 P) by (done || congruence)
            | rewrite (bool_decide_eq_false_2 P) by (done || congruence) ]
  end.

Ltac step :=
  match goal with
  | |- context [getRequest ?r ?s] => erewrite (getRequest_Done r s) by lookup_tac
  | |- context [updRequest ?r ?f ?s] => erewrite (updRequest_Done r f s) by lookup_tac
  | |- context [getClient ?r ?s] => erewrite (getClient_Done r s) by lookup_tac
  | |- context [updClient ?r ?f ?s] => erewrite (updClient_Done r f s) by lookup_tac
  end; cbn; rewrite ?insert_insert_eq, ?delete_insert_eq; bd; cbn.

(** ** De-initializing a request *)

Section Deinitialization.

Context `{Collaborators}.

(** What the member functions compute, as equations on the server state. *)
Lemma addRequestToFreelist_run r req s :
  requests s !! r = Some req ->
  addRequestToFreelist r s =
    if freeRequestCount s <? requestFreelistLimit s then
      Done true (set_requests (<[r := set_httpState IN_FREELIST (set_refcount 1 req)]> (requests s))
                  (set_freeRequestCount (wrap32 (freeRequestCount s + 1))
                     (set_freeRequests (r :: freeRequests s) s)))
    else Done false s.
Proof.
  intros Hr. unfold addRequestToFreelist, bind, get.
  destruct (freeRequestCount s <? requestFreelistLimit s); [|done].
  cbn. repeat step. done.
Qed.

Lemma deinitializeRequest_run c r req s :
  requests s !! r = Some req ->
  deinitializeRequest c r s =
    Done tt (set_requests (<[r := deinitialized req]> (requests s)) s).
Proof.
  intros Hr. destruct s, req as [st ? ? ? ? ? ? ? ? ? ? ? pl ? hp ? ? ? []]; cbn in *.
  unfold deinitializeRequest, deinitialized, bind, when; cbn.
  step.
  destruct (bool_decide (st = PARSING_HEADERS)) eqn:E1;
  destruct hp; destruct pl; cbn; repeat step; reflexivity.
Qed.

End Deinitialization.

(** ** Reference counts and disconnecting *)

Section ReferenceCounting.

Context `{Collaborators}.
Hypothesis ended_waiting : forall q, httpState q = WAITING_FOR_REFERENCES -> ended q = true.

Lemma deinitializeRequestAndAddToFreelist_run c r cl req s :
  clients s !! c = Some cl -> currentRequest cl = Some r ->
  requests s !! r = Some req ->
  deinitializeRequestAndAddToFreelist c r s =
    Done tt (if bool_decide (httpState req = WAITING_FOR_REFERENCES) then s
             else ended_on c r cl req s).
Proof.
  intros Hc Hcur Hr. unfold deinitializeRequestAndAddToFreelist, bind.
  step. unfold assert. cbn. step.
  destruct (bool_decide (httpState req = WAITING_FOR_REFERENCES)) eqn:E; cbn; [done|].
  unfold bind. step.
  erewrite deinitializeRequest_run by lookup_tac. cbn. step.
  rewrite ended_waiting by (by destruct req). cbn.
  repeat step. reflexivity.
Qed.

Lemma unrefRequest_run r req s :
  requests s !! r = Some req -> 2 <= refcount req ->
  unrefRequest r s =
    Done tt (set_requests (<[r := set_refcount (wrap_int (refcount req - 1)) req]> (requests s)) s).
Proof.
  intros Hr Hrc. unfold unrefRequest, bind. repeat step.
  unfold assert. replace (1 <=? refcount req) with true by lia.
  replace (refcount req =? 1) with false by lia. reflexivity.
Qed.

Lemma requestReachedZeroRefcount_run c r cl req s :
  requests s !! r = Some req -> client req = Some c ->
  httpState req = WAITING_FOR_REFERENCES ->
  clients s !! c = Some cl -> 0 < endedRequestCount cl ->
  currentRequest cl ≠ Some r -> endedRequests cl ≠ [] ->
  requestReachedZeroRefcount r s = Done tt (released c r cl req s).
Proof.
  intros Hr Hc Hst Hcl Hcnt Hcur Hne. unfold requestReachedZeroRefcount, bind.
  step. rewrite Hc. cbn. step.
  unfold assert. replace (0 <? endedRequestCount cl) with true by lia. cbn.
  repeat step. replace (0 <? endedRequestCount cl) with true by lia. cbn.
  repeat step. erewrite addRequestToFreelist_run by lookup_tac. cbn.
  unfold released, unrefClient, deleteRequest, modify.
  destruct (freeRequestCount s <? requestFreelistLimit s); cbn; repeat step;
    rewrite ?delete_insert_eq; reflexivity.
Qed.

Lemma unrefRequest_last_run c r cl req s :
  requests s !! r = Some req -> refcount req = 1 -> client req = Some c ->
  httpState req = WAITING_FOR_REFERENCES ->
  clients s !! c = Some cl -> 0 < endedRequestCount cl ->
  currentRequest cl ≠ Some r -> endedRequests cl ≠ [] ->
  unrefRequest r s =
    Done tt (if onEventLoopThread s
             then released c r cl (set_refcount (wrap_int (refcount req - 1)) req)
                    (set_requests (<[r := set_refcount (wrap_int (refcount req - 1)) req]> (requests s)) s)
             else hopped r req s).
Proof.
  intros Hr Hrc Hc Hst Hcl Hcnt Hcur Hne. unfold unrefRequest, bind. repeat step.
  rewrite Hrc. cbn. destruct (onEventLoopThread s) eqn:E.
  - erewrite requestReachedZeroRefcount_run; try lookup_tac; done.
  - unfold passRequestToEventLoopThread, refRequest, bind, modify, hopped. repeat step.
    rewrite Hrc. reflexivity.
Qed.

Lemma onClientDisconnecting_run c cl s :
  clients s !! c = Some cl ->
  (forall r, currentRequest cl = Some r ->
     exists req, requests s !! r = Some req /\ 2 <= refcount req) ->
  onClientDisconnecting c s = Done tt (disconnecting c cl s).
Proof.
  intros Hcl Hcur. unfold onClientDisconnecting, disconnecting, bind. step.
  destruct (currentRequest cl) as [r|] eqn:E; [|done].
  destruct (Hcur r eq_refl) as (req & Hr & Hrc). rewrite Hr.
  unfold bind. erewrite deinitializeRequestAndAddToFreelist_run by done. cbn.
  destruct (bool_decide (httpState req = WAITING_FOR_REFERENCES)) eqn:E1; cbn.
  - step. erewrite unrefRequest_run; [|lookup_tac|done]. cbn. reflexivity.
  - unfold ended_on. step. erewrite unrefRequest_run; [|lookup_tac|by destruct req].
    cbn. destruct req; cbn. rewrite !insert_insert_eq. reflexivity.
Qed.

Lemma disconnect_run c cl s :
  clients s !! c = Some cl ->
  (forall r, currentRequest cl = Some r ->
     exists req, requests s !! r = Some req /\ 2 <= refcount req) ->
  disconnect c s =
    match connState cl with
    | ACTIVE => Done true (disconnected c cl s)
    | DISCONNECTED => Done false s
    end.
Proof.
  intros Hcl Hcur. unfold disconnect, bind. step.
  destruct (connState cl) eqn:E; [|done].
  unfold emit, modify, bind. step.
  erewrite onClientDisconnecting_run; [|lookup_tac|exact Hcur].
  cbn. unfold disconnected, unrefClient.
  set (s2 := disconnecting _ _ _).
  assert (is_Some (clients s2 !! c)) as [cl2 Hcl2].
  { subst s2. unfold disconnecting. cbn.
    destruct (currentRequest cl) as [r|]; cbn; [|rewrite lookup_insert_eq; eauto].
    destruct (requests s !! r) as [req|]; cbn; [|rewrite lookup_insert_eq; eauto].
    destruct (bool_decide _); cbn; rewrite ?lookup_insert_eq; eauto. }
  rewrite Hcl2. step. reflexivity.
Qed.

End ReferenceCounting.

(** Counters that stay in range do not wrap. *)
Lemma wrap_int_small z : - 2 ^ 31 <= z < 2 ^ 31 -> wrap_int z = z.
Proof. intros. unfold wrap_int. rewrite Z.mod_small; lia. Qed.

Lemma wrap32_small z : 0 <= z < 2 ^ 32 -> wrap32 z = z.
Proof. intros. unfold wrap32. rewrite Z.mod_small; lia. Qed.

Lemma wrap64_small z : 0 <= z < 2 ^ 64 -> wrap64 z = z.
Proof. intros. unfold wrap64. rewrite Z.mod_small; lia. Qed.

(** ** End of input while the headers are parsed *)

Section HeadersEof.

Context `{Collaborators}.
Hypothesis ended_waiting : forall q, httpState q = WAITING_FOR_REFERENCES -> ended q = true.

(** Dropping the reference [onClientDataReceived] holds, after a disconnect
    has ended the request. *)
Lemma unref_after_disconnect c r cl req s :
  clients s !! c = Some cl -> currentRequest cl = Some r -> connState cl = ACTIVE ->
  requests s !! r = Some req -> client req = Some c ->
  httpState req <> WAITING_FOR_REFERENCES ->
  2 <= refcount req < 2 ^ 31 ->
  0 <= endedRequestCount cl < 2 ^ 32 - 1 ->
  exists s', unrefRequest r (disconnected c cl s) = Done tt s' /\ dropped c cl s s'.
Proof.
  intros Hcl Hcur Hact Hr Hc Hst Hrc Hcnt.
  unfold disconnected, disconnecting. cbn. rewrite Hcur, Hr. cbn. bd. cbn.
  rewrite !lookup_insert_eq. cbn. rewrite !insert_insert_eq.
  rewrite (wrap_int_small (refcount req - 1)) by lia.
  rewrite (wrap32_small (endedRequestCount cl + 1)) by lia.
  unfold dropped.
  destruct (decide (refcount req = 2)) as [E|E].
  - erewrite unrefRequest_last_run;
      [|lookup_tac|cbn; lia|done|done|lookup_tac|cbn; lia|cbn; congruence|done].
    cbn. destruct (onEventLoopThread s); cbn.
    + eexists. split; [reflexivity|]. unfold released. cbn.
      destruct (freeRequestCount s <? requestFreelistLimit s); cbn;
        rewrite ?lookup_insert_eq; eauto 10.
    + eexists. split; [reflexivity|]. unfold hopped. cbn. rewrite ?lookup_insert_eq; eauto 10.
  - erewrite unrefRequest_run; [|lookup_tac|cbn; lia].
    eexists. split; [reflexivity|]. cbn. rewrite ?lookup_insert_eq; eauto 10.
Qed.

(** C10: when [onClientDataReceived] gets an empty buffer for a client whose
    current request is in state [PARSING_HEADERS], the client is disconnected:
    nothing is written to it and [onRequestBegin] is not fired. *)
Theorem eof_while_parsing_headers c r cl req errcode s :
  clients s !! c = Some cl -> currentRequest cl = Some r -> connState cl = ACTIVE ->
  requests s !! r = Some req -> httpState req = PARSING_HEADERS -> client req = Some c ->
  1 <= refcount req < 2 ^ 31 - 1 ->
  0 <= endedRequestCount cl < 2 ^ 32 - 1 ->
  exists s',
    onClientDataReceived c EmptyString errcode s
      = Done {| consumed := 0; channel_end := true |} s'
    /\ trace s' = trace s ++ [Disconnected c]
    /\ totalRequestsAccepted s' = totalRequestsAccepted s
    /\ exists cl', clients s' !! c = Some cl' /\ connState cl' = DISCONNECTED
         /\ currentRequest cl' = None /\ output cl' = output cl.
Proof.
  intros Hcl Hcur Hact Hr Hst Hc Hrc Hcnt.
  unfold onClientDataReceived, bind. step. rewrite Hcur. cbn.
  unfold refRequest. step. rewrite (wrap_int_small (refcount req + 1)) by lia.
  step.
  unfold processClientDataWhenParsingHeaders. change (mbuf_size EmptyString) with 0. cbn. unfold bind.
  erewrite disconnect_run; [|done|lookup_tac|].
  2:{ intros r' Hr'. rewrite Hcur in Hr'. injection Hr' as <-. eexists. split; [lookup_tac|cbn; lia]. }
  rewrite Hact. cbn.
  edestruct (unref_after_disconnect c r cl (set_refcount (refcount req + 1) req)) as (s' & -> & Hd);
    [lookup_tac|done|done|lookup_tac|done|cbn; congruence|cbn; lia|done|].
  eexists. split; [reflexivity|]. exact Hd.
Qed.

End HeadersEof.

(** ** End of input while the body is read *)

Section BodyEof.

Context `{Collaborators}.
Hypothesis ended_waiting : forall q, httpState q = WAITING_FOR_REFERENCES -> ended q = true.

Lemma onRequestBody_end_run c r cl req buffer errcode s :
  clients s !! c = Some cl -> currentRequest cl = Some r ->
  requests s !! r = Some req -> 2 <= refcount req ->
  (negb (errcode =? 0) || mbuf_empty buffer) = true ->
  onRequestBody c r buffer errcode s =
    Done {| consumed := mbuf_size buffer; channel_end := false |}
         (match connState cl with ACTIVE => disconnected c cl s | DISCONNECTED => s end).
Proof.
  intros Hcl Hcur Hr Hrc Hb. unfold onRequestBody, bind. rewrite Hb. cbn. unfold bind.
  erewrite disconnect_run; [|done|done|].
  2:{ intros r' Hr'. rewrite Hcur in Hr'. injection Hr' as <-. eauto. }
  by destruct (connState cl).
Qed.

Lemma bodyChannel_feed_data_run r req buffer s :
  requests s !! r = Some req -> mbuf_empty buffer = false ->
  bodyChannel_feed r buffer s =
    match client req with
    | None => if deliversAtOnce (calls (bodyChannel req)) then Crash NullPointer
              else Done tt (handed r (Feed buffer) (BodyData r buffer) req s)
    | Some c => Done tt (handed r (Feed buffer) (BodyData r buffer) req s)
    end.
Proof.
  intros Hr Hb. unfold bodyChannel_feed, bind, emit, modify. repeat step.
  unfold handed. destruct (deliversAtOnce _); cbn; [|by destruct (client req)].
  unfold onRequestBodyChannelData, bind. step. destruct (client req) as [c|]; cbn; [|done].
  unfold onRequestBody. rewrite Hb. cbn. reflexivity.
Qed.

Lemma bodyChannel_feed_eof_run c r cl req s :
  clients s !! c = Some cl -> currentRequest cl = Some r ->
  requests s !! r = Some req -> client req = Some c -> 2 <= refcount req ->
  bodyChannel_feed r EmptyString s =
    let s1 := handed r (Feed EmptyString) (BodyData r EmptyString) req s in
    Done tt (if deliversAtOnce (calls (bodyChannel req))
             then match connState cl with ACTIVE => disconnected c cl s1 | DISCONNECTED => s1 end
             else s1).
Proof.
  intros Hcl Hcur Hr Hc Hrc. unfold bodyChannel_feed, bind, emit, modify. repeat step.
  unfold handed. destruct (deliversAtOnce _); cbn; [|done].
  unfold onRequestBodyChannelData, bind. step. rewrite Hc. cbn.
  erewrite onRequestBody_end_run; [|lookup_tac|done|lookup_tac|done|done]. reflexivity.
Qed.

Lemma bodyChannel_feedError_run c r cl req errcode s :
  clients s !! c = Some cl -> currentRequest cl = Some r ->
  requests s !! r = Some req -> client req = Some c -> 2 <= refcount req ->
  bodyChannel_feedError r errcode s =
    let s1 := handed r (FeedError errcode) (BodyError r errcode) req s in
    Done tt (if deliversAtOnce (calls (bodyChannel req))
             then match connState cl with ACTIVE => disconnected c cl s1 | DISCONNECTED => s1 end
             else s1).
Proof.
  intros Hcl Hcur Hr Hc Hrc. unfold bodyChannel_feedError, bind, emit, modify. repeat step.
  unfold handed. destruct (deliversAtOnce _); cbn; [|done].
  unfold onRequestBodyChannelData, bind. step. rewrite Hc. cbn.
  erewrite onRequestBody_end_run; [|lookup_tac|done|lookup_tac|done|by rewrite orb_true_r].
  reflexivity.
Qed.

(** C5: when [onClientDataReceived] gets an empty buffer with [errcode = 0]
    for a request in state [PARSING_BODY] with a Content-Length body, the body
    channel receives the error [UNEXPECTED_EOF] if
    [bodyAlreadyRead < contentLength], and an empty buffer, the clean end of
    the body, if [bodyAlreadyRead = contentLength]. *)
Theorem eof_while_parsing_body c r cl req s :
  (forall q, bodyType q = RBT_CONTENT_LENGTH ->
     bodyFullyRead q = (aux_contentLength q <=? bodyAlreadyRead q)) ->
  clients s !! c = Some cl -> currentRequest cl = Some r ->
  requests s !! r = Some req -> httpState req = PARSING_BODY ->
  bodyType req = RBT_CONTENT_LENGTH -> client req = Some c ->
  1 <= refcount req < 2 ^ 31 - 1 ->
  0 <= endedRequestCount cl < 2 ^ 32 - 1 ->
  exists s' e evs,
    onClientDataReceived c EmptyString 0 s
      = Done {| consumed := 0; channel_end := false |} s'
    /\ trace s' = trace s ++ e :: evs
    /\ Forall (is_Disconnected c) evs
    /\ (bodyAlreadyRead req < aux_contentLength req -> e = BodyError r UNEXPECTED_EOF)
    /\ (bodyAlreadyRead req = aux_contentLength req -> e = BodyData r EmptyString).
Proof.
  intros Hfull Hcl Hcur Hr Hst Hbt Hc Hrc Hcnt.
  unfold onClientDataReceived, bind. step. rewrite Hcur. cbn.
  unfold refRequest. step. rewrite (wrap_int_small (refcount req + 1)) by lia.
  step. rewrite Hst.
  unfold processClientDataWhenParsingBody. change (mbuf_size EmptyString) with 0. cbn. unfold bind.
  step. rewrite Hfull by done. cbn.
  set (req1 := set_refcount (refcount req + 1) req).
  set (s1 := set_requests _ s).
  assert (Hcl1 : clients s1 !! c = Some cl) by done.
  assert (Hr1 : requests s1 !! r = Some req1) by (subst s1; lookup_tac).
  assert (Hrc1 : 2 <= refcount req1 < 2 ^ 31) by (cbn; lia).
  assert (Htail : forall call e,
    (bodyAlreadyRead req < aux_contentLength req -> e = BodyError r UNEXPECTED_EOF) ->
    (bodyAlreadyRead req = aux_contentLength req -> e = BodyData r EmptyString) ->
    exists s' e0 evs,
      match unrefRequest r
              (if deliversAtOnce (calls (bodyChannel req1))
               then match connState cl with
                    | ACTIVE => disconnected c cl (handed r call e req1 s1)
                    | DISCONNECTED => handed r call e req1 s1
                    end
               else handed r call e req1 s1) with
      | Done _ s'0 => ret {| consumed := 0; channel_end := false |} s'0
      | Crash f => Crash f
      end = Done {| consumed := 0; channel_end := false |} s'
      /\ trace s' = trace s ++ e0 :: evs /\ Forall (is_Disconnected c) evs
      /\ (bodyAlreadyRead req < aux_contentLength req -> e0 = BodyError r UNEXPECTED_EOF)
      /\ (bodyAlreadyRead req = aux_contentLength req -> e0 = BodyData r EmptyString)).
  { intros call e He1 He2.
    assert (Hplain : exists s', unrefRequest r (handed r call e req1 s1) = Done tt s'
              /\ trace s' = trace s ++ [e]).
    { erewrite unrefRequest_run; [|unfold handed; lookup_tac|cbn; lia]. eauto. }
    destruct (deliversAtOnce _); [destruct (connState cl) eqn:Hact|].
    - edestruct (unref_after_disconnect c r cl
                   (set_bodyChannel (set_calls (calls (bodyChannel req1) ++ [call]) (bodyChannel req1)) req1)
                   (handed r call e req1 s1))
        as (s' & -> & Htr & _); [done|done|done|unfold handed; lookup_tac|done|cbn; congruence|cbn; lia|done|].
      exists s', e, [Disconnected c]. cbn in Htr. rewrite Htr, <- app_assoc.
      repeat split; auto. by repeat constructor.
    - destruct Hplain as (s' & -> & Htr). exists s', e, []. by rewrite Htr.
    - destruct Hplain as (s' & -> & Htr). exists s', e, []. by rewrite Htr. }
  destruct (aux_contentLength req <=? bodyAlreadyRead req) eqn:E; cbn.
  - erewrite bodyChannel_feed_eof_run; [|done..|cbn; lia]. cbn.
    apply Htail; [lia|done].
  - erewrite bodyChannel_feedError_run; [|done..|cbn; lia]. cbn.
    apply Htail; [done|lia].
Qed.

End BodyEof.

(** ** The freelist *)

Section Freelist.

Context `{Collaborators}.

(** C3: [addRequestToFreelist] accepts a request if and only if
    [freeRequestCount < requestFreelistLimit]; when the reference count of a
    request reaches zero, an accepted request is at the head of the freelist
    with [httpState = IN_FREELIST] and [refcount = 1], a rejected one is
    destroyed, and [freeRequestCount] stays at most [requestFreelistLimit]. *)
Theorem freelist_accepts_iff_below_limit c r cl req s :
  requests s !! r = Some req -> client req = Some c ->
  httpState req = WAITING_FOR_REFERENCES ->
  clients s !! c = Some cl -> 0 < endedRequestCount cl ->
  currentRequest cl <> Some r -> endedRequests cl <> [] ->
  0 <= freeRequestCount s <= requestFreelistLimit s ->
  requestFreelistLimit s < 2 ^ 32 ->
  (exists s1,
     addRequestToFreelist r s
       = Done (freeRequestCount s <? requestFreelistLimit s) s1)
  /\ exists s',
       requestReachedZeroRefcount r s = Done tt s'
       /\ requestFreelistLimit s' = requestFreelistLimit s
       /\ freeRequestCount s' <= requestFreelistLimit s'
       /\ Z.of_nat (length (freeRequests s')) - freeRequestCount s'
          = Z.of_nat (length (freeRequests s)) - freeRequestCount s
       /\ if freeRequestCount s <? requestFreelistLimit s
          then freeRequests s' = r :: freeRequests s
               /\ freeRequestCount s' = freeRequestCount s + 1
               /\ exists req', requests s' !! r = Some req'
                    /\ httpState req' = IN_FREELIST /\ refcount req' = 1
          else requests s' !! r = None
               /\ freeRequests s' = freeRequests s
               /\ freeRequestCount s' = freeRequestCount s.
Proof.
  intros Hr Hc Hst Hcl Hcnt Hcur Hne Hrange Hlim. split.
  - rewrite (addRequestToFreelist_run r req s Hr).
    destruct (freeRequestCount s <? requestFreelistLimit s); eauto.
  - rewrite (requestReachedZeroRefcount_run c r cl req s) by done.
    eexists. split; [reflexivity|]. unfold released.
    destruct (freeRequestCount s <? requestFreelistLimit s) eqn:E; cbn.
    + rewrite wrap32_small by lia. rewrite lookup_insert_eq.
      repeat split; try lia. eauto.
    + rewrite lookup_delete_eq. repeat split; lia.
Qed.

(** [checkoutRequestObject]: the head of a non-empty freelist, a new request
    otherwise, and null only when the allocation fails. *)
Lemma checkoutRequestObject_from_freelist c r rest req s :
  freeRequests s = r :: rest -> 0 < freeRequestCount s ->
  requests s !! r = Some req -> httpState req = IN_FREELIST ->
  checkoutRequestObject c s =
    Done (Some r) (set_freeRequests rest (set_freeRequestCount (wrap32 (freeRequestCount s - 1)) s)).
Proof.
  intros Hf Hcnt Hr Hst. unfold checkoutRequestObject, bind, get. rewrite Hf. cbn.
  unfold checkoutRequestObjectFromFreelist, bind, get, assert, modify.
  replace (0 <? freeRequestCount s) with true by lia. cbn. rewrite Hf. cbn.
  step. rewrite Hf. reflexivity.
Qed.

Lemma checkoutRequestObject_new c s :
  freeRequests s = [] -> allocationFails s = false ->
  checkoutRequestObject c s =
    Done (Some (nextRequestId s))
      (set_nextRequestId (S (nextRequestId s))
         (set_requests (<[nextRequestId s := Request_new]> (requests s)) s)).
Proof.
  intros Hf Ha. unfold checkoutRequestObject, bind, get. rewrite Hf. cbn.
  unfold createNewRequestObject, bind, get. rewrite Ha. reflexivity.
Qed.

Lemma checkoutRequestObject_null c s s' :
  checkoutRequestObject c s = Done None s' ->
  freeRequests s = [] /\ allocationFails s = true.
Proof.
  unfold checkoutRequestObject, bind, get.
  destruct (freeRequests s) as [|r rest] eqn:Hf; cbn.
  - unfold createNewRequestObject, bind, get.
    destruct (allocationFails s); [done|]. cbn. discriminate.
  - unfold checkoutRequestObjectFromFreelist, bind, get, assert, modify.
    destruct (0 <? freeRequestCount s); cbn; [|discriminate].
    rewrite Hf. cbn. unfold getRequest. destruct (requests s !! r); [|discriminate].
    destruct (bool_decide _); cbn; discriminate.
Qed.

(** C7: when the freelist is empty and allocating a [Request] fails,
    [checkoutRequestObject] returns null and [handleNextRequest] dereferences
    it: the call ends in a null-pointer fault, not in a disconnected client. *)
Theorem handleNextRequest_allocation_failure c cl s :
  clients s !! c = Some cl -> freeRequests s = [] -> allocationFails s = true ->
  handleNextRequest c s = Crash NullPointer.
Proof.
  intros Hcl Hf Ha. unfold handleNextRequest, bind.
  unfold refClient, input_start, output_deinitialize, output_reinitialize.
  repeat step.
  unfold checkoutRequestObject, bind, get. cbn. rewrite Hf. cbn.
  unfold createNewRequestObject, bind, get. cbn. rewrite Ha. cbn.
  step. reflexivity.
Qed.

End Freelist.

(** ** Strings *)

Lemma append_cons x a b : String x a +:+ b = String x (a +:+ b).
Proof. reflexivity. Qed.

Lemma append_nil_l s : EmptyString +:+ s = s.
Proof. reflexivity. Qed.

Lemma append_nil_r s : s +:+ EmptyString = s.
Proof. induction s as [|x s IH]; [reflexivity | by rewrite append_cons, IH]. Qed.

Lemma append_assoc a b c : (a +:+ b) +:+ c = a +:+ (b +:+ c).
Proof. induction a as [|x a IH]; [reflexivity | by rewrite !append_cons, IH]. Qed.

Lemma length_append a b : String.length (a +:+ b) = (String.length a + String.length b)%nat.
Proof. induction a as [|x a IH]; [reflexivity | rewrite append_cons; simpl; by rewrite IH]. Qed.

Lemma slen_append a b : slen (a +:+ b) = slen a + slen b.
Proof. unfold slen. rewrite length_append. lia. Qed.

Lemma take_length n s : String.length (substring 0 n s) = Nat.min n (String.length s).
Proof. revert n. induction s; intros [|n]; cbn; auto. Qed.

Lemma take_all n s : (String.length s <= n)%nat -> substring 0 n s = s.
Proof. revert n. induction s; intros [|n] Hn; cbn in *; auto; try lia. f_equal. apply IHs. lia. Qed.

Lemma take_0 s : substring 0 0 s = EmptyString.
Proof. by destruct s. Qed.

Lemma take_app n a b :
  substring 0 n (a +:+ b) = substring 0 n a +:+ substring 0 (n - String.length a) b.
Proof.
  revert n. induction a as [|x a IH]; intros n.
  - rewrite append_nil_l. simpl String.length. rewrite Nat.sub_0_r. by destruct n.
  - rewrite append_cons. destruct n; simpl; [by rewrite take_0|].
    by rewrite IH, append_cons.
Qed.

Lemma take_take n m s : substring 0 n (substring 0 m s) = substring 0 (Nat.min n m) s.
Proof.
  revert n m. induction s; intros [|n] [|m]; cbn; auto. by rewrite IHs.
Qed.

Lemma bodyBytes_app r tr1 tr2 : bodyBytes r (tr1 ++ tr2) = bodyBytes r tr1 +:+ bodyBytes r tr2.
Proof.
  induction tr1 as [|[] tr1 IH]; cbn; auto.
  case_decide; auto. by rewrite IH, append_assoc.
Qed.

(** ** What reading a body leaves alone *)

Section Keeps.

Context (R : Server -> Server -> Prop) `{!Reflexive R, !Transitive R}.

Lemma keeps_ret {A} (a : A) : keeps R (ret a).
Proof. intros s a' s' [= _ <-]. reflexivity. Qed.

Lemma keeps_crash {A} f : keeps R (@crash A f).
Proof. intros s a s' [=]. Qed.

Lemma keeps_bind {A B} (m : M A) (k : A -> M B) :
  keeps R m -> (forall a, keeps R (k a)) -> keeps R (bind m k).
Proof.
  intros Hm Hk s b s'' Hrun. apply bind_inv in Hrun as (a & s' & H1 & H2).
  etransitivity; [eapply Hm | eapply Hk]; eauto.
Qed.

Lemma keeps_get : keeps R get.
Proof. intros s a s' [= _ <-]. reflexivity. Qed.

Lemma keeps_assert b : keeps R (assert b).
Proof. destruct b; [apply keeps_ret | apply keeps_crash]. Qed.

Lemma keeps_when b m : keeps R m -> keeps R (when b m).
Proof. destruct b; [done | intros; apply keeps_ret]. Qed.

Lemma keeps_deref {A} (p : option A) : keeps R (deref p).
Proof. destruct p; [apply keeps_ret | apply keeps_crash]. Qed.

Lemma keeps_getRequest r : keeps R (getRequest r).
Proof. intros s a s'. unfold getRequest. destruct (requests s !! r); intros [= _ <-]. reflexivity. Qed.

Lemma keeps_getClient c : keeps R (getClient c).
Proof. intros s a s'. unfold getClient. destruct (clients s !! c); intros [= _ <-]. reflexivity. Qed.

End Keeps.

Global Instance bodyFrame_refl r : Reflexive (bodyFrame r).
Proof. intros s. split; eauto. Qed.

Global Instance bodyFrame_trans r : Transitive (bodyFrame r).
Proof.
  intros s1 s2 s3 [H1 H1'] [H2 H2']. split; [congruence|].
  intros req3 Hr3. destruct (H2' _ Hr3) as (req2 & Hr2 & ? & ?).
  destruct (H1' _ Hr2) as (req1 & Hr1 & ? & ?). exists req1. split; [done|]. split; congruence.
Qed.

Lemma keeps_updRequest r r' f : keepsCounters f -> keeps (bodyFrame r) (updRequest r' f).
Proof.
  intros Hf s a s'. unfold updRequest. destruct (requests s !! r') as [q|] eqn:E; intros [= _ <-].
  split; [done|]. cbn. intros req'. destruct (decide (r' = r)) as [->|Hne].
  - rewrite lookup_insert_eq. intros [= <-]. exists q. split; [done|]. apply Hf.
  - rewrite lookup_insert_ne by done. eauto.
Qed.

Lemma keeps_updClient r c f : keeps (bodyFrame r) (updClient c f).
Proof.
  intros s a s'. unfold updClient. destruct (clients s !! c); intros [= _ <-].
  split; [done|]. cbn. eauto.
Qed.

Lemma keeps_deleteRequest r r' : keeps (bodyFrame r) (deleteRequest r').
Proof.
  intros s a s' [= _ <-]. split; [done|]. cbn. intros req' Hr.
  apply lookup_delete_Some in Hr as [_ Hr]. eauto.
Qed.

Lemma keeps_emit r e : bodyBytes r [e] = EmptyString -> keeps (bodyFrame r) (emit e).
Proof.
  intros He s a s' [= _ <-]. split; [|cbn; eauto].
  cbn. by rewrite bodyBytes_app, He, append_nil_r.
Qed.

Lemma keeps_modify r f :
  (forall s, trace (f s) = trace s /\ requests (f s) = requests s) ->
  keeps (bodyFrame r) (modify f).
Proof.
  intros Hf s a s' [= _ <-]. destruct (Hf s) as [Ht Hr]. unfold bodyFrame.
  rewrite Ht, Hr. eauto.
Qed.

(** [frame] proves that a computation built from the primitives and from
    functions already in the [keeps] database has the frame. *)
Ltac frame :=
  repeat first
    [ apply keeps_ret; tc_solve
    | apply keeps_crash
    | apply keeps_assert; tc_solve
    | apply keeps_get; tc_solve
    | apply keeps_deref; tc_solve
    | apply keeps_getRequest; tc_solve
    | apply keeps_getClient; tc_solve
    | apply keeps_updClient
    | apply keeps_deleteRequest
    | apply keeps_updRequest; intros ?; split; reflexivity
    | apply keeps_emit; cbn; try case_decide; reflexivity
    | apply keeps_modify; intros ?; split; reflexivity
    | apply keeps_when; [tc_solve..|]
    | apply keeps_bind; [tc_solve..| |intros ?]
    | match goal with
      | |- keeps _ (if ?b then _ else _) => destruct b
      | |- keeps _ (match ?x with _ => _ end) => destruct x
      end
    | solve [eauto with keeps] ].

Create HintDb keeps.

Section BodyFrames.

Context `{Collaborators}.
Variable r : RequestId.

Lemma keeps_unrefClient c : keeps (bodyFrame r) (unrefClient c).
Proof. unfold unrefClient. frame. Qed.

Lemma keeps_input_stop c : keeps (bodyFrame r) (input_stop c).
Proof. unfold input_stop. frame. Qed.

Lemma keeps_input_start c : keeps (bodyFrame r) (input_start c).
Proof. unfold input_start. frame. Qed.

Lemma keeps_deinitializeRequest c r' : keeps (bodyFrame r) (deinitializeRequest c r').
Proof. unfold deinitializeRequest. frame. Qed.

Lemma keeps_addRequestToFreelist r' : keeps (bodyFrame r) (addRequestToFreelist r').
Proof. unfold addRequestToFreelist. frame. Qed.

Hint Resolve keeps_unrefClient keeps_input_stop keeps_input_start keeps_deinitializeRequest
  keeps_addRequestToFreelist : keeps.

Lemma keeps_requestReachedZeroRefcount r' : keeps (bodyFrame r) (requestReachedZeroRefcount r').
Proof. unfold requestReachedZeroRefcount. frame. Qed.

Lemma keeps_refRequest r' : keeps (bodyFrame r) (refRequest r').
Proof. unfold refRequest. frame. Qed.

Hint Resolve keeps_requestReachedZeroRefcount keeps_refRequest : keeps.

Lemma keeps_passRequestToEventLoopThread r' : keeps (bodyFrame r) (passRequestToEventLoopThread r').
Proof. unfold passRequestToEventLoopThread. frame. Qed.

Hint Resolve keeps_passRequestToEventLoopThread : keeps.

Lemma keeps_unrefRequest r' : keeps (bodyFrame r) (unrefRequest r').
Proof. unfold unrefRequest. frame. Qed.

Hint Resolve keeps_unrefRequest : keeps.

Lemma keeps_deinitializeRequestAndAddToFreelist c r' :
  keeps (bodyFrame r) (deinitializeRequestAndAddToFreelist c r').
Proof. unfold deinitializeRequestAndAddToFreelist. frame. Qed.

Hint Resolve keeps_deinitializeRequestAndAddToFreelist : keeps.

Lemma keeps_onClientDisconnecting c : keeps (bodyFrame r) (onClientDisconnecting c).
Proof. unfold onClientDisconnecting. frame. Qed.

Hint Resolve keeps_onClientDisconnecting : keeps.

Lemma keeps_disconnect c : keeps (bodyFrame r) (disconnect c).
Proof. unfold disconnect. frame. Qed.

Hint Resolve keeps_disconnect : keeps.

Lemma keeps_onRequestBody c r' buffer errcode : keeps (bodyFrame r) (onRequestBody c r' buffer errcode).
Proof. unfold onRequestBody. frame. Qed.

Hint Resolve keeps_onRequestBody : keeps.

Lemma keeps_onRequestBodyChannelData r' buffer errcode :
  keeps (bodyFrame r) (onRequestBodyChannelData r' buffer errcode).
Proof. unfold onRequestBodyChannelData. frame. Qed.

Hint Resolve keeps_onRequestBodyChannelData : keeps.

Lemma keeps_bodyChannel_feed_eof r' : keeps (bodyFrame r) (bodyChannel_feed r' EmptyString).
Proof. unfold bodyChannel_feed. frame. Qed.

Hint Resolve keeps_bodyChannel_feed_eof : keeps.

Lemma keeps_requestBodyConsumed c r' : keeps (bodyFrame r) (requestBodyConsumed c r').
Proof. unfold requestBodyConsumed. frame. Qed.

Hint Resolve keeps_requestBodyConsumed : keeps.

Lemma keeps_onRequestBodyChannelBuffersFlushed r' :
  keeps (bodyFrame r) (onRequestBodyChannelBuffersFlushed r').
Proof. unfold onRequestBodyChannelBuffersFlushed. frame. Qed.

End BodyFrames.

(** ** Reading a Content-Length body *)

Section BodyDelivery.

Context `{Collaborators}.

Hint Resolve keeps_unrefRequest keeps_requestBodyConsumed keeps_input_stop
  keeps_onRequestBodyChannelData : keeps.

(** One buffer: it is cut off at what is left of the content length. *)
Lemma body_buffer_clamped c r s buffer errcode result s1 req :
  parsingBody c r s -> mbuf_empty buffer = false ->
  requests s !! r = Some req ->
  0 <= bodyAlreadyRead req <= aux_contentLength req -> aux_contentLength req < 2 ^ 64 ->
  onClientDataReceived c buffer errcode s = Done result s1 ->
  let n := Z.min (mbuf_size buffer) (aux_contentLength req - bodyAlreadyRead req) in
  consumed result = n
  /\ bodyBytes r (trace s1) = bodyBytes r (trace s) +:+ substring 0 (Z.to_nat n) buffer
  /\ forall req', requests s1 !! r = Some req' ->
       aux_contentLength req' = aux_contentLength req
       /\ bodyAlreadyRead req' = bodyAlreadyRead req + n.
Proof.
  intros (cl & req0 & Hcl & Hcur & Hr0 & Hst & Hbt) Hne Hr Hbar Hcl64 Hrun n.
  assert (req0 = req) as -> by congruence.
  assert (Hsize : 0 < mbuf_size buffer).
  { unfold mbuf_empty in Hne. unfold mbuf_size in *. lia. }
  revert Hrun. unfold onClientDataReceived, bind. step. rewrite Hcur. cbn.
  unfold refRequest. step. step. rewrite Hst.
  unfold processClientDataWhenParsingBody.
  replace (0 <? mbuf_size buffer) with true by lia. unfold bind. step. step.
  rewrite (wrap64_small (aux_contentLength req - bodyAlreadyRead req)) by lia. fold n.
  rewrite (wrap64_small (bodyAlreadyRead req + n)) by lia.
  unfold bodyChannel_feed, bind, emit, modify. repeat step.
  set (sa := set_trace _ _).
  assert (Hsa : bodyBytes r (trace sa)
                = bodyBytes r (trace s) +:+ substring 0 (Z.to_nat n) buffer).
  { subst sa. cbn. rewrite bodyBytes_app. cbn. rewrite decide_True by done.
    by rewrite append_nil_r. }
  assert (Hra : exists qa, requests sa !! r = Some qa
            /\ aux_contentLength qa = aux_contentLength req
            /\ bodyAlreadyRead qa = bodyAlreadyRead req + n).
  { subst sa. cbn. rewrite lookup_insert_eq. eauto. }
  clearbody sa.
  match goal with |- context [when ?b ?m sa] =>
    destruct (when b m sa) as [[] sb|] eqn:E1; [|done];
    assert (F1 : bodyFrame r sa sb) by (revert E1; apply keeps_when; [tc_solve..|]; frame)
  end.
  unfold getRequest at 1. destruct (requests sb !! r) as [qb|] eqn:Hqb; [|done].
  match goal with |- context [when ?b ?m sb] =>
    destruct (when b m sb) as [[] sc|] eqn:E2; [|done];
    assert (F2 : bodyFrame r sb sc) by (revert E2; apply keeps_when; [tc_solve..|]; frame)
  end.
  cbn. destruct (unrefRequest r sc) as [[] sd|] eqn:E3; [|done].
  assert (F3 : bodyFrame r sc sd) by (revert E3; apply keeps_unrefRequest).
  intros [= <- <-]. split; [done|].
  assert (F : bodyFrame r sa sd) by (do 2 (etransitivity; [eassumption|]); done).
  destruct F as [Fb Fr]. split; [congruence|].
  intros req' Hreq'. destruct (Fr _ Hreq') as (qa' & Hqa' & -> & ->).
  destruct Hra as (qa & Hqa & ? & ?). by assert (qa' = qa) as -> by congruence.
Qed.

(** Nothing more is delivered to a request that was destroyed. *)
Lemma bodyDelivery_gone c r s bufs s' :
  requests s !! r = None -> bodyDelivery c r s bufs s' -> bufs = [] /\ s' = s.
Proof.
  intros Hnone Hd. destruct Hd as [|s buffer errcode result s1 rest s2 Hp|s s1 bufs s2 Hf]; [done|..].
  - destruct Hp as (? & ? & ? & ? & ? & ?). congruence.
  - revert Hf. unfold onRequestBodyChannelBuffersFlushed, bind, getRequest. by rewrite Hnone.
Qed.

(** C1: for a request in state [PARSING_BODY] with a Content-Length body and
    every sequence of non-empty buffers handed to [onClientDataReceived], the
    body channel is fed the received bytes cut off at the remaining content
    length ([contentLength - bodyAlreadyRead]); the number of data bytes fed is
    the minimum of the bytes received and that remainder, which for a body
    not yet read is [min (bytes received) contentLength]; and afterwards
    [bodyAlreadyRead] has grown by as much and does not exceed
    [contentLength]. *)
Theorem content_length_body_is_clamped c r s bufs s' req :
  bodyDelivery c r s bufs s' ->
  requests s !! r = Some req ->
  0 <= bodyAlreadyRead req <= aux_contentLength req -> aux_contentLength req < 2 ^ 64 ->
  let room := aux_contentLength req - bodyAlreadyRead req in
  bodyBytes r (trace s')
    = bodyBytes r (trace s) +:+ substring 0 (Z.to_nat room) (received bufs)
  /\ slen (bodyBytes r (trace s')) - slen (bodyBytes r (trace s))
     = Z.min (slen (received bufs)) room
  /\ (bodyAlreadyRead req = 0 ->
      slen (bodyBytes r (trace s')) - slen (bodyBytes r (trace s))
      = Z.min (slen (received bufs)) (aux_contentLength req))
  /\ forall req', requests s' !! r = Some req' ->
       aux_contentLength req' = aux_contentLength req
       /\ bodyAlreadyRead req' = bodyAlreadyRead req + Z.min (slen (received bufs)) room
       /\ bodyAlreadyRead req' <= aux_contentLength req'.
Proof.
  intros Hd Hr Hbar Hcl64 room.
  enough (bodyBytes r (trace s')
            = bodyBytes r (trace s) +:+ substring 0 (Z.to_nat room) (received bufs)
          /\ forall req', requests s' !! r = Some req' ->
               aux_contentLength req' = aux_contentLength req
               /\ bodyAlreadyRead req' = bodyAlreadyRead req + Z.min (slen (received bufs)) room)
    as [Hb Hq].
  { assert (Hlen : slen (bodyBytes r (trace s')) - slen (bodyBytes r (trace s))
                   = Z.min (slen (received bufs)) room).
    { rewrite Hb, slen_append. unfold slen at 2. rewrite take_length. unfold slen. lia. }
    split; [done|]. split; [done|]. split.
    - intros H0. rewrite Hlen. subst room. rewrite H0. f_equal. lia.
    - intros req' Hr'. destruct (Hq _ Hr') as [-> ->]. repeat split. subst room. lia. }
  subst room. revert req Hr Hbar Hcl64.
  induction Hd as [s|s buffer errcode result s1 rest s2 Hp Hne Hrun Hd IH|s s1 bufs s2 Hf Hd IH];
    intros req Hr Hbar Hcl64.
  - cbn. rewrite take_0 || (destruct (Z.to_nat _); cbn). 
    all: rewrite ?append_nil_r; split; [done|]; intros req' Hr'.
    all: assert (req' = req) as -> by congruence; unfold slen; cbn; split; [done|lia].
  - destruct (body_buffer_clamped c r s buffer errcode result s1 req Hp Hne Hr Hbar Hcl64 Hrun)
      as (_ & Hb1 & Hq1).
    set (n := Z.min (mbuf_size buffer) (aux_contentLength req - bodyAlreadyRead req)) in *.
    assert (Hn : 0 <= n) by (unfold n, mbuf_size; lia).
    assert (Htake : substring 0 (Z.to_nat (aux_contentLength req - bodyAlreadyRead req))
                      (received (buffer :: rest))
                    = substring 0 (Z.to_nat n) buffer
                      +:+ substring 0 (Z.to_nat (aux_contentLength req - (bodyAlreadyRead req + n)))
                            (received rest)).
    { cbn [received fold_right]. rewrite take_app. f_equal.
      - rewrite <- (take_all (String.length buffer) buffer) at 1 by lia. rewrite take_take.
        f_equal. unfold n, mbuf_size. lia.
      - f_equal. unfold n, mbuf_size. lia. }
    assert (Hmin : Z.min (slen (received (buffer :: rest))) (aux_contentLength req - bodyAlreadyRead req)
                   = n + Z.min (slen (received rest)) (aux_contentLength req - (bodyAlreadyRead req + n))).
    { cbn [received fold_right]. rewrite slen_append. fold (received rest).
      unfold n, mbuf_size, slen. lia. }
    destruct (requests s1 !! r) as [req1|] eqn:Hr1.
    + destruct (Hq1 req1 eq_refl) as [Hcl1 Hbar1].
      destruct (IH req1 eq_refl) as [Hb2 Hq2]; [unfold n in *; lia|lia|].
      rewrite Hcl1, Hbar1 in Hb2. split.
      * rewrite Hb2, Hb1, append_assoc, Htake. done.
      * intros req' Hr'. destruct (Hq2 _ Hr') as [-> ->]. rewrite Hcl1, Hbar1, Hmin. lia.
    + destruct (bodyDelivery_gone c r s1 rest s2 Hr1 Hd) as [-> ->]. split.
      * rewrite Hb1. f_equal. cbn [received fold_right]. rewrite append_nil_r.
        rewrite <- (take_all (String.length buffer) buffer) at 2 by lia. rewrite take_take.
        f_equal. unfold n, mbuf_size. lia.
      * intros req'. rewrite Hr1. done.
  - assert (F : bodyFrame r s s1) by (revert Hf; apply keeps_onRequestBodyChannelBuffersFlushed).
    destruct F as [Fb Fr]. destruct (requests s1 !! r) as [req1|] eqn:Hr1.
    + destruct (Fr req1 eq_refl) as (q & Hq & Hbar1 & Hcl1).
      assert (q = req) as -> by congruence.
      destruct (IH req1 eq_refl) as [Hb2 Hq2]; [lia|lia|].
      rewrite Hcl1, Hbar1 in Hb2. rewrite Fb in Hb2. split; [done|].
      intros req' Hr'. destruct (Hq2 _ Hr') as [-> ->]. rewrite Hcl1, Hbar1. done.
    + destruct (bodyDelivery_gone c r s1 bufs s2 Hr1 Hd) as [-> ->].
      rewrite Fb. cbn. rewrite take_0 || destruct (Z.to_nat _); cbn; rewrite ?append_nil_r.
      all: split; [done|]; intros req'; rewrite Hr1; done.
Qed.

End BodyDelivery.

(** ** The header buffer *)

Lemma slen_nonneg s : 0 <= slen s.
Proof. unfold slen. lia. Qed.

Lemma slen_cons x s : slen (String x s) = 1 + slen s.
Proof. unfold slen. cbn [String.length]. lia. Qed.

Lemma slen_nil : slen EmptyString = 0.
Proof. reflexivity. Qed.

Lemma appendData_fits cap pos data :
  slen pos + slen data <= cap -> appendData cap pos data = pos +:+ data.
Proof.
  intros Hfit. unfold appendData. f_equal. apply take_all. unfold slen in Hfit. lia.
Qed.

Lemma lstr_data_cons part rest : lstr_data (part :: rest) = part +:+ lstr_data rest.
Proof. reflexivity. Qed.

Lemma appendLStringData_fits cap pos l :
  slen pos + slen (lstr_data l) <= cap -> appendLStringData cap pos l = pos +:+ lstr_data l.
Proof.
  revert pos. induction l as [|part rest IH]; intros pos Hfit.
  - cbn. by rewrite append_nil_r.
  - rewrite lstr_data_cons, slen_append in Hfit. cbn [appendLStringData].
    pose proof (slen_nonneg (lstr_data rest)).
    rewrite appendData_fits by lia. rewrite IH by (rewrite slen_append; lia).
    by rewrite lstr_data_cons, append_assoc.
Qed.

Lemma snprintf_fits cap pos text s :
  slen pos + slen text < cap -> snprintf cap pos text s = Done (pos +:+ text) s.
Proof.
  intros Hfit. unfold snprintf. fold (slen text) (slen pos).
  by replace (slen text <? cap - slen pos) with true by lia.
Qed.

Lemma slen_renderLine l : slen (renderLine l) = slen (fst l) + slen (snd l) + 4.
Proof. unfold renderLine. rewrite !slen_append. unfold CRLF. rewrite !slen_cons, slen_nil. lia. Qed.

(** [lens] settles the size conditions of the buffer lemmas; [fit1] uses
    one of them on the goal. *)
Ltac lens :=
  unfold renderLine, CRLF in *; cbn [fst snd] in *;
  rewrite ?slen_append, ?slen_cons, ?slen_nil in *;
  unfold slen in *; lia.

Ltac fit1 :=
  match goal with
  | |- context [appendData ?cap ?pos ?d] => rewrite (appendData_fits cap pos d) by lens
  | |- context [appendLStringData ?cap ?pos ?l] =>
      rewrite (appendLStringData_fits cap pos l) by lens
  | |- context [snprintf ?cap ?pos ?t ?s] => rewrite (snprintf_fits cap pos t s) by lens
  end.

Lemma appendOtherHeaders_fits cap pos t :
  slen pos + slen (renderLines (otherHeaders t)) <= cap ->
  appendOtherHeaders cap pos t = pos +:+ renderLines (otherHeaders t).
Proof.
  revert pos. induction t as [|h rest IH]; intros pos Hfit.
  - cbn. by rewrite append_nil_r.
  - cbn [appendOtherHeaders otherHeaders] in *. fold (isOther (key h)).
    destruct (isOther (key h)) eqn:E; [|by apply IH].
    cbn [renderLines fold_right] in Hfit. fold (renderLines (otherHeaders rest)) in Hfit.
    repeat fit1. rewrite IH by lens.
    cbn [renderLines fold_right]. unfold renderLine. cbn [fst snd].
    by rewrite !append_assoc.
Qed.

(** ** Writing a simple response *)

(** The same, for conditions stated on whole header lines. *)
Ltac side :=
  match goal with H : _ <= _ |- _ => revert H end;
  unfold renderLine, CRLF; cbn [fst snd]; rewrite ?slen_append;
  unfold slen; cbn [String.length]; lia.

Ltac fitc :=
  match goal with
  | |- context [appendData ?cap ?pos ?d] => rewrite (appendData_fits cap pos d) by side
  end.

Ltac norm_app :=
  unfold renderLine, CRLF; cbn [fst snd];
  rewrite ?append_assoc; rewrite ?append_cons, ?append_nil_l, ?append_nil_r.

Section SimpleResponse.

Context `{Collaborators}.

Lemma writeResponse_run c r cl req buffer s :
  clients s !! c = Some cl -> currentRequest cl = Some r -> requests s !! r = Some req ->
  writeResponse c buffer s =
    Done tt (set_trace (trace s ++ [ClientOutput c buffer])
               (set_clients (<[c := set_output (output cl ++ [buffer]) cl]> (clients s))
                  (set_requests (<[r := set_responseBegun true req]> (requests s)) s))).
Proof.
  intros Hcl Hcur Hr. unfold writeResponse, bind. step. rewrite Hcur. cbn. step.
  unfold output_feed, emit, modify, bind. step. reflexivity.
Qed.

Lemma renderLines_cons l ls : renderLines (l :: ls) = renderLine l +:+ renderLines ls.
Proof. reflexivity. Qed.

Lemma renderLines_nil : renderLines [] = EmptyString.
Proof. reflexivity. Qed.

(** Each of the four fixed header lines, as the code writes it. *)
Lemma write_content_type cap pos t :
  slen pos + slen (renderLine ("Content-Type", valueOr t "content-type" "text/html; charset=UTF-8"))
    <= cap ->
  match lookup_in t "content-type" with
  | None => appendData cap pos ("Content-Type: text/html; charset=UTF-8" +:+ CRLF)
  | Some value =>
      appendData cap (appendLStringData cap (appendData cap pos "Content-Type: ") value) CRLF
  end = pos +:+ renderLine ("Content-Type", valueOr t "content-type" "text/html; charset=UTF-8").
Proof.
  unfold valueOr. intros Hfit. destruct (lookup_in t "content-type") as [v|];
    repeat fit1; norm_app; reflexivity.
Qed.

Lemma write_date cap pos t s :
  slen pos + slen (renderLine ("Date", valueOr t "date" (strftime_gmt (now s)))) <= cap ->
  match lookup_in t "date" with
  | None => fun s0 => snprintf cap (appendData cap pos "Date: ") (strftime_gmt (now s0)) s0
  | Some value => ret (appendLStringData cap (appendData cap pos "Date: ") value)
  end s = Done (pos +:+ "Date: " +:+ valueOr t "date" (strftime_gmt (now s))) s.
Proof.
  unfold valueOr. intros Hfit. destruct (lookup_in t "date") as [v|]; unfold ret;
    repeat fit1; norm_app; reflexivity.
Qed.

Lemma write_connection cap pos t r req s :
  requests s !! r = Some req ->
  slen pos + slen (renderLine ("Connection",
                     valueOr t "connection" (if canKeepAlive req then "keep-alive" else "close")))
    <= cap ->
  match lookup_in t "connection" with
  | None =>
      if canKeepAlive req
      then ret (appendData cap pos ("Connection: keep-alive" +:+ CRLF))
      else ret (appendData cap pos ("Connection: close" +:+ CRLF))
  | Some value =>
      fun s0 =>
        match when (negb (psg_lstr_cmp value "Keep-Alive")
                    && negb (psg_lstr_cmp value "keep-alive"))
                   (updRequest r (set_wantKeepAlive false)) s0 with
        | Done _ s1 =>
            ret (appendData cap (appendLStringData cap (appendData cap pos "Connection: ") value)
                   CRLF) s1
        | Crash f => Crash f
        end
  end s =
  Done (pos +:+ renderLine ("Connection",
                  valueOr t "connection" (if canKeepAlive req then "keep-alive" else "close")))
       (set_requests (<[r := if clearsKeepAlive t then set_wantKeepAlive false req else req]>
                        (requests s)) s).
Proof.
  unfold valueOr, clearsKeepAlive. intros Hr Hfit.
  assert (Hsame : set_requests (<[r := req]> (requests s)) s = s).
  { rewrite insert_id by done. by destruct s. }
  destruct (lookup_in t "connection") as [v|].
  - unfold bind, when.
    destruct (negb (psg_lstr_cmp v "Keep-Alive") && negb (psg_lstr_cmp v "keep-alive")).
    + step. unfold ret. repeat fit1. norm_app. reflexivity.
    + unfold ret. rewrite Hsame. repeat fit1. norm_app. reflexivity.
  - rewrite Hsame. destruct (canKeepAlive req); unfold ret; repeat fit1; norm_app; reflexivity.
Qed.

Lemma write_content_length cap pos t body s :
  slen pos + slen (renderLine ("Content-Length",
                     valueOr t "content-length" (pretty (wrap32 (slen body))))) <= cap ->
  match lookup_in t "content-length" with
  | None => snprintf cap (appendData cap pos "Content-Length: ")
              (pretty (wrap32 (Z.of_nat (String.length body))))
  | Some value => ret (appendLStringData cap (appendData cap pos "Content-Length: ") value)
  end s = Done (pos +:+ "Content-Length: "
                +:+ valueOr t "content-length" (pretty (wrap32 (slen body)))) s.
Proof.
  unfold valueOr. intros Hfit. destruct (lookup_in t "content-length") as [v|]; unfold ret;
    repeat fit1; norm_app; reflexivity.
Qed.

(** A header block that fits the buffer is written as it is. *)
Lemma writeSimpleResponse_run c r cl req p code t body s :
  clients s !! c = Some cl -> currentRequest cl = Some r ->
  requests s !! r = Some req -> pool req = Some p ->
  slen (simpleResponseHeader req (now s) code t body) <= headerBufSize_of t ->
  writeSimpleResponse c code t body s = Done tt (responded c r cl req code t body s).
Proof.
  intros Hcl Hcur Hr Hp Hfit.
  unfold writeSimpleResponse, bind. step. rewrite Hcur. cbn. step. rewrite Hp. cbn.
  unfold responded.
  set (block := simpleResponseHeader req (now s) code t body).
  assert (Hblock : block = simpleResponseHeader req (now s) code t body) by done.
  clearbody block.
  unfold simpleResponseHeader, statusLines, headerLines in *.
  set (cap := headerBufSize_of t) in *. clearbody cap.
  set (status := statusText code) in *. clearbody status.
  set (major := pretty (httpMajor req)) in *. clearbody major.
  set (minor := pretty (httpMinor req)) in *. clearbody minor.
  cbn [app] in *. rewrite !renderLines_cons in *.
  assert (Hothers : forall pos : string,
            slen pos + slen (renderLines match t with Some t => otherHeaders t | None => [] end)
              <= cap ->
            match t with Some t => appendOtherHeaders cap pos t | None => pos end
            = pos +:+ renderLines match t with Some t => otherHeaders t | None => [] end).
  { intros pos Hpos. destruct t; [by apply appendOtherHeaders_fits|].
    by rewrite renderLines_nil, append_nil_r. }
  set (others := renderLines match t with Some t => otherHeaders t | None => [] end) in *.
  clearbody others.
  set (v1 := valueOr t "content-type" _) in *.
  set (v2 := valueOr t "date" _) in *.
  set (v3 := valueOr t "connection" _) in *.
  set (v4 := valueOr t "content-length" _) in *.
  assert (Hlen : slen ("HTTP/" +:+ major +:+ "." +:+ minor +:+ " " +:+ status +:+ CRLF
                       +:+ "Status: " +:+ status +:+ CRLF)
                 + slen (renderLine ("Content-Type", v1)) + slen (renderLine ("Date", v2))
                 + slen (renderLine ("Connection", v3))
                 + slen (renderLine ("Content-Length", v4)) + slen others + 2 <= cap).
  { revert Hfit. unfold CRLF. rewrite !slen_append, !slen_cons, !slen_nil. lia. }
  clear Hfit.
  set (l0 := "HTTP/" +:+ major +:+ "." +:+ minor +:+ " " +:+ status +:+ CRLF
             +:+ "Status: " +:+ status +:+ CRLF) in *.
  rewrite snprintf_fits by side. cbn. rewrite append_nil_l.
  rewrite write_content_type by (fold v1; side). fold v1.
  erewrite write_date by (fold v2; side). fold v2. cbn.
  fitc.
  erewrite write_connection; [|done|fold v3; side].
  fold v3. cbn.
  set (req1 := if clearsKeepAlive t then set_wantKeepAlive false req else req).
  erewrite write_content_length
    by (change (valueOr t "content-length" _) with v4; side).
  change (valueOr t "content-length" _) with v4. cbn.
  fitc.
  rewrite Hothers by side.
  fitc.
  match goal with
  | |- context [writeResponse c ?pos] =>
      replace pos with block
        by (rewrite Hblock; unfold l0; norm_app; reflexivity)
  end.
  erewrite writeResponse_run by lookup_tac. cbn. step.
  replace (method req1) with (method req)
    by (unfold req1; destruct (clearsKeepAlive t); reflexivity).
  destruct (negb (ended _) && negb (bool_decide (method req = HTTP_HEAD))); cbn.
  - erewrite writeResponse_run by lookup_tac. cbn.
    rewrite ?insert_insert_eq, <- ?app_assoc. destruct req1; reflexivity.
  - reflexivity.
Qed.

End SimpleResponse.

(** ** The size of the header buffer *)

(** Decimal digits. *)
Lemma pretty_N_go_length (k : nat) (x : N) (acc : string) :
  (x < 10 ^ N.of_nat k)%N ->
  (String.length (pretty_N_go x acc) <= String.length acc + k)%nat.
Proof.
  revert x acc. induction k as [|k IH]; intros x acc Hx.
  - assert (x = 0%N) as -> by (cbn in Hx; lia). rewrite pretty_N_go_0. lia.
  - destruct (decide (x = 0%N)) as [->|Hne].
    + rewrite pretty_N_go_0. lia.
    + rewrite pretty_N_go_step by lia.
      etransitivity; [apply IH|cbn [String.length]; lia].
      apply N.Div0.div_lt_upper_bound.
      rewrite Nat2N.inj_succ, N.pow_succ_r' in Hx. lia.
Qed.

Lemma pretty_Z_length (k : nat) (z : Z) :
  (1 <= k)%nat -> 0 <= z < 10 ^ Z.of_nat k -> slen (pretty z) <= Z.of_nat k.
Proof.
  intros Hk Hz. unfold slen. destruct z as [|p|p]; [cbn; lia| |lia].
  change (pretty (Z.pos p)) with (pretty (N.pos p)).
  unfold pretty, pretty_N. rewrite decide_False by done.
  pose proof (pretty_N_go_length k (N.pos p) EmptyString) as Hlen.
  cbn [String.length] in Hlen. apply inj_le in Hlen; [lia|].
  apply N2Z.inj_lt. rewrite N2Z.inj_pow. cbn. rewrite nat_N_Z. lia.
Qed.

(** The 300 bytes and the caller's headers are enough. *)
Lemma headersCost_nonneg t : 0 <= headersCost t.
Proof.
  induction t as [|h rest IH]; cbn; [lia|].
  fold (headersCost rest). unfold headerCost, lstr_size. lia.
Qed.

Lemma headerBufSize_fold t acc :
  0 <= acc -> acc + headersCost t < 2 ^ 32 ->
  fold_left (fun size h => wrap32 (wrap32 (size + (lstr_size (key h) + 2))
                                   + (lstr_size (val h) + 2))) t acc
  = acc + headersCost t.
Proof.
  revert acc. induction t as [|h rest IH]; intros acc Hacc Hlt;
    cbn [fold_left headersCost fold_right] in *; [lia|].
  fold (headersCost rest) in *. pose proof (headersCost_nonneg rest).
  unfold headerCost, lstr_size in *.
  rewrite (wrap32_small (acc + _)) by lia. rewrite wrap32_small by lia.
  rewrite IH by lia. lia.
Qed.

Lemma headerBufSize_exact t :
  300 + tableCost t < 2 ^ 32 -> headerBufSize_of t = 300 + tableCost t.
Proof.
  destruct t as [t|]; cbn; [|done]. intros. by apply headerBufSize_fold.
Qed.

Lemma psg_lstr_cmp_true k name : psg_lstr_cmp k name = true -> lstr_data k = name.
Proof. unfold psg_lstr_cmp. apply String.eqb_eq. Qed.

Lemma reserved_lines_cost t :
  lineCost t "content-type" + lineCost t "date" + lineCost t "connection"
  + lineCost t "content-length" + slen (renderLines (otherHeaders t)) <= headersCost t.
Proof.
  induction t as [|h rest IH]; [by vm_compute|].
  unfold lineCost in *. cbn [HeaderTable_lookup otherHeaders headersCost fold_right].
  fold (headersCost rest). unfold isOther, headerCost, lstr_size.
  pose proof (headersCost_nonneg rest).
  destruct (psg_lstr_cmp (key h) "content-type") eqn:E1;
  destruct (psg_lstr_cmp (key h) "date") eqn:E2;
  destruct (psg_lstr_cmp (key h) "connection") eqn:E3;
  destruct (psg_lstr_cmp (key h) "content-length") eqn:E4;
  repeat match goal with
  | E : psg_lstr_cmp _ _ = true |- _ => apply psg_lstr_cmp_true in E
  end; try congruence; cbn [negb andb];
  rewrite ?renderLines_cons, ?slen_append, ?slen_renderLine; cbn [fst snd];
  repeat match goal with
  | E : lstr_data (key h) = _ |- _ => rewrite E; clear E
  end;
  repeat match goal with
  | |- context [match ?o with Some _ => _ | None => _ end] => destruct o
  | H : context [match ?o with Some _ => _ | None => _ end] |- _ => destruct o
  end; unfold slen in *; cbn [String.length] in *; lia.
Qed.

Section HeaderBuffer.

Context `{Collaborators}.

Lemma slen_statusText code :
  (forall status, getStatusCodeAndReasonPhrase code = Some status -> slen status <= 64) ->
  slen (statusText code) <= 64.
Proof.
  intros Htab. unfold statusText. destruct (getStatusCodeAndReasonPhrase code); [auto|].
  unfold slen. rewrite take_length. lia.
Qed.

Lemma slen_line t Name name default :
  slen Name = slen name ->
  slen (renderLine (Name, valueOr t name default))
  <= match t with Some t => lineCost t name | None => 0 end + (slen Name + slen default + 4).
Proof.
  intros Hn. rewrite slen_renderLine. cbn [fst snd]. unfold valueOr, lookup_in, lineCost.
  pose proof (slen_nonneg default). pose proof (slen_nonneg Name).
  destruct t as [t|]; [|lia]. destruct (HeaderTable_lookup t name); lia.
Qed.

(** The buffer [writeSimpleResponse] allocates holds the header block. *)
Lemma headerBuf_suffices req clock code t body :
  0 <= httpMajor req < 1000 -> 0 <= httpMinor req < 1000 ->
  (forall status, getStatusCodeAndReasonPhrase code = Some status -> slen status <= 64) ->
  slen (strftime_gmt clock) <= 45 ->
  300 + tableCost t < 2 ^ 32 ->
  slen (simpleResponseHeader req clock code t body) <= headerBufSize_of t.
Proof.
  intros Hmaj Hmin Htab Hdate Hcost. rewrite headerBufSize_exact by done.
  pose proof (slen_statusText code Htab) as Hs.
  pose proof (pretty_Z_length 3 (httpMajor req) ltac:(lia) ltac:(cbn; lia)) as H1.
  pose proof (pretty_Z_length 3 (httpMinor req) ltac:(lia) ltac:(cbn; lia)) as H2.
  assert (Hw : 0 <= wrap32 (slen body) < 10 ^ Z.of_nat 10).
  { unfold wrap32. pose proof (Z.mod_pos_bound (slen body) (2 ^ 32) ltac:(lia)). cbn. lia. }
  pose proof (pretty_Z_length 10 (wrap32 (slen body)) ltac:(lia) Hw) as H3.
  pose proof (slen_line t "Content-Type" "content-type" "text/html; charset=UTF-8" eq_refl) as L1.
  pose proof (slen_line t "Date" "date" (strftime_gmt clock) eq_refl) as L2.
  pose proof (slen_line t "Connection" "connection"
                (if canKeepAlive req then "keep-alive" else "close") eq_refl) as L3.
  pose proof (slen_line t "Content-Length" "content-length"
                (pretty (wrap32 (slen body))) eq_refl) as L4.
  assert (Hk : slen (if canKeepAlive req then "keep-alive" else "close") <= 10)
    by (destruct (canKeepAlive req); by vm_compute).
  assert (Ho : match t with
               | Some t => lineCost t "content-type" + lineCost t "date"
                           + lineCost t "connection" + lineCost t "content-length"
               | None => 0
               end + slen (renderLines match t with Some t => otherHeaders t | None => [] end)
               <= tableCost t).
  { destruct t as [t|]; cbn [tableCost]; [|by vm_compute]. pose proof (reserved_lines_cost t). lia. }
  unfold simpleResponseHeader, statusLines, headerLines. cbn [app].
  rewrite !renderLines_cons. unfold CRLF.
  rewrite !slen_append, !slen_cons, !slen_nil.
  revert L1 L2 L3 L4 Ho Hk. generalize (slen (renderLine ("Content-Type", valueOr t "content-type" "text/html; charset=UTF-8"))).
  generalize (slen (renderLine ("Date", valueOr t "date" (strftime_gmt clock)))).
  generalize (slen (renderLine ("Connection", valueOr t "connection" (if canKeepAlive req then "keep-alive" else "close")))).
  generalize (slen (renderLine ("Content-Length", valueOr t "content-length" (pretty (wrap32 (slen body)))))).
  intros z4 z3 z2 z1 L1 L2 L3 L4 Ho Hk.
  destruct t as [t|]; unfold slen in *; cbn [String.length] in *; lia.
Qed.

End HeaderBuffer.

(** ** The headers of a simple response *)





Section ResponseHeaders.

Context `{Collaborators}.




(** C9: for a request whose method is HEAD, [writeSimpleResponse] writes the
    status line and the headers and nothing else: no body byte reaches the
    client, although [endRequest] has not been called. *)
Theorem head_response_has_no_body c r cl req p code t body s :
  clients s !! c = Some cl -> currentRequest cl = Some r ->
  requests s !! r = Some req -> pool req = Some p ->
  0 <= httpMajor req < 1000 -> 0 <= httpMinor req < 1000 ->
  (forall status, getStatusCodeAndReasonPhrase code = Some status -> slen status <= 64) ->
  slen (strftime_gmt (now s)) <= 45 ->
  300 + tableCost t < 2 ^ 32 ->
  method req = HTTP_HEAD ->
  exists s' cl',
    writeSimpleResponse c code t body s = Done tt s'
    /\ trace s' = trace s ++ [ClientOutput c (simpleResponseHeader req (now s) code t body)]
    /\ clients s' !! c = Some cl'
    /\ output cl' = output cl ++ [simpleResponseHeader req (now s) code t body].
Proof.
  intros Hcl Hcur Hr Hp Hmaj Hmin Htab Hdate Hcost Hhead.
  pose proof (headerBuf_suffices req (now s) code t body Hmaj Hmin Htab Hdate Hcost) as Hfit.
  exists (responded c r cl req code t body s). eexists.
  split; [by eapply writeSimpleResponse_run|].
  unfold responded. rewrite Hhead. bd. rewrite andb_false_r. cbn.
  rewrite lookup_insert_eq. done.
Qed.

End ResponseHeaders.

(** ** Parse errors *)

Section ParseErrors.

Context `{Collaborators}.


End ParseErrors.

(** ** What writing a response leaves alone *)

Global Instance responseFrame_refl c r : Reflexive (responseFrame c r).
Proof. intros s. repeat split; eauto. Qed.

Global Instance responseFrame_trans c r : Transitive (responseFrame c r).
Proof.
  intros s1 s2 s3 (Hn1 & Hr1 & Hc1) (Hn2 & Hr2 & Hc2). split; [congruence|]. split.
  - intros req Hreq. destruct (Hr1 _ Hreq) as (req2 & Hreq2 & ?).
    destruct (Hr2 _ Hreq2) as (req3 & Hreq3 & ?). exists req3. split; [done|congruence].
  - intros cl Hcl. destruct (Hc1 _ Hcl) as (cl2 & Hcl2 & ?).
    destruct (Hc2 _ Hcl2) as (cl3 & Hcl3 & ?). exists cl3. split; [done|congruence].
Qed.






Section ResponseFrames.

Context `{Collaborators}.




End ResponseFrames.

(** ** Ending a request *)

Section EndRequest.

Context `{Collaborators}.
Hypothesis ended_waiting : forall q, httpState q = WAITING_FOR_REFERENCES -> ended q = true.
Hypothesis ended_flushing : forall q, httpState q = FLUSHING_OUTPUT -> ended q = true.






Hypothesis ended_state : forall q q', httpState q = httpState q' -> ended q = ended q'.


End EndRequest.

(** ** Taking the next request object *)

Section NextRequest.

Context `{Collaborators}.

Lemma reinitializeRequest_run c r req s :
  requests s !! r = Some req ->
  reinitializeRequest c r s =
    Done tt (set_requests (<[r := reinitialized (nextPool s) req]> (requests s))
               (set_nextPool (S (nextPool s)) s)).
Proof.
  intros Hr. destruct s, req as [? ? ? ? ? ? ? ? ? ? ? ? ? ? ? ? ? ? []]; cbn in *.
  unfold reinitializeRequest, reinitialized, bind, psg_create_pool, get, modify. cbn.
  repeat step. reflexivity.
Qed.

Lemma handleNextRequest_new c cl s :
  clients s !! c = Some cl -> freeRequests s = [] -> allocationFails s = false ->
  handleNextRequest c s =
    Done tt (nextRequest c cl (nextRequestId s) Request_new
               (set_nextRequestId (S (nextRequestId s)) s)).
Proof.
  intros Hcl Hf Ha. unfold handleNextRequest, bind.
  unfold refClient, input_start, output_deinitialize, output_reinitialize.
  repeat step.
  unfold checkoutRequestObject, bind, get. cbn. rewrite Hf. cbn.
  unfold createNewRequestObject, bind, get. cbn. rewrite Ha. cbn.
  unfold onRequestObjectCreated, modify, ret. cbn. step. step.
  erewrite reinitializeRequest_run by lookup_tac. cbn.
  unfold nextRequest. cbn. rewrite !insert_insert_eq. destruct cl; reflexivity.
Qed.

Lemma handleNextRequest_recycled c cl r rest req s :
  clients s !! c = Some cl ->
  freeRequests s = r :: rest -> 0 < freeRequestCount s ->
  requests s !! r = Some req -> httpState req = IN_FREELIST ->
  handleNextRequest c s =
    Done tt (nextRequest c cl r req
               (set_freeRequests rest
                  (set_freeRequestCount (wrap32 (freeRequestCount s - 1)) s))).
Proof.
  intros Hcl Hf Hcnt Hr Hst. unfold handleNextRequest, bind.
  unfold refClient, input_start, output_deinitialize, output_reinitialize.
  repeat step.
  erewrite checkoutRequestObject_from_freelist; [|cbn; eassumption|done|lookup_tac|done].
  cbn. step. step.
  erewrite reinitializeRequest_run by lookup_tac. cbn.
  unfold nextRequest. cbn. rewrite !insert_insert_eq. destruct cl; reflexivity.
Qed.

End NextRequest.

(** ** The freelist *)

Section FreelistOrder.

Context `{Collaborators}.

(** X2: a request put on the freelist while there is room is the one the next
    [checkoutRequestObject] hands out; the freelist and its counter are then as they
    were, and the request is in state [IN_FREELIST] with one reference. *)
Theorem freelist_round_trip c r req s :
  requests s !! r = Some req ->
  0 <= freeRequestCount s < requestFreelistLimit s -> requestFreelistLimit s < 2 ^ 32 ->
  exists s1,
    addRequestToFreelist r s = Done true s1
    /\ checkoutRequestObject c s1
       = Done (Some r)
           (set_requests (<[r := set_httpState IN_FREELIST (set_refcount 1 req)]> (requests s)) s).
Proof.
  intros Hr Hcnt Hlim. rewrite (addRequestToFreelist_run r req s Hr).
  replace (freeRequestCount s <? requestFreelistLimit s) with true by lia.
  eexists. split; [reflexivity|].
  erewrite checkoutRequestObject_from_freelist; [|reflexivity|cbn|lookup_tac|reflexivity].
  - cbn. rewrite (wrap32_small (freeRequestCount s + 1)) by lia.
    replace (freeRequestCount s + 1 - 1) with (freeRequestCount s) by lia.
    rewrite wrap32_small by lia. by destruct s.
  - rewrite wrap32_small by lia. lia.
Qed.

Lemma requestReachedZeroRefcount_inv r s s' :
  requestReachedZeroRefcount r s = Done tt s' ->
  exists c cl req,
    requests s !! r = Some req /\ client req = Some c
    /\ httpState req = WAITING_FOR_REFERENCES /\ clients s !! c = Some cl
    /\ s' = released c r cl req s.
Proof.
  intros Hrun.
  destruct (requests s !! r) as [req|] eqn:Hr;
    [|by revert Hrun; unfold requestReachedZeroRefcount, bind, getRequest; rewrite Hr].
  destruct (client req) as [c|] eqn:Hc;
    [|by revert Hrun; unfold requestReachedZeroRefcount, bind; step; rewrite Hc].
  destruct (decide (httpState req = WAITING_FOR_REFERENCES)) as [Hst|Hst];
    [|by revert Hrun; unfold requestReachedZeroRefcount, bind; step; rewrite Hc].
  destruct (clients s !! c) as [cl|] eqn:Hcl;
    [|by revert Hrun; unfold requestReachedZeroRefcount, bind; step; rewrite Hc; cbn;
         unfold getClient; rewrite Hcl].
  destruct (0 <? endedRequestCount cl) eqn:Hcnt;
    [|by revert Hrun; unfold requestReachedZeroRefcount, bind; step; rewrite Hc; cbn; step;
         rewrite Hcnt].
  destruct (decide (currentRequest cl = Some r)) as [Hcur|Hcur];
    [by revert Hrun; unfold requestReachedZeroRefcount, bind; step; rewrite Hc; cbn; step;
        rewrite Hcnt; cbn; bd|].
  destruct (decide (endedRequests cl = [])) as [Hne|Hne];
    [by revert Hrun; unfold requestReachedZeroRefcount, bind; step; rewrite Hc; cbn; step;
        rewrite Hcnt; cbn; bd|].
  exists c, cl, req. repeat split; try done.
  rewrite (requestReachedZeroRefcount_run c r cl req s) in Hrun by (done || lia). congruence.
Qed.

Lemma handleNextRequest_inv c s s' :
  handleNextRequest c s = Done tt s' ->
  exists cl,
    clients s !! c = Some cl
    /\ match freeRequests s with
       | [] => s' = nextRequest c cl (nextRequestId s) Request_new
                      (set_nextRequestId (S (nextRequestId s)) s)
       | r :: rest =>
           exists req, requests s !! r = Some req
             /\ s' = nextRequest c cl r req
                       (set_freeRequests rest
                          (set_freeRequestCount (wrap32 (freeRequestCount s - 1)) s))
       end.
Proof.
  intros Hrun.
  destruct (clients s !! c) as [cl|] eqn:Hcl;
    [|by revert Hrun; unfold handleNextRequest, bind, refClient, updClient; rewrite Hcl].
  exists cl. split; [done|].
  destruct (freeRequests s) as [|r rest] eqn:Hf.
  - destruct (allocationFails s) eqn:Ha.
    + revert Hrun. unfold handleNextRequest, bind.
      unfold refClient, input_start, output_deinitialize, output_reinitialize.
      repeat step. unfold checkoutRequestObject, bind, get. cbn. rewrite Hf. cbn.
      unfold createNewRequestObject, bind, get. cbn. rewrite Ha. cbn. by step.
    + rewrite (handleNextRequest_new c cl s) in Hrun by done. congruence.
  - assert (Hpre : 0 < freeRequestCount s /\ exists req, requests s !! r = Some req
                     /\ httpState req = IN_FREELIST).
    { revert Hrun. unfold handleNextRequest, bind.
      unfold refClient, input_start, output_deinitialize, output_reinitialize.
      repeat step. unfold checkoutRequestObject, bind, get. cbn. rewrite Hf. cbn.
      unfold checkoutRequestObjectFromFreelist, bind, get, assert. cbn.
      destruct (0 <? freeRequestCount s) eqn:Hcnt; cbn; [|done]. rewrite Hf. cbn.
      unfold getRequest at 1. cbn. destruct (requests s !! r) as [req|]; [|done].
      destruct (decide (httpState req = IN_FREELIST)) as [Hst|Hst];
        [|by rewrite (bool_decide_eq_false_2 _ Hst)].
      intros _. split; [lia|eauto]. }
    destruct Hpre as (Hcnt & req & Hr & Hst). exists req. split; [done|].
    rewrite (handleNextRequest_recycled c cl r rest req s) in Hrun by done. congruence.
Qed.

(** X3: [freelistOk] is kept by [requestReachedZeroRefcount] and by [handleNextRequest]:
    the counter stays the length of the list and within the limit, the listed requests
    stay live, in state [IN_FREELIST], with one reference, and none is listed twice. On
    an orderly, non-empty freelist [handleNextRequest] does not fail. *)
Theorem freelist_stays_in_order c r s :
  freelistOk s ->
  (forall r', is_Some (requests s !! r') -> (r' < nextRequestId s)%nat) ->
  (forall s', requestReachedZeroRefcount r s = Done tt s' -> freelistOk s')
  /\ (forall s', handleNextRequest c s = Done tt s' -> freelistOk s')
  /\ (forall cl, clients s !! c = Some cl -> freeRequests s <> [] ->
      exists s', handleNextRequest c s = Done tt s').
Proof.
  intros (Hcnt & Hlim & Hnd & Hall) Hheap. split; [|split].
  - intros s' Hrun. apply requestReachedZeroRefcount_inv in Hrun
      as (c0 & cl & req & Hr & Hc & Hst & Hcl & ->).
    assert (Hnotin : r ∉ freeRequests s).
    { intros Hin. rewrite Forall_forall in Hall. destruct (Hall r Hin) as (_ & q & Hq & Hq' & _).
      assert (Some q = Some req) as [= ->] by (rewrite <- Hr; symmetry; exact Hq).
      rewrite Hst in Hq'. discriminate. }
    unfold released, freelistOk.
    destruct (freeRequestCount s <? requestFreelistLimit s) eqn:E; cbn.
    + rewrite wrap32_small by lia. repeat split; try lia.
      * by constructor.
      * constructor.
        -- split; [apply Hheap; eauto|]. rewrite lookup_insert_eq. eauto.
        -- rewrite Forall_forall in Hall |- *. intros r' Hin. split; [by apply Hall|].
           rewrite lookup_insert_ne by (intros ->; done). by apply Hall.
    + repeat split; try lia; [done|].
      rewrite Forall_forall in Hall |- *. intros r' Hin. split; [by apply Hall|].
      rewrite lookup_delete_ne by (intros ->; done). by apply Hall.
  - intros s' Hrun. apply handleNextRequest_inv in Hrun as (cl & Hcl & Hs').
    destruct (freeRequests s) as [|r0 rest] eqn:Hf.
    + subst s'. unfold nextRequest, freelistOk. cbn. rewrite Hf. cbn in *.
      repeat split; try lia; constructor.
    + destruct Hs' as (req & Hr & ->). unfold nextRequest, freelistOk. cbn.
      apply NoDup_cons in Hnd as [Hnotin Hnd]. apply Forall_cons in Hall as [_ Hall].
      cbn [length] in Hcnt. rewrite wrap32_small by lia.
      repeat split; try lia; [done|].
      rewrite Forall_forall in Hall |- *. intros r' Hin. split; [by apply Hall|].
      rewrite lookup_insert_ne by (intros ->; done). by apply Hall.
  - intros cl Hcl Hne. destruct (freeRequests s) as [|r0 rest] eqn:Hf; [done|].
    apply Forall_cons in Hall as [(_ & req & Hr & Hst & _) _]. cbn [length] in Hcnt.
    eexists. apply (handleNextRequest_recycled c cl r0 rest req); (done || lia).
Qed.

End FreelistOrder.

(** ** A clean start, and references held elsewhere *)

Section Recycling.

Context `{Collaborators}.

(** X1: [handleNextRequest] succeeds whenever a request object can be had, that is when
    the head of the freelist is in state [IN_FREELIST] or the freelist is empty and the
    allocation succeeds. The client gets the head of the freelist, or else a new object,
    as its current request, its input is started and its output is empty, and the
    request starts clean: state [PARSING_HEADERS], HTTP 1.0, GET, no body, no
    keep-alive, no response begun, nothing read, a fresh pool and a fresh parser state.
    *)
Theorem next_request_starts_clean c cl s :
  clients s !! c = Some cl ->
  match freeRequests s with
  | [] => allocationFails s = false
  | r :: _ => 0 < freeRequestCount s
              /\ exists old, requests s !! r = Some old /\ httpState old = IN_FREELIST
  end ->
  exists s' cl' req,
    let r := match freeRequests s with [] => nextRequestId s | r :: _ => r end in
    handleNextRequest c s = Done tt s'
    /\ freeRequests s' = tail (freeRequests s)
    /\ clients s' !! c = Some cl'
    /\ currentRequest cl' = Some r /\ input cl' = true /\ output cl' = []
    /\ requests s' !! r = Some req
    /\ client req = Some c
    /\ httpState req = PARSING_HEADERS /\ httpMajor req = 1 /\ httpMinor req = 0
    /\ method req = HTTP_GET /\ bodyType req = RBT_NO_BODY
    /\ wantKeepAlive req = false /\ responseBegun req = false
    /\ bodyAlreadyRead req = 0 /\ aux_contentLength req = 0
    /\ pool req = Some (nextPool s) /\ headerParser req = Some []
    /\ path req = [] /\ calls (bodyChannel req) = [].
Proof.
  intros Hcl Hpre. destruct (freeRequests s) as [|r rest] eqn:Hf.
  - rewrite (handleNextRequest_new c cl s) by done. do 3 eexists. cbn zeta.
    split; [reflexivity|]. unfold nextRequest. cbn. rewrite Hf, !lookup_insert_eq.
    repeat split.
  - destruct Hpre as (Hcnt & old & Hr & Hst).
    rewrite (handleNextRequest_recycled c cl r rest old s) by done. do 3 eexists. cbn zeta.
    split; [reflexivity|]. unfold nextRequest. cbn. rewrite !lookup_insert_eq.
    repeat split.
Qed.

(** X4: [refRequest] followed by [unrefRequest] leaves the server exactly as it was, for
    a request that holds at least one reference. *)
Theorem ref_then_unref r req s :
  requests s !! r = Some req -> 1 <= refcount req < 2 ^ 31 - 1 ->
  exists s1, refRequest r s = Done tt s1 /\ unrefRequest r s1 = Done tt s.
Proof.
  intros Hr Hrc. unfold refRequest. rewrite (updRequest_Done r _ s req Hr).
  eexists. split; [reflexivity|].
  erewrite unrefRequest_run; [|lookup_tac|cbn; rewrite wrap_int_small by lia; lia].
  cbn. rewrite insert_insert_eq. rewrite (wrap_int_small (refcount req + 1)) by lia.
  replace (refcount req + 1 - 1) with (refcount req) by lia.
  rewrite wrap_int_small by lia.
  replace (set_refcount (refcount req) (set_refcount (refcount req + 1) req)) with req
    by (by destruct req).
  rewrite insert_id by done. by destruct s.
Qed.

(** X5: when the last reference is dropped off the event loop thread the request is not
    released there: it stays in [WAITING_FOR_REFERENCES] and off the freelist, with the
    one reference the queued callback owns, and the client is untouched. Running the
    callback on the event loop then gives the very server that dropping the reference on
    the event loop thread would have given. *)
Theorem last_unref_off_the_event_loop c r cl req s :
  requests s !! r = Some req -> refcount req = 1 -> client req = Some c ->
  httpState req = WAITING_FOR_REFERENCES ->
  clients s !! c = Some cl -> 0 < endedRequestCount cl ->
  currentRequest cl <> Some r -> endedRequests cl <> [] ->
  onEventLoopThread s = false -> pendingCallbacks s = [] ->
  exists s1 req1 s2,
    unrefRequest r s = Done tt s1
    /\ requests s1 !! r = Some req1 /\ refcount req1 = 1
    /\ httpState req1 = WAITING_FOR_REFERENCES
    /\ pendingCallbacks s1 = [r] /\ freeRequests s1 = freeRequests s
    /\ clients s1 = clients s
    /\ passRequestToEventLoopThreadCallback s1 = Done tt s2
    /\ unrefRequest r (set_onEventLoopThread true s) = Done tt s2
    /\ pendingCallbacks s2 = [].
Proof.
  intros Hr Hrc Hc Hst Hcl Hcnt Hcur Hne Hloop Hpend.
  rewrite (unrefRequest_last_run c r cl req s) by done. rewrite Hloop.
  do 3 eexists. split; [reflexivity|]. unfold hopped. cbn.
  split; [apply lookup_insert_eq|]. cbn. rewrite Hrc.
  change (wrap_int (wrap_int (1 - 1) + 1)) with 1.
  split; [done|]. split; [done|]. split; [by rewrite Hpend|]. split; [done|]. split; [done|].
  unfold passRequestToEventLoopThreadCallback, bind, get, modify. cbn. rewrite Hpend. cbn.
  erewrite unrefRequest_last_run;
    [|lookup_tac|reflexivity|exact Hc|exact Hst|exact Hcl|done|done|done].
  cbn. rewrite insert_insert_eq.
  split; [reflexivity|].
  erewrite (unrefRequest_last_run c r cl req); [|done..]. cbn. rewrite Hrc.
  unfold released. cbn. rewrite !insert_insert_eq, ?delete_insert_eq.
  destruct (freeRequestCount s <? requestFreelistLimit s); cbn.
  - split; [|done]. f_equal. destruct s; cbn in *. subst. reflexivity.
  - split; [|done]. f_equal. destruct s; cbn in *. subst. reflexivity.
Qed.

End Recycling.

(** ** What the header parser leaves behind *)

Section HeaderOutcomes.

Context `{Collaborators}.

Lemma processClientDataWhenParsingHeaders_begun c r cl req parsed n buffer errcode s :
  clients s !! c = Some cl -> requests s !! r = Some req ->
  mbuf_empty buffer = false ->
  headerParser_feed req buffer = (parsed, n) ->
  httpState parsed = COMPLETE \/ httpState parsed = PARSING_BODY ->
  processClientDataWhenParsingHeaders c r buffer errcode s
  = Done {| consumed := n; channel_end := false |} (begun c r cl parsed s).
Proof.
  intros Hcl Hr Hne Hparse Hst.
  assert (Hsize : (0 <? mbuf_size buffer) = true).
  { apply Z.ltb_lt. unfold mbuf_empty in Hne. unfold mbuf_size in *. lia. }
  unfold processClientDataWhenParsingHeaders. rewrite Hsize. unfold bind. step.
  rewrite Hparse. unfold bind. step.
  assert (Hsame : <[c := cl]> (clients s) = clients s) by (by apply insert_id).
  destruct Hst as [Hst|Hst]; rewrite Hst; bd; cbn; step;
    unfold input_stop, onRequestBegin, emit, modify, bind; repeat step; unfold begun;
    rewrite Hst; bd; cbn; rewrite ?Hsame; by destruct s.
Qed.

(** X6: data for a request whose headers are being parsed. While the parser stays in
    [PARSING_HEADERS] the whole buffer is consumed and only the request changes. When
    the parser reaches [COMPLETE] or [PARSING_BODY] the parser state is freed,
    [onRequestBegin] runs once, [totalRequestsAccepted] goes up by one, what the parser
    consumed is reported, and the input is stopped exactly when the request has no body.
    *)
Theorem header_parsing_outcomes c r cl req parsed n buffer errcode s :
  clients s !! c = Some cl -> requests s !! r = Some req ->
  mbuf_empty buffer = false ->
  headerParser_feed req buffer = (parsed, n) ->
  (httpState parsed = PARSING_HEADERS ->
   processClientDataWhenParsingHeaders c r buffer errcode s
   = Done {| consumed := mbuf_size buffer; channel_end := false |}
       (set_requests (<[r := parsed]> (requests s)) s))
  /\ (httpState parsed = COMPLETE \/ httpState parsed = PARSING_BODY ->
      exists s' cl',
        processClientDataWhenParsingHeaders c r buffer errcode s
        = Done {| consumed := n; channel_end := false |} s'
        /\ trace s' = trace s ++ [RequestBegin c r]
        /\ totalRequestsAccepted s' = wrap32 (totalRequestsAccepted s + 1)
        /\ requests s' !! r = Some (set_headerParser None parsed)
        /\ clients s' !! c = Some cl'
        /\ input cl' = (if bool_decide (httpState parsed = COMPLETE) then false else input cl)
        /\ output cl' = output cl /\ currentRequest cl' = currentRequest cl).
Proof.
  intros Hcl Hr Hne Hparse. split.
  - intros Hst.
    assert (Hsize : (0 <? mbuf_size buffer) = true).
    { apply Z.ltb_lt. unfold mbuf_empty in Hne. unfold mbuf_size in *. lia. }
    unfold processClientDataWhenParsingHeaders. rewrite Hsize. unfold bind. step.
    rewrite Hparse. unfold bind. step. reflexivity.
  - intros Hst. do 2 eexists.
    split; [by eapply processClientDataWhenParsingHeaders_begun|].
    unfold begun. cbn. rewrite !lookup_insert_eq.
    repeat split; by destruct (bool_decide (httpState parsed = COMPLETE)).
Qed.


End HeaderOutcomes.

(** ** Read errors during the body *)

Section ReadErrors.

Context `{Collaborators}.
Hypothesis ended_waiting : forall q, httpState q = WAITING_FOR_REFERENCES -> ended q = true.

(** Dropping the reference [onClientDataReceived] holds, after a disconnect has ended
    the request: what is left of the client. *)
Lemma unref_after_disconnect_client c r cl req s :
  clients s !! c = Some cl -> currentRequest cl = Some r -> connState cl = ACTIVE ->
  requests s !! r = Some req -> client req = Some c ->
  httpState req <> WAITING_FOR_REFERENCES ->
  2 <= refcount req < 2 ^ 31 ->
  0 <= endedRequestCount cl < 2 ^ 32 - 1 ->
  exists s' cl',
    unrefRequest r (disconnected c cl s) = Done tt s'
    /\ trace s' = trace s ++ [Disconnected c]
    /\ clients s' !! c = Some cl' /\ input cl' = input cl.
Proof.
  intros Hcl Hcur Hact Hr Hc Hst Hrc Hcnt.
  unfold disconnected, disconnecting. cbn. rewrite Hcur, Hr. cbn. bd. cbn.
  rewrite !lookup_insert_eq. cbn. rewrite !insert_insert_eq.
  rewrite (wrap_int_small (refcount req - 1)) by lia.
  rewrite (wrap32_small (endedRequestCount cl + 1)) by lia.
  destruct (decide (refcount req = 2)) as [E|E].
  - erewrite unrefRequest_last_run;
      [|lookup_tac|cbn; lia|done|done|lookup_tac|cbn; lia|cbn; congruence|done].
    cbn. destruct (onEventLoopThread s); cbn.
    + do 2 eexists. split; [reflexivity|]. unfold released. cbn.
      destruct (freeRequestCount s <? requestFreelistLimit s); cbn;
        rewrite ?lookup_insert_eq; eauto 10.
    + do 2 eexists. split; [reflexivity|]. unfold hopped. cbn.
      rewrite ?lookup_insert_eq; eauto 10.
  - erewrite unrefRequest_run; [|lookup_tac|cbn; lia].
    do 2 eexists. split; [reflexivity|]. cbn. rewrite ?lookup_insert_eq; eauto 10.
Qed.

(** The same after the body channel of the request recorded one call and, if it
    delivers at once, the default consumer disconnected the client. *)
Lemma unref_after_handing c r cl req call e s :
  clients s !! c = Some cl -> currentRequest cl = Some r ->
  requests s !! r = Some req -> client req = Some c ->
  httpState req <> WAITING_FOR_REFERENCES ->
  2 <= refcount req < 2 ^ 31 ->
  0 <= endedRequestCount cl < 2 ^ 32 - 1 ->
  exists s' evs cl',
    unrefRequest r
      (if deliversAtOnce (calls (bodyChannel req))
       then match connState cl with
            | ACTIVE => disconnected c cl (handed r call e req s)
            | DISCONNECTED => handed r call e req s
            end
       else handed r call e req s) = Done tt s'
    /\ trace s' = trace s ++ e :: evs /\ Forall (is_Disconnected c) evs
    /\ clients s' !! c = Some cl' /\ input cl' = input cl.
Proof.
  intros Hcl Hcur Hr Hc Hst Hrc Hcnt.
  assert (Hplain : exists s', unrefRequest r (handed r call e req s) = Done tt s'
            /\ trace s' = trace s ++ [e] /\ clients s' !! c = Some cl).
  { erewrite unrefRequest_run; [|unfold handed; lookup_tac|cbn; lia]. eauto. }
  destruct (deliversAtOnce _); [destruct (connState cl) eqn:Hact|].
  - edestruct (unref_after_disconnect_client c r cl
                 (set_bodyChannel (set_calls (calls (bodyChannel req) ++ [call]) (bodyChannel req)) req)
                 (handed r call e req s))
      as (s' & cl' & -> & Htr & Hcl' & Hin);
      [done|done|done|unfold handed; lookup_tac|done|cbn; congruence|cbn; lia|done|].
    exists s', [Disconnected c], cl'. cbn in Htr. rewrite Htr, <- app_assoc.
    repeat split; auto. by repeat constructor.
  - destruct Hplain as (s' & -> & Htr & ?). exists s', [], cl. by rewrite Htr.
  - destruct Hplain as (s' & -> & Htr & ?). exists s', [], cl. by rewrite Htr.
Qed.

(** X8: a read error, that is an empty buffer with a non-zero [errcode], on a request
    whose body is being parsed or that was upgraded is handed to the body channel with
    its error code; nothing is consumed, and the only events after it are disconnects of
    the client. *)
Theorem read_error_reaches_the_body_channel c r cl req errcode s :
  errcode <> 0 ->
  clients s !! c = Some cl -> currentRequest cl = Some r ->
  requests s !! r = Some req ->
  httpState req = PARSING_BODY \/ httpState req = UPGRADED ->
  client req = Some c ->
  1 <= refcount req < 2 ^ 31 - 1 ->
  0 <= endedRequestCount cl < 2 ^ 32 - 1 ->
  exists s' evs,
    onClientDataReceived c EmptyString errcode s
      = Done {| consumed := 0; channel_end := false |} s'
    /\ trace s' = trace s ++ BodyError r errcode :: evs
    /\ Forall (is_Disconnected c) evs.
Proof.
  intros Herr Hcl Hcur Hr Hst Hc Hrc Hcnt.
  unfold onClientDataReceived, bind. step. rewrite Hcur. cbn.
  unfold refRequest. step. rewrite (wrap_int_small (refcount req + 1)) by lia.
  step.
  set (req1 := set_refcount (refcount req + 1) req).
  set (s1 := set_requests _ s).
  assert (Hr1 : requests s1 !! r = Some req1) by (subst s1; lookup_tac).
  assert (Hcl1 : clients s1 !! c = Some cl) by done.
  assert (Htr1 : trace s1 = trace s) by done.
  assert (Hc1 : client req1 = Some c) by done.
  assert (Hrc1 : 2 <= refcount req1 < 2 ^ 31) by (cbn; lia).
  assert (Hst1 : httpState req1 = httpState req) by done.
  clearbody req1 s1.
  assert (Hne : (errcode =? 0) = false) by lia.
  edestruct (unref_after_handing c r cl req1 (FeedError errcode) (BodyError r errcode) s1)
    as (s' & evs & cl' & Hun & Htr & Hev & _);
    [done|done|done|done|rewrite Hst1; destruct Hst; congruence|done|done|].
  exists s', evs. rewrite <- Htr1. split; [|done].
  destruct Hst as [Hst|Hst]; rewrite Hst; bd; cbn.
  - unfold processClientDataWhenParsingBody. change (mbuf_size EmptyString) with 0. cbn.
    rewrite Hne. unfold bind.
    erewrite bodyChannel_feedError_run; [|done..|lia]. cbn. by rewrite Hun.
  - unfold processClientDataWhenUpgraded. change (mbuf_size EmptyString) with 0. cbn.
    rewrite Hne. unfold bind.
    erewrite bodyChannel_feedError_run; [|done..|lia]. cbn. by rewrite Hun.
Qed.

End ReadErrors.

(** ** Body data and backpressure *)

Section BodyData.

Context `{Collaborators}.
Hypothesis ended_waiting : forall q, httpState q = WAITING_FOR_REFERENCES -> ended q = true.
Hypothesis ended_parsing : forall q, httpState q = PARSING_BODY -> ended q = false.
Hypothesis bodyFullyRead_length : forall q, bodyType q = RBT_CONTENT_LENGTH ->
  bodyFullyRead q = (aux_contentLength q <=? bodyAlreadyRead q).

Lemma slice_not_empty buffer n :
  0 < n -> mbuf_empty buffer = false -> mbuf_empty (mbuf_slice buffer 0 n) = false.
Proof.
  unfold mbuf_empty, mbuf_slice, mbuf_size. intros Hn Hb.
  change (Z.to_nat 0) with 0%nat. rewrite take_length.
  apply Z.eqb_neq in Hb. apply Z.eqb_neq. lia.
Qed.

(** X9: a buffer that does not complete a Content-Length body is consumed whole and
    handed to the body channel in one piece, [bodyAlreadyRead] grows by its size, and
    while the channel is below its threshold the clients are left as they were. *)
Theorem body_data_before_the_end c r cl req buffer errcode s :
  clients s !! c = Some cl -> currentRequest cl = Some r ->
  requests s !! r = Some req -> httpState req = PARSING_BODY ->
  bodyType req = RBT_CONTENT_LENGTH -> client req = Some c ->
  1 <= refcount req < 2 ^ 31 - 1 ->
  mbuf_empty buffer = false ->
  0 <= bodyAlreadyRead req -> aux_contentLength req < 2 ^ 64 ->
  bodyAlreadyRead req + mbuf_size buffer < aux_contentLength req ->
  passedThreshold (calls (bodyChannel req) ++ [Feed buffer]) = false ->
  exists s',
    onClientDataReceived c buffer errcode s
      = Done {| consumed := mbuf_size buffer; channel_end := false |} s'
    /\ trace s' = trace s ++ [BodyData r buffer]
    /\ clients s' = clients s
    /\ requests s' !! r
       = Some (set_bodyChannel (set_calls (calls (bodyChannel req) ++ [Feed buffer]) (bodyChannel req))
                 (set_bodyAlreadyRead (bodyAlreadyRead req + mbuf_size buffer) req)).
Proof.
  intros Hcl Hcur Hr Hst Hbt Hc Hrc Hne Hbar Hcl64 Hroom Hthr.
  assert (Hsize : 0 < mbuf_size buffer).
  { unfold mbuf_empty in Hne. unfold mbuf_size in *. lia. }
  unfold onClientDataReceived, bind. step. rewrite Hcur. cbn.
  unfold refRequest. step. rewrite (wrap_int_small (refcount req + 1)) by lia.
  step. rewrite Hst.
  unfold processClientDataWhenParsingBody.
  replace (0 <? mbuf_size buffer) with true by lia. unfold bind. step. step.
  rewrite (wrap64_small (aux_contentLength req - bodyAlreadyRead req)) by lia.
  rewrite Z.min_l by lia.
  rewrite (wrap64_small (bodyAlreadyRead req + mbuf_size buffer)) by lia.
  replace (mbuf_slice buffer 0 (mbuf_size buffer)) with buffer
    by (unfold mbuf_slice, mbuf_size; rewrite Nat2Z.id; symmetry; by apply take_all).
  erewrite bodyChannel_feed_data_run; [|lookup_tac|done]. cbn. rewrite Hc.
  unfold handed. cbn. step. rewrite ended_parsing by done. cbn. rewrite Hthr. cbn.
  unfold requestBodyConsumed, bind. step. rewrite bodyFullyRead_length by done. cbn.
  replace (aux_contentLength req <=? bodyAlreadyRead req + mbuf_size buffer) with false by lia.
  cbn. erewrite unrefRequest_run; [|lookup_tac|cbn; lia]. cbn.
  eexists. split; [reflexivity|]. cbn. rewrite lookup_insert_eq.
  repeat split. f_equal. rewrite Z.add_simpl_r. rewrite wrap_int_small by lia. by destruct req.
Qed.

(** X10: of the buffer that completes a Content-Length body only the missing bytes are
    consumed and handed on; the empty buffer that ends the body follows at once, and the
    input of the client is stopped. *)
Theorem last_body_byte_ends_the_body c r cl req buffer errcode s :
  clients s !! c = Some cl -> currentRequest cl = Some r ->
  requests s !! r = Some req -> httpState req = PARSING_BODY ->
  bodyType req = RBT_CONTENT_LENGTH -> client req = Some c ->
  1 <= refcount req < 2 ^ 31 - 1 ->
  0 <= endedRequestCount cl < 2 ^ 32 - 1 ->
  mbuf_empty buffer = false ->
  0 <= bodyAlreadyRead req < aux_contentLength req -> aux_contentLength req < 2 ^ 64 ->
  aux_contentLength req <= bodyAlreadyRead req + mbuf_size buffer ->
  let n := aux_contentLength req - bodyAlreadyRead req in
  let slice := substring 0 (Z.to_nat n) buffer in
  passedThreshold (calls (bodyChannel req) ++ [Feed slice]) = false ->
  exists s' evs cl',
    onClientDataReceived c buffer errcode s
      = Done {| consumed := n; channel_end := false |} s'
    /\ trace s' = trace s ++ BodyData r slice :: BodyData r EmptyString :: evs
    /\ Forall (is_Disconnected c) evs
    /\ clients s' !! c = Some cl' /\ input cl' = false.
Proof.
  intros Hcl Hcur Hr Hst Hbt Hc Hrc Hcnt Hne Hbar Hcl64 Hroom n slice Hthr.
  assert (Hsize : 0 < mbuf_size buffer).
  { unfold mbuf_empty in Hne. unfold mbuf_size in *. lia. }
  unfold onClientDataReceived, bind. step. rewrite Hcur. cbn.
  unfold refRequest. step. rewrite (wrap_int_small (refcount req + 1)) by lia.
  step. rewrite Hst.
  unfold processClientDataWhenParsingBody.
  replace (0 <? mbuf_size buffer) with true by lia. unfold bind. step. step.
  rewrite (wrap64_small (aux_contentLength req - bodyAlreadyRead req)) by lia.
  rewrite Z.min_r by lia. fold n.
  rewrite (wrap64_small (bodyAlreadyRead req + n)) by (unfold n; lia).
  change (mbuf_slice buffer 0 n) with slice.
  assert (Hslice : mbuf_empty slice = false) by (apply slice_not_empty; [unfold n; lia|done]).
  erewrite bodyChannel_feed_data_run; [|lookup_tac|done]. cbn. rewrite Hc.
  unfold handed at 1. cbn. step. rewrite ended_parsing by done. cbn. rewrite Hthr. cbn.
  unfold requestBodyConsumed, bind. step. rewrite bodyFullyRead_length by done. cbn.
  replace (aux_contentLength req <=? bodyAlreadyRead req + n) with true
    by (symmetry; apply Z.leb_le; unfold n; lia).
  cbn. unfold input_stop, bind. step.
  set (req1 := set_bodyChannel _ _).
  set (cl1 := set_input false cl).
  set (s1 := set_clients _ _).
  assert (Hr1 : requests s1 !! r = Some req1) by (subst s1; lookup_tac).
  assert (Hcl1 : clients s1 !! c = Some cl1) by (subst s1; lookup_tac).
  assert (Htr1 : trace s1 = trace s ++ [BodyData r slice]) by done.
  assert (Hc1 : client req1 = Some c) by done.
  assert (Hrc1 : 2 <= refcount req1 < 2 ^ 31) by (cbn; lia).
  assert (Hst1 : httpState req1 <> WAITING_FOR_REFERENCES) by (cbn; congruence).
  assert (Hcur1 : currentRequest cl1 = Some r) by done.
  assert (Hcnt1 : 0 <= endedRequestCount cl1 < 2 ^ 32 - 1) by done.
  assert (Hin1 : input cl1 = false) by done.
  assert (Hcon1 : connState cl1 = connState cl) by done.
  clearbody req1 cl1 s1.
  erewrite bodyChannel_feed_eof_run; [|done..|lia]. cbv zeta.
  rewrite Hcon1.
  edestruct (unref_after_handing c r cl1 req1 (Feed EmptyString)
               (BodyData r EmptyString) s1)
    as (s' & evs & cl' & Hun & Htr & Hev & Hcl' & Hin'); [done..|].
  rewrite Hcon1 in Hun. cbn. rewrite Hun. cbn.
  exists s', evs, cl'.
  rewrite Htr, Htr1, <- app_assoc. cbn. rewrite Hin', Hin1. done.
Qed.


End BodyData.

(** ** Data on an upgraded connection *)

Section UpgradedData.

Context `{Collaborators}.
Hypothesis ended_upgraded : forall q, httpState q = UPGRADED -> ended q = false.
Hypothesis bodyFullyRead_upgrade : forall q, bodyType q = RBT_UPGRADE -> bodyFullyRead q = false.

(** X12: on an upgraded connection every non-empty buffer is consumed whole and handed
    to the body channel, whatever the content length field holds, and [bodyAlreadyRead]
    grows by its size; the input is stopped, and the buffers-flushed callback installed,
    exactly when the channel is over its threshold. *)
Theorem upgraded_data_is_not_clamped c r cl req buffer errcode s :
  clients s !! c = Some cl -> currentRequest cl = Some r ->
  requests s !! r = Some req -> httpState req = UPGRADED ->
  bodyType req = RBT_UPGRADE -> client req = Some c ->
  1 <= refcount req < 2 ^ 31 - 1 ->
  mbuf_empty buffer = false ->
  0 <= bodyAlreadyRead req -> bodyAlreadyRead req + mbuf_size buffer < 2 ^ 64 ->
  let stopped := passedThreshold (calls (bodyChannel req) ++ [Feed buffer]) in
  exists s' cl' req',
    onClientDataReceived c buffer errcode s
      = Done {| consumed := mbuf_size buffer; channel_end := false |} s'
    /\ trace s' = trace s ++ [BodyData r buffer]
    /\ clients s' !! c = Some cl'
    /\ input cl' = (if stopped then false else input cl)
    /\ requests s' !! r = Some req'
    /\ bodyAlreadyRead req' = bodyAlreadyRead req + mbuf_size buffer
    /\ httpState req' = UPGRADED /\ refcount req' = refcount req
    /\ buffersFlushedCallback (bodyChannel req')
       = (if stopped then Some CB_onRequestBodyChannelBuffersFlushed
          else buffersFlushedCallback (bodyChannel req)).
Proof.
  intros Hcl Hcur Hr Hst Hbt Hc Hrc Hne Hbar Hroom stopped.
  assert (Hsize : 0 < mbuf_size buffer).
  { unfold mbuf_empty in Hne. unfold mbuf_size in *. lia. }
  unfold onClientDataReceived, bind. step. rewrite Hcur. cbn.
  unfold refRequest. step. rewrite (wrap_int_small (refcount req + 1)) by lia.
  step. rewrite Hst.
  unfold processClientDataWhenUpgraded.
  replace (0 <? mbuf_size buffer) with true by lia. unfold bind. step.
  rewrite (wrap64_small (bodyAlreadyRead req + mbuf_size buffer)) by lia.
  erewrite bodyChannel_feed_data_run; [|lookup_tac|done]. cbn. rewrite Hc.
  unfold handed. cbn. step. rewrite ended_upgraded by done. cbn.
  subst stopped. destruct (passedThreshold _) eqn:Hthr; cbn.
  - unfold input_stop, bind. step. step.
    erewrite unrefRequest_run; [|lookup_tac|cbn; lia]. cbn.
    rewrite Z.add_simpl_r, (wrap_int_small (refcount req)) by lia.
    do 3 eexists. split; [reflexivity|]. cbn. rewrite !lookup_insert_eq.
    repeat split; done.
  - unfold requestBodyConsumed, bind. step. rewrite bodyFullyRead_upgrade by done. cbn.
    erewrite unrefRequest_run; [|lookup_tac|cbn; lia]. cbn.
    rewrite Z.add_simpl_r, (wrap_int_small (refcount req)) by lia.
    do 3 eexists. split; [reflexivity|]. cbn. rewrite !lookup_insert_eq.
    split; [reflexivity|]. split; [exact Hcl|]. repeat split; done.
Qed.

End UpgradedData.

(** ** The body and the header values of a simple response *)

Section SimpleResponseBody.

Context `{Collaborators}.

(** X13: [writeSimpleResponse] writes the header block and then the body as a second
    buffer, unless the request has ended or the method is HEAD; it sets [responseBegun]
    and leaves the state, the reference count and the pool of the request alone. *)
Theorem simple_response_body_follows c r cl req p code t body s :
  (forall q q', httpState q = httpState q' -> ended q = ended q') ->
  clients s !! c = Some cl -> currentRequest cl = Some r ->
  requests s !! r = Some req -> pool req = Some p ->
  0 <= httpMajor req < 1000 -> 0 <= httpMinor req < 1000 ->
  (forall status, getStatusCodeAndReasonPhrase code = Some status -> slen status <= 64) ->
  slen (strftime_gmt (now s)) <= 45 ->
  300 + tableCost t < 2 ^ 32 ->
  let block := simpleResponseHeader req (now s) code t body in
  let sent := block :: if ended req || bool_decide (method req = HTTP_HEAD) then [] else [body] in
  exists s' cl' req',
    writeSimpleResponse c code t body s = Done tt s'
    /\ trace s' = trace s ++ map (ClientOutput c) sent
    /\ clients s' !! c = Some cl' /\ output cl' = output cl ++ sent
    /\ requests s' !! r = Some req'
    /\ responseBegun req' = true
    /\ httpState req' = httpState req /\ refcount req' = refcount req /\ pool req' = pool req.
Proof.
  intros Hended Hcl Hcur Hr Hp Hmaj Hmin Htab Hdate Hcost block sent.
  pose proof (headerBuf_suffices req (now s) code t body Hmaj Hmin Htab Hdate Hcost) as Hfit.
  exists (responded c r cl req code t body s), (set_output (output cl ++ sent) cl),
    (set_responseBegun true (if clearsKeepAlive t then set_wantKeepAlive false req else req)).
  split; [by eapply writeSimpleResponse_run|].
  unfold responded. cbn. rewrite !lookup_insert_eq.
  assert (He : ended (set_responseBegun true
                        (if clearsKeepAlive t then set_wantKeepAlive false req else req))
               = ended req).
  { apply Hended. by destruct (clearsKeepAlive t). }
  rewrite He. subst sent block.
  replace (negb (ended req) && negb (bool_decide (method req = HTTP_HEAD)))
    with (negb (ended req || bool_decide (method req = HTTP_HEAD)))
    by (by destruct (ended req), (bool_decide _)).
  destruct (ended req || bool_decide (method req = HTTP_HEAD)); cbn;
    repeat split; by destruct (clearsKeepAlive t).
Qed.

(** X14: the header block of a simple response starts with Content-Type, Date,
    Connection and Content-Length, in this order; the first, second and fourth carry the
    value of the caller if the header table has one, and otherwise text/html with
    charset UTF-8, the current time, and the length of the body in decimal. *)
Theorem simple_response_header_values c r cl req p code t body s :
  clients s !! c = Some cl -> currentRequest cl = Some r ->
  requests s !! r = Some req -> pool req = Some p ->
  0 <= httpMajor req < 1000 -> 0 <= httpMinor req < 1000 ->
  (forall status, getStatusCodeAndReasonPhrase code = Some status -> slen status <= 64) ->
  slen (strftime_gmt (now s)) <= 45 ->
  300 + tableCost t < 2 ^ 32 ->
  slen body < 2 ^ 32 ->
  exists s' contentType date connection contentLength rest sent,
    writeSimpleResponse c code t body s = Done tt s'
    /\ trace s' = trace s
         ++ ClientOutput c
              (statusLines req code
               +:+ renderLines (("Content-Type", contentType) :: ("Date", date)
                                 :: ("Connection", connection)
                                 :: ("Content-Length", contentLength) :: rest)
               +:+ CRLF) :: sent
    /\ contentType = match lookup_in t "content-type" with
                     | Some v => lstr_data v
                     | None => "text/html; charset=UTF-8"
                     end
    /\ date = match lookup_in t "date" with
              | Some v => lstr_data v
              | None => strftime_gmt (now s)
              end
    /\ contentLength = match lookup_in t "content-length" with
                       | Some v => lstr_data v
                       | None => pretty (slen body)
                       end.
Proof.
  intros Hcl Hcur Hr Hp Hmaj Hmin Htab Hdate Hcost Hbody.
  pose proof (headerBuf_suffices req (now s) code t body Hmaj Hmin Htab Hdate Hcost) as Hfit.
  exists (responded c r cl req code t body s). do 6 eexists.
  split; [by eapply writeSimpleResponse_run|].
  split; [reflexivity|]. unfold valueOr.
  rewrite wrap32_small by (pose proof (slen_nonneg body); lia). done.
Qed.

(** X15: for a status code without a known reason phrase the status text is the code
    followed by Unknown Reason-Phrase, and for every non-negative [int] it is shorter
    than the 50 bytes of the buffer it is printed to, so it is never cut. *)
Theorem unknown_status_is_not_truncated code :
  0 <= code < 2 ^ 31 ->
  getStatusCodeAndReasonPhrase code = None ->
  statusText code = pretty code +:+ " Unknown Reason-Phrase"
  /\ slen (statusText code) < 50.
Proof.
  intros Hcode Hnone. unfold statusText. rewrite Hnone.
  pose proof (pretty_Z_length 10 code ltac:(lia) ltac:(cbn; lia)) as Hlen.
  assert (Hall : slen (pretty code +:+ " Unknown Reason-Phrase") <= 32).
  { rewrite slen_append. change (slen " Unknown Reason-Phrase") with 22. lia. }
  rewrite take_all by (unfold slen in Hall; lia). split; [done|lia].
Qed.

End SimpleResponseBody.

(** ** Ending a request before the output is flushed, and disconnecting *)

Section Flushing.

Context `{Collaborators}.
Hypothesis ended_waiting : forall q, httpState q = WAITING_FOR_REFERENCES -> ended q = true.

(** [endRequest] up to the point where it leaves the request to the flush callback. *)
Lemma endRequest_parks_run c r cl req s :
  clients s !! c = Some cl -> currentRequest cl = Some r ->
  requests s !! r = Some req -> ended req = false -> responseBegun req = true ->
  0 <= endedRequestCount cl < 2 ^ 32 - 1 ->
  let fed := if output_ended (output cl) then output cl else output cl ++ [EmptyString] in
  output_endAcked fed = false ->
  exists s',
    endRequest c r s = Done true s'
    /\ trace s' = trace s
         ++ (if output_ended (output cl) then [] else [ClientOutput c EmptyString])
    /\ clients s' !! c
       = Some (set_output fed (set_endedRequestCount (endedRequestCount cl + 1)
                 (set_endedRequests (r :: endedRequests cl) cl)))
    /\ requests s' !! r = Some (set_httpState FLUSHING_OUTPUT (parked req)).
Proof.
  intros Hcl Hcur Hr He Hrb Hcnt fed Hack.
  assert (Hst : httpState req <> WAITING_FOR_REFERENCES).
  { intros Hw. rewrite ended_waiting in He by done. discriminate. }
  unfold endRequest, bind. rewrite (getRequest_Done r s req Hr), He.
  rewrite (getClient_Done c s cl Hcl), (bool_decide_eq_true_2 _ Hcur). cbn.
  rewrite Hrb. cbn. step. step.
  erewrite (deinitializeRequestAndAddToFreelist_run ended_waiting c r cl (set_pool None req));
    [|lookup_tac|done|lookup_tac].
  cbn [httpState set_pool]. rewrite (bool_decide_eq_false_2 _ Hst).
  unfold ended_on. cbn. step. step.
  rewrite (wrap32_small (endedRequestCount cl + 1)) by lia.
  subst fed. destruct (output_ended (output cl)) eqn:Hoe; cbn.
  - step. cbn in Hack. rewrite Hack. step.
    eexists. split; [reflexivity|]. cbn. rewrite !lookup_insert_eq, app_nil_r.
    split; [done|]. split; [by destruct cl|]. by destruct req.
  - unfold output_feed, bind, emit, modify. step. step. cbn in Hack.
    match goal with |- context [if output_endAcked ?x then _ else _] =>
      replace (output_endAcked x) with false by (symmetry; exact Hack)
    end. step.
    eexists. split; [reflexivity|]. cbn. rewrite !lookup_insert_eq.
    split; [done|]. split; [done|]. by destruct req.
Qed.

(** X16: [endRequest] on a request whose response has begun, when the end of the output
    is not acknowledged at once, returns [true] and feeds the empty buffer that ends the
    output unless it was fed before. The request is de-initialized and listed among the
    ended requests of the client, but it stays the current request, in state
    [FLUSHING_OUTPUT], with its pool and its references. *)
Theorem endRequest_parks_until_flushed c r cl req s :
  clients s !! c = Some cl -> currentRequest cl = Some r ->
  requests s !! r = Some req -> ended req = false -> responseBegun req = true ->
  0 <= endedRequestCount cl < 2 ^ 32 - 1 ->
  let fed := if output_ended (output cl) then output cl else output cl ++ [EmptyString] in
  output_endAcked fed = false ->
  exists s' cl' req',
    endRequest c r s = Done true s'
    /\ trace s' = trace s
         ++ (if output_ended (output cl) then [] else [ClientOutput c EmptyString])
    /\ clients s' !! c = Some cl'
    /\ currentRequest cl' = Some r /\ output cl' = fed
    /\ endedRequests cl' = r :: endedRequests cl
    /\ endedRequestCount cl' = endedRequestCount cl + 1
    /\ requests s' !! r = Some req'
    /\ httpState req' = FLUSHING_OUTPUT /\ pool req' = pool req
    /\ refcount req' = refcount req /\ headers req' = [] /\ path req' = [].
Proof.
  intros Hcl Hcur Hr He Hrb Hcnt fed Hack.
  destruct (endRequest_parks_run c r cl req s) as (s' & Hrun & Htr & Hcl' & Hr'); [done..|].
  do 3 eexists. split; [exact Hrun|]. split; [exact Htr|]. split; [exact Hcl'|].
  do 4 (split; [by cbn|]). split; [exact Hr'|]. by cbn.
Qed.

(** X22: a request that was ended while its output was not flushed and whose client is
    then disconnected is counted twice in [endedRequestCount]: once by [endRequest] and
    once more by [onClientDisconnecting], because [deinitializeRequestAndAddToFreelist]
    finds it in state [FLUSHING_OUTPUT] and not in [WAITING_FOR_REFERENCES]. The pool
    that [endRequest] kept for the flush is destroyed on the way. *)
Theorem flushing_request_is_counted_twice c r cl req s :
  clients s !! c = Some cl -> currentRequest cl = Some r ->
  requests s !! r = Some req -> ended req = false -> responseBegun req = true ->
  2 <= refcount req < 2 ^ 31 ->
  0 <= endedRequestCount cl < 2 ^ 32 - 2 ->
  let fed := if output_ended (output cl) then output cl else output cl ++ [EmptyString] in
  output_endAcked fed = false ->
  exists s1 s2 cl2 req2,
    endRequest c r s = Done true s1
    /\ onClientDisconnecting c s1 = Done tt s2
    /\ trace s2 = trace s1
    /\ clients s2 !! c = Some cl2 /\ currentRequest cl2 = None
    /\ endedRequestCount cl2 = endedRequestCount cl + 2
    /\ requests s2 !! r = Some req2
    /\ httpState req2 = WAITING_FOR_REFERENCES /\ pool req2 = None
    /\ refcount req2 = refcount req - 1.
Proof.
  intros Hcl Hcur Hr He Hrb Hrc Hcnt fed Hack.
  destruct (endRequest_parks_run c r cl req s) as (s1 & Hrun & Htr & Hcl1 & Hr1);
    [done|done|done|done|done|lia|done|].
  fold fed in Hcl1.
  set (cl1 := set_output fed _) in Hcl1.
  set (req1 := set_httpState FLUSHING_OUTPUT (parked req)) in Hr1.
  exists s1. rewrite Hrun.
  erewrite (onClientDisconnecting_run ended_waiting c cl1 s1); [|done|].
  2:{ intros r' Hr'. assert (Some r' = Some r) as [= ->] by (rewrite <- Hr'; exact Hcur).
      exists req1. split; [done|]. cbn. lia. }
  unfold disconnecting.
  replace (currentRequest cl1) with (Some r) by (symmetry; exact Hcur).
  rewrite Hr1.
  rewrite (bool_decide_eq_false_2 (httpState req1 = WAITING_FOR_REFERENCES)) by done.
  do 3 eexists. split; [reflexivity|]. split; [reflexivity|]. split; [reflexivity|].
  split; [destruct s1; apply lookup_insert_eq|]. split; [reflexivity|].
  split; [cbn; rewrite wrap32_small by lia; lia|].
  split; [destruct s1; cbn; rewrite insert_insert_eq; apply lookup_insert_eq|].
  split; [reflexivity|]. split; [reflexivity|].
  cbn. rewrite wrap_int_small; lia.
Qed.

(** X17: [_onClientOutputDataFlushed] does nothing unless the current request is in
    state [FLUSHING_OUTPUT]; in that state it calls [doneWithCurrentRequest], whose
    assertion that the state is [WAITING_FOR_REFERENCES] then fails. *)
Theorem output_flushed_callback c cl s :
  clients s !! c = Some cl ->
  (currentRequest cl = None -> _onClientOutputDataFlushed c s = Done tt s)
  /\ (forall r req, currentRequest cl = Some r -> requests s !! r = Some req ->
       (httpState req <> FLUSHING_OUTPUT -> _onClientOutputDataFlushed c s = Done tt s)
       /\ (httpState req = FLUSHING_OUTPUT ->
           _onClientOutputDataFlushed c s = Crash AssertionFailed)).
Proof.
  intros Hcl. split.
  - intros Hcur. unfold _onClientOutputDataFlushed, bind. step. by rewrite Hcur.
  - intros r req Hcur Hr. split; intros Hst.
    + unfold _onClientOutputDataFlushed, bind. step. rewrite Hcur. cbn. by step.
    + unfold _onClientOutputDataFlushed, bind. step. rewrite Hcur. cbn. step.
      unfold doneWithCurrentRequest, bind. step. rewrite Hcur. cbn. step.
      reflexivity.
Qed.

(** X18: [onClientDisconnecting] ends a current request that somebody else still refers
    to: the request is de-initialized, listed among the ended requests, left in
    [WAITING_FOR_REFERENCES] without its pool and with one reference less, and the
    client has no current request any more. Nothing is written, and a second call
    changes nothing. *)
Theorem disconnecting_ends_the_request c r cl req s :
  clients s !! c = Some cl -> currentRequest cl = Some r ->
  requests s !! r = Some req -> httpState req <> WAITING_FOR_REFERENCES ->
  2 <= refcount req < 2 ^ 31 -> 0 <= endedRequestCount cl < 2 ^ 32 - 1 ->
  exists s1 cl1 req1,
    onClientDisconnecting c s = Done tt s1
    /\ trace s1 = trace s
    /\ clients s1 !! c = Some cl1 /\ currentRequest cl1 = None
    /\ endedRequests cl1 = r :: endedRequests cl
    /\ endedRequestCount cl1 = endedRequestCount cl + 1
    /\ requests s1 !! r = Some req1
    /\ httpState req1 = WAITING_FOR_REFERENCES /\ refcount req1 = refcount req - 1
    /\ pool req1 = None /\ headers req1 = [] /\ secureHeaders req1 = [] /\ path req1 = []
    /\ onClientDisconnecting c s1 = Done tt s1.
Proof.
  intros Hcl Hcur Hr Hst Hrc Hcnt.
  erewrite (onClientDisconnecting_run ended_waiting c cl s); [|done|].
  2:{ intros r' Hr'. rewrite Hcur in Hr'. injection Hr' as <-. exists req. split; [done|lia]. }
  unfold disconnecting. rewrite Hcur, Hr. cbn. rewrite (bool_decide_eq_false_2 _ Hst).
  unfold ended_on. cbn. rewrite ?insert_insert_eq.
  rewrite (wrap_int_small (refcount req - 1)) by lia.
  rewrite (wrap32_small (endedRequestCount cl + 1)) by lia.
  do 3 eexists. split; [reflexivity|]. cbn. rewrite !lookup_insert_eq.
  repeat (split; [by cbn|]).
  unfold onClientDisconnecting, bind. step. reflexivity.
Qed.

(** X19: when a client is disconnected while its headers are being parsed, the header
    parser state is not given back: [deinitializeRequestAndAddToFreelist] sets the state
    to [WAITING_FOR_REFERENCES] before it calls [deinitializeRequest], which frees the
    parser state only in state [PARSING_HEADERS]. [deinitializeRequest] called on the
    same request directly does free it. *)
Theorem disconnect_keeps_header_parser_state c r cl req st s :
  clients s !! c = Some cl -> currentRequest cl = Some r ->
  requests s !! r = Some req ->
  httpState req = PARSING_HEADERS -> headerParser req = Some st ->
  2 <= refcount req < 2 ^ 31 ->
  exists s1 req1 s2 req2,
    onClientDisconnecting c s = Done tt s1
    /\ requests s1 !! r = Some req1
    /\ httpState req1 = WAITING_FOR_REFERENCES /\ headerParser req1 = Some st
    /\ deinitializeRequest c r s = Done tt s2
    /\ requests s2 !! r = Some req2
    /\ httpState req2 = WAITING_FOR_REFERENCES /\ headerParser req2 = None.
Proof.
  intros Hcl Hcur Hr Hst Hhp Hrc.
  erewrite (onClientDisconnecting_run ended_waiting c cl s); [|done|].
  2:{ intros r' Hr'. rewrite Hcur in Hr'. injection Hr' as <-. exists req. split; [done|lia]. }
  rewrite (deinitializeRequest_run c r req s Hr).
  unfold disconnecting. rewrite Hcur, Hr.
  rewrite (bool_decide_eq_false_2 (httpState req = WAITING_FOR_REFERENCES))
    by (rewrite Hst; discriminate).
  exists (set_requests
            (<[r := set_refcount (wrap_int (refcount req - 1))
                      (deinitialized (set_httpState WAITING_FOR_REFERENCES req))]>
               (requests (ended_on c r cl req s)))
            (set_clients
               (<[c := set_currentRequest None
                         (set_endedRequestCount (wrap32 (endedRequestCount cl + 1))
                            (set_endedRequests (r :: endedRequests cl) cl))]>
                  (clients (ended_on c r cl req s))) (ended_on c r cl req s))),
    (set_refcount (wrap_int (refcount req - 1))
       (deinitialized (set_httpState WAITING_FOR_REFERENCES req))),
    (set_requests (<[r := deinitialized req]> (requests s)) s),
    (deinitialized req).
  split; [reflexivity|].
  split; [destruct s; apply lookup_insert_eq|].
  split; [reflexivity|]. split; [by cbn|].
  split; [reflexivity|].
  split; [destruct s; apply lookup_insert_eq|].
  split; [reflexivity|].
  cbn. by rewrite Hst.
Qed.

End Flushing.

(** ** Ending a request whose output is flushed *)

Lemma filter_other {A} `{EqDecision A} (x : A) (l : list A) :
  x ∉ l -> filter (fun y => y ≠ x) l = l.
Proof.
  induction l as [|a l IH]; [done|]. intros Hn.
  apply not_elem_of_cons in Hn as [Hne Hn].
  rewrite filter_cons, decide_True by (intros ->; done). by rewrite IH.
Qed.

Section KeepAlive.

Context `{Collaborators}.
Hypothesis ended_waiting : forall q, httpState q = WAITING_FOR_REFERENCES -> ended q = true.

Lemma endRequest_to_done c r cl req s :
  clients s !! c = Some cl -> currentRequest cl = Some r ->
  requests s !! r = Some req -> ended req = false -> responseBegun req = true ->
  0 <= endedRequestCount cl < 2 ^ 32 - 1 ->
  let fed := if output_ended (output cl) then output cl else output cl ++ [EmptyString] in
  output_endAcked fed = true ->
  let cl1 := set_output fed (set_endedRequestCount (endedRequestCount cl + 1)
               (set_endedRequests (r :: endedRequests cl) cl)) in
  let s1 := set_trace (trace s ++ (if output_ended (output cl) then []
                                   else [ClientOutput c EmptyString]))
              (set_clients (<[c := cl1]> (clients s))
                 (set_requests (<[r := parked req]> (requests s)) s)) in
  endRequest c r s = (doneWithCurrentRequest c >> ret true) s1.
Proof.
  intros Hcl Hcur Hr He Hrb Hcnt fed Hack cl1 s1.
  assert (Hst : httpState req <> WAITING_FOR_REFERENCES).
  { intros Hw. rewrite ended_waiting in He by done. discriminate. }
  unfold endRequest, bind. rewrite (getRequest_Done r s req Hr), He.
  rewrite (getClient_Done c s cl Hcl), (bool_decide_eq_true_2 _ Hcur). cbn.
  rewrite Hrb. cbn. step. step.
  erewrite (deinitializeRequestAndAddToFreelist_run ended_waiting c r cl (set_pool None req));
    [|lookup_tac|done|lookup_tac].
  cbn [httpState set_pool]. rewrite (bool_decide_eq_false_2 _ Hst).
  unfold ended_on. cbn. step. step.
  rewrite (wrap32_small (endedRequestCount cl + 1)) by lia.
  subst s1 cl1 fed. destruct (output_ended (output cl)) eqn:Hoe; cbn.
  - step. cbn in Hack. rewrite Hack.
    rewrite app_nil_r. unfold parked.
    replace (set_trace (trace s) _) with
      (set_clients
          (<[c:=set_endedRequestCount (endedRequestCount cl + 1)
                  (set_endedRequests (r :: endedRequests cl) cl)]> (clients s))
          (set_requests
             (<[r:=set_pool (pool req)
                     (deinitialized (set_httpState WAITING_FOR_REFERENCES (set_pool None req)))]>
                (requests s)) s)); [reflexivity|].
    destruct s, cl, req; reflexivity.
  - unfold output_feed, bind, emit, modify. step. step. cbn in Hack.
    match goal with |- context [if output_endAcked ?x then _ else _] =>
      replace (output_endAcked x) with true by (symmetry; exact Hack)
    end.
    destruct s, cl, req; reflexivity.
Qed.


(** X20: [endRequest] on the event loop thread, with the end of the output acknowledged,
    keep-alive possible, nobody else holding the request and room on the freelist: the
    same request object becomes the next request of the client, re-initialized with a
    new pool. No object is allocated, the freelist, the ended requests and the reference
    count of the client are as before, the connection stays as it is, the input is
    started and the output is reset. *)
Theorem keep_alive_reuses_the_request c r cl req p s :
  clients s !! c = Some cl -> currentRequest cl = Some r ->
  requests s !! r = Some req -> ended req = false -> responseBegun req = true ->
  client req = Some c -> pool req = Some p -> refcount req = 1 ->
  r ∉ endedRequests cl -> 0 <= endedRequestCount cl < 2 ^ 32 - 1 ->
  - 2 ^ 31 < clientRefcount cl < 2 ^ 31 ->
  onEventLoopThread s = true ->
  0 <= freeRequestCount s < requestFreelistLimit s -> requestFreelistLimit s < 2 ^ 32 ->
  let fed := if output_ended (output cl) then output cl else output cl ++ [EmptyString] in
  output_endAcked fed = true ->
  canKeepAlive (parked req) = true ->
  exists s' cl' req',
    endRequest c r s = Done true s'
    /\ trace s' = trace s
         ++ (if output_ended (output cl) then [] else [ClientOutput c EmptyString])
    /\ clients s' !! c = Some cl'
    /\ currentRequest cl' = Some r /\ connState cl' = connState cl
    /\ input cl' = true /\ output cl' = []
    /\ endedRequests cl' = endedRequests cl
    /\ endedRequestCount cl' = endedRequestCount cl
    /\ clientRefcount cl' = clientRefcount cl
    /\ requests s' !! r = Some req'
    /\ req' = reinitialized (nextPool s) (deinitialized req)
    /\ freeRequests s' = freeRequests s /\ freeRequestCount s' = freeRequestCount s
    /\ nextRequestId s' = nextRequestId s.
Proof.
  intros Hcl Hcur Hr He Hrb Hc Hp Hrc Hnotin Hcnt Hcrc Hloop Hfree Hlim fed Hack Hka.
  rewrite (endRequest_to_done c r cl req s) by done.
  fold fed.
  set (cl1 := set_output fed _).
  set (s1 := set_trace _ _).
  assert (Hcl1 : clients s1 !! c = Some cl1) by (destruct s; apply lookup_insert_eq).
  assert (Hr1 : requests s1 !! r = Some (parked req)) by (destruct s; apply lookup_insert_eq).
  unfold doneWithCurrentRequest, bind.
  rewrite (getClient_Done c s1 cl1 Hcl1).
  replace (currentRequest cl1) with (Some r) by (symmetry; exact Hcur).
  cbn [deref assert bool_decide]. 
  rewrite (bool_decide_eq_true_2 (Some r <> None)) by done. cbn [assert ret deref].
  rewrite (getRequest_Done r s1 _ Hr1), Hka.
  rewrite (bool_decide_eq_true_2 (httpState (parked req) = WAITING_FOR_REFERENCES)) by done.
  rewrite (bool_decide_eq_true_2 (pool (parked req) <> None)) by (cbn; by rewrite Hp).
  cbn [assert ret].
  rewrite (updClient_Done c _ s1 cl1 Hcl1).
  set (s2 := set_clients _ s1).
  assert (Hr2 : requests s2 !! r = Some (parked req)) by exact Hr1.
  rewrite (updRequest_Done r _ s2 _ Hr2).
  set (s3 := set_requests _ s2).
  set (cl2 := set_currentRequest None cl1) in *.
  assert (Hcl3 : clients s3 !! c = Some cl2) by (destruct s; apply lookup_insert_eq).
  assert (Hr3 : requests s3 !! r = Some (set_pool None (parked req)))
    by (destruct s; apply lookup_insert_eq).
  rewrite (unrefRequest_last_run c r cl2 (set_pool None (parked req)) s3);
    [|done|done|done|done|done|cbn; lia|done|done].
  replace (onEventLoopThread s3) with true by (symmetry; exact Hloop).
  unfold released.
  replace (freeRequestCount _ <? requestFreelistLimit _) with true
    by (symmetry; apply Z.ltb_lt; cbn; lia).
  set (s4 := set_clients _ _).
  set (cl4 := set_clientRefcount _ _) in *.
  set (req4 := set_httpState IN_FREELIST _) in *.
  erewrite (handleNextRequest_recycled c cl4 r (freeRequests s) req4 s4);
    [|by (destruct s; apply lookup_insert_eq)|done|cbn; rewrite wrap32_small; lia
     |by (destruct s; apply lookup_insert_eq)|done].
  cbn [ret]. do 3 eexists. split; [reflexivity|].
  unfold nextRequest.
  split; [reflexivity|].
  split; [destruct s; apply lookup_insert_eq|].
  split; [reflexivity|]. split; [reflexivity|]. split; [reflexivity|]. split; [reflexivity|].
  split; [cbn; rewrite decide_False by (intros Hn; by apply Hn);
          by apply filter_other|].
  split; [cbn; rewrite wrap32_small; lia|].
  split; [cbn; rewrite (wrap_int_small (clientRefcount cl - 1)) by lia;
          rewrite wrap_int_small; lia|].
  split; [destruct s; apply lookup_insert_eq|].
  split; [unfold req4, reinitialized; cbn; rewrite Hrc, Hc; reflexivity|].
  split; [reflexivity|].
  split; [cbn; rewrite (wrap32_small (freeRequestCount s + 1)) by lia;
          rewrite wrap32_small; lia|].
  reflexivity.
Qed.

(** X21: the same without keep-alive: the request goes to the head of the freelist, in
    state [IN_FREELIST] with one reference and no client, and the client is disconnected
    after the end of the output, without a current request and with two references less.
    *)
Theorem no_keep_alive_closes_the_connection c r cl req p s :
  clients s !! c = Some cl -> currentRequest cl = Some r -> connState cl = ACTIVE ->
  requests s !! r = Some req -> ended req = false -> responseBegun req = true ->
  client req = Some c -> pool req = Some p -> refcount req = 1 ->
  r ∉ endedRequests cl -> 0 <= endedRequestCount cl < 2 ^ 32 - 1 ->
  - 2 ^ 31 + 2 <= clientRefcount cl < 2 ^ 31 ->
  onEventLoopThread s = true ->
  0 <= freeRequestCount s < requestFreelistLimit s -> requestFreelistLimit s < 2 ^ 32 ->
  let fed := if output_ended (output cl) then output cl else output cl ++ [EmptyString] in
  output_endAcked fed = true ->
  canKeepAlive (parked req) = false ->
  exists s' cl' req',
    endRequest c r s = Done true s'
    /\ trace s' = trace s
         ++ (if output_ended (output cl) then [] else [ClientOutput c EmptyString])
         ++ [Disconnected c]
    /\ clients s' !! c = Some cl'
    /\ currentRequest cl' = None /\ connState cl' = DISCONNECTED
    /\ output cl' = fed
    /\ endedRequests cl' = endedRequests cl
    /\ endedRequestCount cl' = endedRequestCount cl
    /\ clientRefcount cl' = clientRefcount cl - 2
    /\ requests s' !! r = Some req'
    /\ httpState req' = IN_FREELIST /\ refcount req' = 1 /\ client req' = None
    /\ pool req' = None
    /\ freeRequests s' = r :: freeRequests s
    /\ freeRequestCount s' = freeRequestCount s + 1
    /\ nextRequestId s' = nextRequestId s.
Proof.
  intros Hcl Hcur Hact Hr He Hrb Hc Hp Hrc Hnotin Hcnt Hcrc Hloop Hfree Hlim fed Hack Hka.
  rewrite (endRequest_to_done c r cl req s) by done.
  fold fed.
  set (cl1 := set_output fed _).
  set (s1 := set_trace _ _).
  assert (Hcl1 : clients s1 !! c = Some cl1) by (destruct s; apply lookup_insert_eq).
  assert (Hr1 : requests s1 !! r = Some (parked req)) by (destruct s; apply lookup_insert_eq).
  unfold doneWithCurrentRequest, bind.
  rewrite (getClient_Done c s1 cl1 Hcl1).
  replace (currentRequest cl1) with (Some r) by (symmetry; exact Hcur).
  cbn [deref assert bool_decide].
  rewrite (bool_decide_eq_true_2 (Some r <> None)) by done. cbn [assert ret deref].
  rewrite (getRequest_Done r s1 _ Hr1), Hka.
  rewrite (bool_decide_eq_true_2 (httpState (parked req) = WAITING_FOR_REFERENCES)) by done.
  rewrite (bool_decide_eq_true_2 (pool (parked req) <> None)) by (cbn; by rewrite Hp).
  cbn [assert ret].
  rewrite (updClient_Done c _ s1 cl1 Hcl1).
  set (s2 := set_clients _ s1).
  assert (Hr2 : requests s2 !! r = Some (parked req)) by exact Hr1.
  rewrite (updRequest_Done r _ s2 _ Hr2).
  set (s3 := set_requests _ s2).
  set (cl2 := set_currentRequest None cl1) in *.
  assert (Hcl3 : clients s3 !! c = Some cl2) by (destruct s; apply lookup_insert_eq).
  assert (Hr3 : requests s3 !! r = Some (set_pool None (parked req)))
    by (destruct s; apply lookup_insert_eq).
  rewrite (unrefRequest_last_run c r cl2 (set_pool None (parked req)) s3);
    [|done|done|done|done|done|cbn; lia|done|done].
  replace (onEventLoopThread s3) with true by (symmetry; exact Hloop).
  unfold released.
  replace (freeRequestCount _ <? requestFreelistLimit _) with true
    by (symmetry; apply Z.ltb_lt; cbn; lia).
  set (s4 := set_clients _ _).
  set (cl4 := set_clientRefcount _ _) in *.
  set (req4 := set_httpState IN_FREELIST _) in *.
  assert (Hcl4 : clients s4 !! c = Some cl4) by (destruct s; apply lookup_insert_eq).
  rewrite (disconnect_run ended_waiting c cl4 s4 Hcl4) by (intros r'; discriminate).
  replace (connState cl4) with ACTIVE by (symmetry; exact Hact).
  cbn [ret]. unfold disconnected. unfold disconnecting.
  cbn [currentRequest set_connState cl4 set_clientRefcount set_endedRequestCount
       set_endedRequests cl2 set_currentRequest].
  set (s5 := set_trace _ _).
  set (cl5 := set_connState DISCONNECTED cl4) in *.
  assert (Hcl5 : clients s5 !! c = Some cl5) by (destruct s; apply lookup_insert_eq).
  rewrite Hcl5.
  do 3 eexists. split; [reflexivity|].
  split; [cbn; by rewrite <- app_assoc|].
  split; [destruct s; apply lookup_insert_eq|].
  split; [reflexivity|]. split; [reflexivity|]. split; [reflexivity|].
  split; [cbn; rewrite decide_False by (intros Hn; by apply Hn);
          by apply filter_other|].
  split; [cbn; rewrite wrap32_small; lia|].
  split; [cbn; rewrite (wrap_int_small (clientRefcount cl - 1)) by lia;
          rewrite wrap_int_small; lia|].
  split; [destruct s; cbn; rewrite insert_insert_eq; apply lookup_insert_eq|].
  split; [reflexivity|]. split; [reflexivity|]. split; [reflexivity|]. split; [reflexivity|].
  split; [reflexivity|].
  split; [cbn; rewrite wrap32_small; lia|].
  reflexivity.
Qed.

End KeepAlive.

(** * Concrete runs *)

(** The statements above, run on the concrete servers with the reference
    collaborators. *)

Ltac concrete := vm_compute; repeat split; first [reflexivity | discriminate | done].

Lemma ref_ended_waiting q :
  httpState q = WAITING_FOR_REFERENCES -> ended (Collaborators := reference) q = true.
Proof. cbn. unfold ref_ended. by intros ->. Qed.


Lemma ref_ended_state q q' :
  httpState q = httpState q' ->
  ended (Collaborators := reference) q = ended (Collaborators := reference) q'.
Proof. cbn. unfold ref_ended. by intros ->. Qed.

Lemma ref_bodyFullyRead_law q :
  bodyType q = RBT_CONTENT_LENGTH ->
  bodyFullyRead (Collaborators := reference) q = (aux_contentLength q <=? bodyAlreadyRead q).
Proof. cbn. unfold ref_bodyFullyRead. by intros ->. Qed.

Lemma ref_status_short code status : ref_status code = Some status -> slen status <= 64.
Proof. unfold ref_status. repeat case_match; intros [= <-]; by vm_compute. Qed.

Lemma posting_delivery : bodyDelivery 0%nat 0%nat posting ["abc"; "defgh"] posted2.
Proof.
  apply (delivery_data 0%nat 0%nat posting "abc" 0 {| consumed := 3; channel_end := false |}
           posted1 ["defgh"] posted2).
  - exists (clientOf posting), (requestOf posting). concrete.
  - reflexivity.
  - vm_compute; reflexivity.
  - apply (delivery_data 0%nat 0%nat posted1 "defgh" 0 {| consumed := 2; channel_end := false |}
             posted2 [] posted2).
    + exists (clientOf posted1), (requestOf posted1). concrete.
    + reflexivity.
    + vm_compute; reflexivity.
    + apply delivery_done.
Qed.

(** Eight bytes arrive for a five-byte body: five are handed on. *)
Lemma content_length_body_is_clamped_witness :
  bodyBytes 0%nat (trace posted2) = "abcde"
  /\ slen (bodyBytes 0%nat (trace posted2)) - slen (bodyBytes 0%nat (trace posting))
     = Z.min (slen (received ["abc"; "defgh"])) 5
  /\ forall req', requests posted2 !! 0%nat = Some req' ->
       aux_contentLength req' = 5 /\ bodyAlreadyRead req' = 5.
Proof.
  destruct (content_length_body_is_clamped 0%nat 0%nat posting ["abc"; "defgh"] posted2
              (requestOf posting) posting_delivery) as (Hbytes & Hlen & _ & Hreq);
    [concrete..|].
  split; [exact Hbytes|]. split; [exact Hlen|].
  intros req' Hreq'. destruct (Hreq req' Hreq') as (Hcl & Hbar & _).
  split; [exact Hcl | exact Hbar].
Defined.


Lemma freelist_accepts_iff_below_limit_witness :
  exists s',
    requestReachedZeroRefcount 0%nat lingering = Done tt s'
    /\ freeRequests s' = [0%nat] /\ freeRequestCount s' = 1.
Proof.
  destruct (freelist_accepts_iff_below_limit 0%nat 0%nat (clientOf lingering)
              (requestOf lingering) lingering) as (_ & s' & Hrun & _ & _ & _ & Hacc);
    [concrete..|].
  exists s'. split; [exact Hrun|].
  change (freeRequestCount lingering <? requestFreelistLimit lingering) with true in Hacc.
  destruct Hacc as (Hf & Hn & _). split; [exact Hf | exact Hn].
Defined.


Lemma eof_while_parsing_body_witness :
  exists s' e evs,
    onClientDataReceived 0%nat EmptyString 0 posting
      = Done {| consumed := 0; channel_end := false |} s'
    /\ trace s' = trace posting ++ e :: evs
    /\ Forall (is_Disconnected 0%nat) evs
    /\ (bodyAlreadyRead (requestOf posting) < aux_contentLength (requestOf posting)
        -> e = BodyError 0%nat UNEXPECTED_EOF)
    /\ (bodyAlreadyRead (requestOf posting) = aux_contentLength (requestOf posting)
        -> e = BodyData 0%nat EmptyString).
Proof.
  refine (eof_while_parsing_body ref_ended_waiting 0%nat 0%nat (clientOf posting)
            (requestOf posting) posting ref_bodyFullyRead_law _ _ _ _ _ _ _ _);
    concrete.
Defined.


Lemma handleNextRequest_allocation_failure_witness :
  handleNextRequest 0%nat exhausted = Crash NullPointer.
Proof.
  refine (handleNextRequest_allocation_failure 0%nat Client_new exhausted _ _ _); concrete.
Defined.


Lemma head_response_has_no_body_witness :
  exists s' cl',
    writeSimpleResponse 0%nat 200 None "hello" heading = Done tt s'
    /\ trace s' = trace heading
         ++ [ClientOutput 0%nat
               (simpleResponseHeader (requestOf heading) (now heading) 200 None "hello")]
    /\ clients s' !! 0%nat = Some cl'
    /\ output cl' = output (clientOf heading)
         ++ [simpleResponseHeader (requestOf heading) (now heading) 200 None "hello"].
Proof.
  refine (head_response_has_no_body 0%nat 0%nat (clientOf heading) (requestOf heading)
            0%nat 200 None "hello" heading _ _ _ _ _ _ (ref_status_short 200) _ _ _);
    concrete.
Defined.

Lemma eof_while_parsing_headers_witness :
  exists s',
    onClientDataReceived 0%nat EmptyString 0 serving
      = Done {| consumed := 0; channel_end := true |} s'
    /\ trace s' = trace serving ++ [Disconnected 0%nat]
    /\ totalRequestsAccepted s' = totalRequestsAccepted serving
    /\ exists cl', clients s' !! 0%nat = Some cl' /\ connState cl' = DISCONNECTED
         /\ currentRequest cl' = None /\ output cl' = output (clientOf serving).
Proof.
  refine (eof_while_parsing_headers ref_ended_waiting 0%nat 0%nat (clientOf serving)
            (requestOf serving) 0 serving _ _ _ _ _ _ _ _);
    concrete.
Defined.

(** ** Further runs *)

(** The same for the statements about the rest of the request life cycle; the
    second instance stands for a peer that reads slowly. *)

Lemma ref_ended_parsing q :
  httpState q = PARSING_BODY -> ended (Collaborators := reference) q = false.
Proof. cbn. unfold ref_ended. by intros ->. Qed.

Lemma ref_ended_upgraded q :
  httpState q = UPGRADED -> ended (Collaborators := reference) q = false.
Proof. cbn. unfold ref_ended. by intros ->. Qed.

Lemma ref_bodyFullyRead_upgrade q :
  bodyType q = RBT_UPGRADE -> bodyFullyRead (Collaborators := reference) q = false.
Proof. cbn. unfold ref_bodyFullyRead. by intros ->. Qed.

Lemma recycled_in_order : freelistOk recycled.
Proof.
  split; [reflexivity|]. split; [by vm_compute|]. split; [repeat constructor; set_solver|].
  constructor; [|constructor]. split; [vm_compute; lia|].
  exists (requestOf recycled). by vm_compute.
Qed.

Lemma recycled_heap r' : is_Some (requests recycled !! r') -> (r' < nextRequestId recycled)%nat.
Proof.
  destruct r' as [|r']; [intros _; vm_compute; lia|].
  assert (Hmap : requests recycled = {[ 0%nat := requestOf recycled ]}) by (by vm_compute).
  rewrite Hmap, lookup_singleton_ne by done. by intros [? ?].
Qed.

Lemma freelist_round_trip_witness :
  exists s1,
    addRequestToFreelist 0%nat lingering = Done true s1
    /\ checkoutRequestObject 0%nat s1
       = Done (Some 0%nat)
           (set_requests
              (<[0%nat := set_httpState IN_FREELIST (set_refcount 1 (requestOf lingering))]>
                 (requests lingering)) lingering).
Proof.
  refine (freelist_round_trip 0%nat 0%nat (requestOf lingering) lingering _ _ _); concrete.
Defined.

Lemma freelist_stays_in_order_witness :
  exists s', handleNextRequest 0%nat recycled = Done tt s' /\ freelistOk s'.
Proof.
  destruct (freelist_stays_in_order 0%nat 0%nat recycled recycled_in_order recycled_heap)
    as (_ & Hnext & Hruns).
  destruct (Hruns (clientOf recycled)) as [s' Hs']; [concrete..|].
  exists s'. split; [exact Hs' | exact (Hnext s' Hs')].
Defined.

Lemma next_request_starts_clean_witness :
  exists s' cl' req,
    handleNextRequest 0%nat recycled = Done tt s'
    /\ freeRequests s' = []
    /\ clients s' !! 0%nat = Some cl'
    /\ currentRequest cl' = Some 0%nat /\ input cl' = true /\ output cl' = []
    /\ requests s' !! 0%nat = Some req
    /\ client req = Some 0%nat
    /\ httpState req = PARSING_HEADERS /\ httpMajor req = 1 /\ httpMinor req = 0
    /\ method req = HTTP_GET /\ bodyType req = RBT_NO_BODY
    /\ wantKeepAlive req = false /\ responseBegun req = false
    /\ bodyAlreadyRead req = 0 /\ aux_contentLength req = 0
    /\ pool req = Some (nextPool recycled) /\ headerParser req = Some []
    /\ path req = [] /\ calls (bodyChannel req) = [].
Proof.
  refine (next_request_starts_clean 0%nat (clientOf recycled) recycled _ _);
    [concrete|].
  vm_compute. split; [reflexivity|]. eexists. split; reflexivity.
Defined.

Lemma ref_then_unref_witness :
  exists s1, refRequest 0%nat getting = Done tt s1 /\ unrefRequest 0%nat s1 = Done tt getting.
Proof.
  refine (ref_then_unref 0%nat (requestOf getting) getting _ _); concrete.
Defined.

Lemma last_unref_off_the_event_loop_witness :
  exists s1 s2,
    unrefRequest 0%nat offLoop = Done tt s1
    /\ pendingCallbacks s1 = [0%nat] /\ freeRequests s1 = []
    /\ passRequestToEventLoopThreadCallback s1 = Done tt s2
    /\ unrefRequest 0%nat lingering = Done tt s2
    /\ freeRequests s2 = [0%nat].
Proof.
  destruct (last_unref_off_the_event_loop 0%nat 0%nat (clientOf offLoop) (requestOf offLoop)
              offLoop)
    as (s1 & req1 & s2 & Hun & _ & _ & _ & Hpend & Hfree & _ & Hcb & Hsame & _);
    [concrete..|].
  exists s1, s2. split; [exact Hun|]. split; [exact Hpend|]. split; [exact Hfree|].
  split; [exact Hcb|]. split; [exact Hsame|].
  assert (Hrun : unrefRequest 0%nat lingering = Done tt (stateAfter (unrefRequest 0%nat) lingering))
    by (vm_compute; reflexivity).
  assert (Hs2 : Done tt s2 = Done tt (stateAfter (unrefRequest 0%nat) lingering))
    by (rewrite <- Hrun; symmetry; exact Hsame).
  injection Hs2 as ->. vm_compute. reflexivity.
Defined.

Lemma header_parsing_outcomes_witness :
  exists s' cl',
    processClientDataWhenParsingHeaders 0%nat 0%nat "GET /" 0 serving
      = Done {| consumed := 5; channel_end := false |} s'
    /\ trace s' = trace serving ++ [RequestBegin 0%nat 0%nat]
    /\ totalRequestsAccepted s' = 1
    /\ clients s' !! 0%nat = Some cl' /\ input cl' = false.
Proof.
  destruct (header_parsing_outcomes 0%nat 0%nat (clientOf serving) (requestOf serving)
              (fst (headerParser_feed (requestOf serving) "GET /")) 5 "GET /" 0 serving)
    as (_ & Hbegun); [concrete..|].
  destruct Hbegun as (s' & cl' & Hrun & Htr & Hcnt & _ & Hcl & Hin & _); [left; concrete|].
  exists s', cl'. split; [exact Hrun|]. split; [exact Htr|]. split; [exact Hcnt|].
  split; [exact Hcl | exact Hin].
Defined.


Lemma read_error_reaches_the_body_channel_witness :
  exists s' evs,
    onClientDataReceived 0%nat EmptyString 104 posting
      = Done {| consumed := 0; channel_end := false |} s'
    /\ trace s' = trace posting ++ BodyError 0%nat 104 :: evs
    /\ Forall (is_Disconnected 0%nat) evs.
Proof.
  refine (read_error_reaches_the_body_channel ref_ended_waiting 0%nat 0%nat (clientOf posting)
            (requestOf posting) 104 posting _ _ _ _ _ _ _ _);
    try concrete.
  left. concrete.
Defined.

Lemma body_data_before_the_end_witness :
  exists s',
    onClientDataReceived 0%nat "abc" 0 posting
      = Done {| consumed := 3; channel_end := false |} s'
    /\ trace s' = trace posting ++ [BodyData 0%nat "abc"]
    /\ clients s' = clients posting
    /\ requests s' !! 0%nat
       = Some (set_bodyChannel
                 (set_calls (calls (bodyChannel (requestOf posting)) ++ [Feed "abc"])
                    (bodyChannel (requestOf posting)))
                 (set_bodyAlreadyRead 3 (requestOf posting))).
Proof.
  refine (body_data_before_the_end ref_ended_parsing ref_bodyFullyRead_law 0%nat 0%nat
            (clientOf posting) (requestOf posting) "abc" 0 posting
            _ _ _ _ _ _ _ _ _ _ _ _);
    concrete.
Defined.

Lemma last_body_byte_ends_the_body_witness :
  exists s' evs cl',
    onClientDataReceived 0%nat "defgh" 0 posted1
      = Done {| consumed := 2; channel_end := false |} s'
    /\ trace s' = trace posted1 ++ BodyData 0%nat "de" :: BodyData 0%nat EmptyString :: evs
    /\ Forall (is_Disconnected 0%nat) evs
    /\ clients s' !! 0%nat = Some cl' /\ input cl' = false.
Proof.
  refine (last_body_byte_ends_the_body ref_ended_waiting ref_ended_parsing ref_bodyFullyRead_law
            0%nat 0%nat (clientOf posted1) (requestOf posted1) "defgh" 0 posted1
            _ _ _ _ _ _ _ _ _ _ _ _ _);
    concrete.
Defined.


Lemma upgraded_data_is_not_clamped_witness :
  exists s' req',
    onClientDataReceived 0%nat "abc" 0 upgraded
      = Done {| consumed := 3; channel_end := false |} s'
    /\ trace s' = trace upgraded ++ [BodyData 0%nat "abc"]
    /\ requests s' !! 0%nat = Some req'
    /\ bodyAlreadyRead req' = 3 /\ httpState req' = UPGRADED.
Proof.
  destruct (upgraded_data_is_not_clamped ref_ended_upgraded ref_bodyFullyRead_upgrade
              0%nat 0%nat (clientOf upgraded) (requestOf upgraded) "abc" 0 upgraded)
    as (s' & cl' & req' & Hrun & Htr & _ & _ & Hreq & Hbar & Hst & _);
    [concrete..|].
  exists s', req'. repeat split; assumption.
Defined.

Lemma simple_response_body_follows_witness :
  let block := simpleResponseHeader (requestOf getting) (now getting) 200 None "hello" in
  exists s' cl' req',
    writeSimpleResponse 0%nat 200 None "hello" getting = Done tt s'
    /\ trace s' = trace getting ++ map (ClientOutput 0%nat) [block; "hello"]
    /\ clients s' !! 0%nat = Some cl' /\ output cl' = output (clientOf getting) ++ [block; "hello"]
    /\ requests s' !! 0%nat = Some req'
    /\ responseBegun req' = true.
Proof.
  destruct (simple_response_body_follows 0%nat 0%nat (clientOf getting) (requestOf getting)
              0%nat 200 None "hello" getting ref_ended_state)
    as (s' & cl' & req' & Hrun & Htr & Hcl & Hout & Hreq & Hrb & _);
    [concrete|concrete|concrete|concrete|concrete|concrete|exact (ref_status_short 200)
    |concrete|concrete|].
  exists s', cl', req'. repeat split; assumption.
Defined.

Lemma simple_response_header_values_witness :
  exists s' connection rest sent,
    writeSimpleResponse 0%nat 200 (Some extraHeaders) "hello" getting = Done tt s'
    /\ trace s' = trace getting
         ++ ClientOutput 0%nat
              (statusLines (requestOf getting) 200
               +:+ renderLines (("Content-Type", "text/html; charset=UTF-8")
                                 :: ("Date", "Mon, 02 Nov 2015 10:00:00 +0000")
                                 :: ("Connection", connection)
                                 :: ("Content-Length", "5") :: rest)
               +:+ CRLF) :: sent.
Proof.
  destruct (simple_response_header_values 0%nat 0%nat (clientOf getting) (requestOf getting)
              0%nat 200 (Some extraHeaders) "hello" getting)
    as (s' & contentType & date & connection & contentLength & rest & sent
        & Hrun & Htr & -> & -> & ->);
    [concrete|concrete|concrete|concrete|concrete|concrete|exact (ref_status_short 200)
    |concrete|concrete|concrete|].
  exists s', connection, rest, sent. split; [exact Hrun | exact Htr].
Defined.

Lemma unknown_status_is_not_truncated_witness :
  statusText 299 = "299 Unknown Reason-Phrase" /\ slen (statusText 299) < 50.
Proof.
  refine (unknown_status_is_not_truncated 299 _ _); concrete.
Defined.

Lemma endRequest_parks_until_flushed_witness :
  exists s' cl' req',
    endRequest (H := alternate) 0%nat 0%nat answered = Done true s'
    /\ trace s' = trace answered ++ [ClientOutput 0%nat EmptyString]
    /\ clients s' !! 0%nat = Some cl' /\ currentRequest cl' = Some 0%nat
    /\ endedRequests cl' = [0%nat] /\ endedRequestCount cl' = 1
    /\ requests s' !! 0%nat = Some req'
    /\ httpState req' = FLUSHING_OUTPUT /\ pool req' = pool (requestOf answered).
Proof.
  destruct (endRequest_parks_until_flushed (H := alternate) ref_ended_waiting 0%nat 0%nat
              (clientOf answered) (requestOf answered) answered)
    as (s' & cl' & req' & Hrun & Htr & Hcl & Hcur & _ & Hlist & Hcnt & Hreq & Hst & Hpool & _);
    [concrete..|].
  exists s', cl', req'. repeat split; assumption.
Defined.

Lemma output_flushed_callback_witness :
  _onClientOutputDataFlushed (H := alternate) 0%nat flushing = Crash AssertionFailed.
Proof.
  destruct (output_flushed_callback (H := alternate) 0%nat (clientOf flushing) flushing)
    as (_ & Hcur); [concrete|].
  destruct (Hcur 0%nat (requestOf flushing)) as (_ & Hflushing); [concrete..|].
  apply Hflushing. concrete.
Defined.

Lemma disconnecting_ends_the_request_witness :
  exists s1 cl1 req1,
    onClientDisconnecting 0%nat held = Done tt s1
    /\ clients s1 !! 0%nat = Some cl1 /\ currentRequest cl1 = None
    /\ endedRequests cl1 = [0%nat]
    /\ requests s1 !! 0%nat = Some req1
    /\ httpState req1 = WAITING_FOR_REFERENCES /\ refcount req1 = 1
    /\ onClientDisconnecting 0%nat s1 = Done tt s1.
Proof.
  destruct (disconnecting_ends_the_request ref_ended_waiting 0%nat 0%nat (clientOf held)
              (requestOf held) held)
    as (s1 & cl1 & req1 & Hrun & _ & Hcl & Hcur & Hlist & _ & Hreq & Hst & Hrc & _ & _ & _ & _
        & Hagain);
    [concrete..|].
  exists s1, cl1, req1. repeat split; assumption.
Defined.

Lemma disconnect_keeps_header_parser_state_witness :
  exists s1 req1 s2 req2,
    onClientDisconnecting 0%nat heldParsing = Done tt s1
    /\ requests s1 !! 0%nat = Some req1
    /\ httpState req1 = WAITING_FOR_REFERENCES /\ headerParser req1 = Some []
    /\ deinitializeRequest 0%nat 0%nat heldParsing = Done tt s2
    /\ requests s2 !! 0%nat = Some req2
    /\ httpState req2 = WAITING_FOR_REFERENCES /\ headerParser req2 = None.
Proof.
  refine (disconnect_keeps_header_parser_state ref_ended_waiting 0%nat 0%nat
            (clientOf heldParsing) (requestOf heldParsing) [] heldParsing _ _ _ _ _ _);
    concrete.
Defined.

Lemma keep_alive_reuses_the_request_witness :
  exists s' cl' req',
    endRequest 0%nat 0%nat answered = Done true s'
    /\ trace s' = trace answered ++ [ClientOutput 0%nat EmptyString]
    /\ clients s' !! 0%nat = Some cl'
    /\ currentRequest cl' = Some 0%nat /\ connState cl' = ACTIVE
    /\ input cl' = true /\ output cl' = []
    /\ endedRequests cl' = [] /\ endedRequestCount cl' = 0
    /\ requests s' !! 0%nat = Some req'
    /\ httpState req' = PARSING_HEADERS /\ responseBegun req' = false
    /\ nextRequestId s' = nextRequestId answered.
Proof.
  destruct (keep_alive_reuses_the_request ref_ended_waiting 0%nat 0%nat (clientOf answered)
              (requestOf answered) 0%nat answered)
    as (s' & cl' & req' & Hrun & Htr & Hcl & Hcur & Hconn & Hin & Hout & Hlist & Hcnt & _
        & Hreq & Heq & _ & _ & Hnext);
    [first [exact (not_elem_of_nil 0%nat) | concrete]..|].
  exists s', cl', req'. repeat split; try assumption; rewrite Heq; reflexivity.
Defined.

Lemma no_keep_alive_closes_the_connection_witness :
  exists s' cl' req',
    endRequest 0%nat 0%nat answeredHead = Done true s'
    /\ trace s' = trace answeredHead ++ [ClientOutput 0%nat EmptyString; Disconnected 0%nat]
    /\ clients s' !! 0%nat = Some cl'
    /\ currentRequest cl' = None /\ connState cl' = DISCONNECTED
    /\ requests s' !! 0%nat = Some req'
    /\ httpState req' = IN_FREELIST
    /\ freeRequests s' = [0%nat].
Proof.
  destruct (no_keep_alive_closes_the_connection ref_ended_waiting 0%nat 0%nat
              (clientOf answeredHead) (requestOf answeredHead) 0%nat answeredHead)
    as (s' & cl' & req' & Hrun & Htr & Hcl & Hcur & Hconn & _ & _ & _ & _ & Hreq & Hst & _ & _
        & _ & Hfree & _);
    [first [exact (not_elem_of_nil 0%nat) | concrete]..|].
  exists s', cl', req'. repeat split; assumption.
Defined.

Lemma flushing_request_is_counted_twice_witness :
  exists s1 s2 cl2 req2,
    endRequest (H := alternate) 0%nat 0%nat heldAnswered = Done true s1
    /\ onClientDisconnecting (H := alternate) 0%nat s1 = Done tt s2
    /\ clients s2 !! 0%nat = Some cl2 /\ currentRequest cl2 = None
    /\ endedRequestCount cl2 = 2
    /\ requests s2 !! 0%nat = Some req2
    /\ httpState req2 = WAITING_FOR_REFERENCES /\ pool req2 = None /\ refcount req2 = 1.
Proof.
  destruct (flushing_request_is_counted_twice (H := alternate) ref_ended_waiting 0%nat 0%nat
              (clientOf heldAnswered) (requestOf heldAnswered) heldAnswered)
    as (s1 & s2 & cl2 & req2 & Hrun & Hdisc & _ & Hcl & Hcur & Hcnt & Hreq & Hst & Hpool & Hrc);
    [concrete..|].
  exists s1, s2, cl2, req2. repeat split; assumption.
Defined.
